(** * CCFeeAgent: entity resolution and the deterministic fee engine

    A shallow embedding of
    - [FeeCalculator] (src/vc_enhanced_utils.py): [_apply_rounding],
      [_get_enhanced_fee_structure], [_apply_enhanced_investor_adjustments],
      [_calculate_enhanced_gross_investment],
      [_calculate_enhanced_net_investment], [_create_reconciliation],
      [calc_breakdown];
    - [ExcelLocalThreeSheet] (src/adapters/excel_three_sheet_adapter.py):
      [find_investor_row], [find_fee_row], [find_company_row],
      [resolve_payload].

    Python exceptions are values of [result]; dictionaries are [gmap]s keyed
    by strings; Python floats are an interface [PyFloat] with two
    instances: IEEE binary64 (what CPython computes) and exact rationals
    (the arithmetic the fee formulas are written for). *)

From Stdlib Require Import ZArith QArith Qround Qabs Lqa Lia Floats.
From Stdlib Require Import String Ascii List Permutation.
From stdpp Require Import base option list gmap strings pretty.

Local Open Scope Z_scope.
Local Open Scope string_scope.

(** ** Exceptions *)

Inductive exn : Type :=
| KeyError (key : string)
| TypeError
| ValueError (msg : string)
| ZeroDivisionError
| OverflowError
| ImportError
| ReError.

Inductive result (A : Type) : Type :=
| Ok (a : A)
| Raise (e : exn).
Arguments Ok {A} a.
Arguments Raise {A} e.

#[global] Instance result_ret : MRet result := @Ok.
#[global] Instance result_bind : MBind result :=
  fun A B f m => match m with Ok a => f a | Raise e => Raise e end.

Definition returns {A} (m : result A) : Prop := exists a, m = Ok a.
Definition raises {A} (m : result A) : Prop := exists e, m = Raise e.

(** ** Python floats

    The operations [FeeCalculator] applies to floats.  [f_round2] is
    [round(x, 2)]; [f_ceil] and [f_floor] are [math.ceil] and [math.floor],
    which return Python integers and raise on infinities and NaN;
    [f_of_ratio n d] is the float closest to n/d: the value of a decimal
    literal, and of the true division of two Python integers;
    [f_of_int] is [float(n)]; [f_square x] is [x ** 2]. *)

Class PyFloat (F : Type) : Type := {
  f_of_ratio : Z -> positive -> F;
  f_of_int : Z -> result F;
  f_add : F -> F -> F;
  f_sub : F -> F -> F;
  f_mul : F -> F -> F;
  f_div : F -> F -> F;
  f_square : F -> F;
  f_abs : F -> F;
  f_is_zero : F -> bool;
  f_round2 : F -> F;
  f_ceil : F -> result Z;
  f_floor : F -> result Z;
}.

(** Rounding a rational to the nearest integer, ties to the even one. *)
Definition Zround_half_even (q : Q) : Z :=
  let n := Qfloor q in
  match Qcompare (q - inject_Z n) (1 # 2) with
  | Lt => n
  | Gt => n + 1
  | Eq => if Z.even n then n else n + 1
  end.

(** *** Exact rationals *)

Module Exact.

Definition round2 (x : Q) : Q := Zround_half_even (x * 100) # 100.

#[global] Instance Q_float : PyFloat Q := {
    f_of_ratio n d := n # d;
    f_of_int n := Ok (inject_Z n);
    f_add := Qplus;
    f_sub := Qminus;
    f_mul := Qmult;
    f_div := Qdiv;
    f_square x := Qmult x x;
    f_abs := Qabs;
    f_is_zero x := Qeq_bool x 0;
    f_round2 := round2;
    f_ceil x := Ok (Qceiling x);
    f_floor x := Ok (Qfloor x);
  }.

End Exact.

(** *** IEEE binary64

    CPython's float is the C double.  Sums, differences, products and
    quotients are the primitive binary64 operations.  [round(x, 2)] prints
    the exact binary value of x with two decimals, correctly rounded with
    ties to even, and reads the decimal back, correctly rounded.  [x ** 2]
    is the C library's [pow(x, 2.0)], taken as the correctly rounded
    square. *)

Module Binary64.

  (** The float closest to n/d (round to nearest, ties to even). *)
Definition nearest (n : Z) (d : positive) : float :=
    let round_pos (s : bool) (p : positive) :=
      let '(mz, ez, lz) := SFdiv_core_binary prec emax (Zpos p) 0 (Zpos d) 0 in
      SF2Prim (binary_round_aux prec emax s mz ez lz) in
    match n with
    | Z0 => PrimFloat.zero
    | Zpos p => round_pos false p
    | Zneg p => round_pos true p
    end.

  (** The exact value of a finite float. *)
Definition exact (x : float) : Q :=
    match Prim2SF x with
    | S754_finite s m e =>
        let v := match e with
                 | Z0 => Zpos m # 1
                 | Zpos k => (Zpos m * 2 ^ Zpos k) # 1
                 | Zneg k => Zpos m # (2 ^ k)
                 end in
        if s then Qopp v else v
    | _ => 0
    end.

Definition round2 (x : float) : float :=
    if negb (PrimFloat.is_finite x) then x
    else
      let n := Zround_half_even (exact x * 100) in
      if Z.eqb n 0 then (if get_sign x then neg_zero else PrimFloat.zero)
      else nearest n 100.

Definition to_int (rnd : Q -> Z) (x : float) : result Z :=
    if PrimFloat.is_nan x then Raise (ValueError "cannot convert float NaN to integer")
    else if PrimFloat.is_infinity x then Raise OverflowError
    else Ok (rnd (exact x)).

Definition of_int (n : Z) : result float :=
    let x := nearest n 1 in
    if PrimFloat.is_infinity x then Raise OverflowError else Ok x.

#[global] Instance binary64_float : PyFloat float := {
    f_of_ratio := nearest;
    f_of_int := of_int;
    f_add := PrimFloat.add;
    f_sub := PrimFloat.sub;
    f_mul := PrimFloat.mul;
    f_div := PrimFloat.div;
    f_square x := PrimFloat.mul x x;
    f_abs := PrimFloat.abs;
    f_is_zero := PrimFloat.is_zero;
    f_round2 := round2;
    f_ceil := to_int Qceiling;
    f_floor := to_int Qfloor;
  }.

End Binary64.

(** ** Python values held in the dictionaries *)

Inductive pyval (F : Type) : Type :=
| PNone
| PBool (b : bool)
| PInt (n : Z)
| PFloat (x : F)
| PStr (s : string).
Arguments PNone {F}.
Arguments PBool {F} b.
Arguments PInt {F} n.
Arguments PFloat {F} x.
Arguments PStr {F} s.

(** [str.lower] and [str.upper] on the ASCII letters. *)
Definition lower_ascii (c : ascii) : ascii :=
  let n := nat_of_ascii c in
  if (65 <=? n)%nat && (n <=? 90)%nat then ascii_of_nat (n + 32) else c.

Definition upper_ascii (c : ascii) : ascii :=
  let n := nat_of_ascii c in
  if (97 <=? n)%nat && (n <=? 122)%nat then ascii_of_nat (n - 32) else c.

Fixpoint str_map (f : ascii -> ascii) (s : string) : string :=
  match s with
  | EmptyString => EmptyString
  | String c r => String (f c) (str_map f r)
  end.

Definition lower : string -> string := str_map lower_ascii.
Definition upper : string -> string := str_map upper_ascii.

Definition str_eqb (a b : string) : bool := bool_decide (a = b).

(** [n] as a string of decimal digits ([str] of a Python integer). *)
Definition str_of_int (n : Z) : string :=
  match n with
  | Z0 => "0"
  | Zpos p => pretty (Npos p)
  | Zneg p => "-" ++ pretty (Npos p)
  end.

Section Values.

Context {F : Type} `{PyFloat F}.

  (** The runtime's conversions between floats and strings: [float(s)] for a
      string [s] ([None] when it raises [ValueError]) and [repr] of a float. *)
Variable float_of_str : string -> option F.
Variable float_repr : F -> string.

  (** [float(v)] *)
Definition py_float (v : pyval F) : result F :=
    match v with
    | PNone => Raise TypeError
    | PBool b => Ok (f_of_ratio (if b then 1 else 0) 1)
    | PInt n => f_of_int n
    | PFloat x => Ok x
    | PStr s => match float_of_str s with
                | Some x => Ok x
                | None => Raise (ValueError "could not convert string to float")
                end
    end.

  (** [str(v)] *)
Definition py_str (v : pyval F) : string :=
    match v with
    | PNone => "None"
    | PBool b => if b then "True" else "False"
    | PInt n => str_of_int n
    | PFloat x => float_repr x
    | PStr s => s
    end.

  (** Truth value of [v], as tested by [or], [not] and [if]. *)
Definition py_truthy (v : pyval F) : bool :=
    match v with
    | PNone => false
    | PBool b => b
    | PInt n => negb (Z.eqb n 0)
    | PFloat x => negb (f_is_zero x)
    | PStr s => negb (str_eqb s "")
    end.

  (** [a or b] *)
Definition py_or (a b : pyval F) : pyval F := if py_truthy a then a else b.

  (** [v == s] for a string literal [s] *)
Definition py_is_str (v : pyval F) (s : string) : bool :=
    match v with
    | PStr s' => str_eqb s' s
    | _ => false
    end.

  (** [v * c] for a float [c], the step of [v *= c] *)
Definition py_mul_float (v : pyval F) (c : F) : result (pyval F) :=
    match v with
    | PNone => Raise TypeError
    | PStr _ => Raise TypeError
    | PBool b => Ok (PFloat (f_mul (f_of_ratio (if b then 1 else 0) 1) c))
    | PInt n => x ← f_of_int n; Ok (PFloat (f_mul x c))
    | PFloat x => Ok (PFloat (f_mul x c))
    end.

  (** [d.get(k)], with [None] for a missing key *)
Definition dict_get (d : gmap string (pyval F)) (k : string) : pyval F :=
    default PNone (d !! k).

  (** [d[k]] *)
Definition dict_item (d : gmap string (pyval F)) (k : string) : result (pyval F) :=
    match d !! k with
    | Some v => Ok v
    | None => Raise (KeyError k)
    end.

End Values.

(** ** The dictionary returned by the two calculation routines *)

(** The lines of ['steps'] are formatted strings; a step keeps the values
    that its line interpolates. *)
Inductive step (F : Type) : Type :=
| StepRetailBase (gross upfront_tot amc_base : F)
| StepProfessionalBase (amc_base : F)
| StepUpfront (gross : F) (pct : pyval F) (ex vat : F)
| StepAmc13 (amc_base : F) (pct : pyval F) (ex vat : F)
| StepAmc45 (amc_base : F) (pct : pyval F) (ex vat : F)
| StepNetAmount (net : F)
| StepDerivedGross (multiplier gross : F).
Arguments StepRetailBase {F}.
Arguments StepProfessionalBase {F}.
Arguments StepUpfront {F}.
Arguments StepAmc13 {F}.
Arguments StepAmc45 {F}.
Arguments StepNetAmount {F}.
Arguments StepDerivedGross {F}.

Record applied_rates_dict (F : Type) : Type := {
  ar_upfront_pct : F;
  ar_amc_1_3_pct : F;
  ar_amc_4_5_pct : F;
  ar_vat_rate_pct : F;
  ar_amc_base : F;
}.
Arguments ar_upfront_pct {F}.
Arguments ar_amc_1_3_pct {F}.
Arguments ar_amc_4_5_pct {F}.
Arguments ar_vat_rate_pct {F}.
Arguments ar_amc_base {F}.

Record fee_breakdown_dict (F : Type) : Type := {
  upfront : F;
  upfront_ex_vat : F;
  upfront_vat : F;
  upfront_total : F;
  amc_1_3 : F;
  amc_1_3_ex_vat : F;
  amc_1_3_vat : F;
  amc_1_3_total : F;
  amc_4_5 : F;
  amc_4_5_ex_vat : F;
  amc_4_5_vat : F;
  amc_4_5_total : F;
  performance : F;
}.
Arguments upfront {F}.
Arguments upfront_ex_vat {F}.
Arguments upfront_vat {F}.
Arguments upfront_total {F}.
Arguments amc_1_3 {F}.
Arguments amc_1_3_ex_vat {F}.
Arguments amc_1_3_vat {F}.
Arguments amc_1_3_total {F}.
Arguments amc_4_5 {F}.
Arguments amc_4_5_ex_vat {F}.
Arguments amc_4_5_vat {F}.
Arguments amc_4_5_total {F}.
Arguments performance {F}.

Record breakdown_dict (F : Type) : Type := {
  base_investment : F;
  investor_type : string;
  applied_rates : applied_rates_dict F;
  fee_breakdown : fee_breakdown_dict F;
  total_amount_required : F;
  total_amount_provided : option F;
}.
Arguments base_investment {F}.
Arguments investor_type {F}.
Arguments applied_rates {F}.
Arguments fee_breakdown {F}.
Arguments total_amount_required {F}.
Arguments total_amount_provided {F}.

Record calc_dict (F : Type) : Type := {
  gross_investment : F;
  net_investment : F;
  upfront_fee : F;
  amc_1_3_fee : F;
  amc_4_5_fee : F;
  performance_fee : F;
  total_fees : F;
  total_transfer : F;
  method : string;
  steps : list (step F);
  breakdown : breakdown_dict F;
}.
Arguments gross_investment {F}.
Arguments net_investment {F}.
Arguments upfront_fee {F}.
Arguments amc_1_3_fee {F}.
Arguments amc_4_5_fee {F}.
Arguments performance_fee {F}.
Arguments total_fees {F}.
Arguments total_transfer {F}.
Arguments method {F}.
Arguments steps {F}.
Arguments breakdown {F}.

(** Assignments to keys of the dictionary: [d['total_transfer'] = v],
    [d['method'] = m], [d['steps'] = l] and
    [d['breakdown']['total_amount_provided'] = v]. *)
Definition set_total_transfer {F} (d : calc_dict F) (v : F) : calc_dict F :=
  {| gross_investment := d.(gross_investment);
     net_investment := d.(net_investment);
     upfront_fee := d.(upfront_fee);
     amc_1_3_fee := d.(amc_1_3_fee);
     amc_4_5_fee := d.(amc_4_5_fee);
     performance_fee := d.(performance_fee);
     total_fees := d.(total_fees);
     total_transfer := v;
     method := d.(method);
     steps := d.(steps);
     breakdown := d.(breakdown) |}.

Definition set_method {F} (d : calc_dict F) (m : string) : calc_dict F :=
  {| gross_investment := d.(gross_investment);
     net_investment := d.(net_investment);
     upfront_fee := d.(upfront_fee);
     amc_1_3_fee := d.(amc_1_3_fee);
     amc_4_5_fee := d.(amc_4_5_fee);
     performance_fee := d.(performance_fee);
     total_fees := d.(total_fees);
     total_transfer := d.(total_transfer);
     method := m;
     steps := d.(steps);
     breakdown := d.(breakdown) |}.

Definition set_steps {F} (d : calc_dict F) (l : list (step F)) : calc_dict F :=
  {| gross_investment := d.(gross_investment);
     net_investment := d.(net_investment);
     upfront_fee := d.(upfront_fee);
     amc_1_3_fee := d.(amc_1_3_fee);
     amc_4_5_fee := d.(amc_4_5_fee);
     performance_fee := d.(performance_fee);
     total_fees := d.(total_fees);
     total_transfer := d.(total_transfer);
     method := d.(method);
     steps := l;
     breakdown := d.(breakdown) |}.

Definition set_total_amount_provided {F} (d : calc_dict F) (v : F) : calc_dict F :=
  {| gross_investment := d.(gross_investment);
     net_investment := d.(net_investment);
     upfront_fee := d.(upfront_fee);
     amc_1_3_fee := d.(amc_1_3_fee);
     amc_4_5_fee := d.(amc_4_5_fee);
     performance_fee := d.(performance_fee);
     total_fees := d.(total_fees);
     total_transfer := d.(total_transfer);
     method := d.(method);
     steps := d.(steps);
     breakdown :=
       {| base_investment := d.(breakdown).(base_investment);
          investor_type := d.(breakdown).(investor_type);
          applied_rates := d.(breakdown).(applied_rates);
          fee_breakdown := d.(breakdown).(fee_breakdown);
          total_amount_required := d.(breakdown).(total_amount_required);
          total_amount_provided := Some v |} |}.

(** ** The dataclass [FeeCalculationResult] *)

Module FeeCalculationResult.

Record audit (F : Type) : Type := {
    input_amount : F;
    investment_type : string;
    fee_structure_applied : gmap string (pyval F);
    calculation_steps : list (step F);
    rounding_applied : pyval F;
    audit_timestamp : string;
  }.
Arguments input_amount {F}.
Arguments investment_type {F}.
Arguments fee_structure_applied {F}.
Arguments calculation_steps {F}.
Arguments rounding_applied {F}.
Arguments audit_timestamp {F}.

Record t (F : Type) : Type := {
    gross_investment : F;
    net_investment : F;
    upfront_fee : F;
    amc_1_3_fee : F;
    amc_4_5_fee : F;
    performance_fee : F;
    total_fees : F;
    total_transfer : F;
    calculation_method : string;
    breakdown : breakdown_dict F;
    audit_trail : audit F;
    reconciliation : list (string * F);
    calc_hash : string;
    timestamp : string;
  }.
Arguments gross_investment {F}.
Arguments net_investment {F}.
Arguments upfront_fee {F}.
Arguments amc_1_3_fee {F}.
Arguments amc_4_5_fee {F}.
Arguments performance_fee {F}.
Arguments total_fees {F}.
Arguments total_transfer {F}.
Arguments calculation_method {F}.
Arguments breakdown {F}.
Arguments audit_trail {F}.
Arguments reconciliation {F}.
Arguments calc_hash {F}.
Arguments timestamp {F}.

End FeeCalculationResult.

(** ** class FeeCalculator *)

Section FeeCalculator.

Context {F : Type} `{PyFloat F}.
Variable float_of_str : string -> option F.
Variable float_repr : F -> string.

  (** [hashlib.md5(calc_input.encode()).hexdigest()[:8]] of the string
      [f"{investment_amount}_{is_net_investment}_{json.dumps(adjusted_structure, sort_keys=True)}"],
      as a function of the three interpolated values. *)
Variable calc_digest : F -> bool -> gmap string (pyval F) -> string.

Abbreviation dict := (gmap string (pyval F)).
Abbreviation float := (py_float float_of_str).
Abbreviation lit n d := (f_of_ratio n d).

Definition DEFAULT_FEE_STRUCTURE : dict :=
    list_to_map [
      ("upfront_fee_pct", PFloat (lit 15 10));
      ("amc_1_3_pct", PFloat (lit 2 1));
      ("amc_4_5_pct", PFloat (lit 15 10));
      ("performance_fee_pct", PFloat (lit 10 1));
      ("minimum_investment", PInt 1000);
      ("maximum_investment", PInt 1000000);
      ("fee_cap", PNone);
      ("fee_floor", PInt 0);
      ("rounding_rule", PStr "banker");
      ("vat_rate", PFloat (lit 20 1));
      ("currency", PStr "GBP")
    ].

  (** [not d] for an optional dictionary: [None] and the empty dictionary
      are false. *)
Definition dict_falsy (d : option dict) : bool :=
    match d with
    | None => true
    | Some m => bool_decide (m = ∅)
    end.

Definition field_mapping : list (string * string) :=
    [ ("Upfront Fee %", "upfront_fee_pct");
      ("AMC 1–3 %", "amc_1_3_pct");
      ("AMC 4–5 %", "amc_4_5_pct");
      ("Perf Fee %", "performance_fee_pct") ].

  (** One round of the loop over [field_mapping]. *)
Definition map_company_field (company_data : dict) (structure : dict)
      (entry : string * string) : result dict :=
    match company_data !! entry.1 with
    | None => Ok structure
    | Some PNone => Ok structure
    | Some v => x ← float v; Ok (<[entry.2 := PFloat x]> structure)
    end.

Fixpoint map_company_fields (company_data : dict) (structure : dict)
      (entries : list (string * string)) : result dict :=
    match entries with
    | [] => Ok structure
    | entry :: rest =>
        structure' ← map_company_field company_data structure entry;
        map_company_fields company_data structure' rest
    end.

Definition _get_enhanced_fee_structure (company_data : option dict) : result dict :=
    if dict_falsy company_data then Ok DEFAULT_FEE_STRUCTURE
    else
      let company_data := default ∅ company_data in
      structure ← map_company_fields company_data DEFAULT_FEE_STRUCTURE field_mapping;
      (* try: ... except Exception: pass *)
      match company_data !! "vat_rate" with
      | None => Ok structure
      | Some PNone => Ok structure
      | Some v => match float v with
                  | Ok x => Ok (<["vat_rate" := PFloat x]> structure)
                  | Raise _ => Ok structure
                  end
      end.

  (** [d[k] *= c] *)
Definition scale_item (d : dict) (k : string) (c : F) : result dict :=
    v ← dict_item d k;
    v' ← py_mul_float v c;
    Ok (<[k := v']> d).

Definition _apply_enhanced_investor_adjustments (fee_structure : dict)
      (investor_data : option dict) : result dict :=
    if dict_falsy investor_data then Ok fee_structure
    else
      let investor_data := default ∅ investor_data in
      let adjusted := fee_structure in
      match investor_data !! "tier" with
      | None => Ok adjusted
      | Some v =>
          let tier := upper (py_str float_repr v) in
          if str_eqb tier "PREMIUM" then
            adjusted ← scale_item adjusted "upfront_fee_pct" (lit 8 10);
            scale_item adjusted "amc_1_3_pct" (lit 9 10)
          else if str_eqb tier "VIP" then
            adjusted ← scale_item adjusted "upfront_fee_pct" (lit 5 10);
            scale_item adjusted "amc_1_3_pct" (lit 8 10)
          else Ok adjusted
      end.

Definition _apply_rounding (amount : F) (rounding_rule : pyval F) : result F :=
    if py_is_str rounding_rule "banker" then Ok (f_round2 amount)
    else if py_is_str rounding_rule "up" then
      n ← f_ceil (f_mul amount (lit 100 1)); Ok (f_of_ratio n 100)
    else if py_is_str rounding_rule "down" then
      n ← f_floor (f_mul amount (lit 100 1)); Ok (f_of_ratio n 100)
    else Ok (f_round2 amount).

  (** [cls._apply_rounding(amount, fee_structure['rounding_rule'])] *)
Definition rounded (fee_structure : dict) (amount : F) : result F :=
    rule ← dict_item fee_structure "rounding_rule";
    _apply_rounding amount rule.

  (** [float(fee_structure.get('vat_rate', 0.0))] *)
Definition vat_rate_of (fee_structure : dict) : result F :=
    float (default (PFloat (lit 0 1)) (fee_structure !! "vat_rate")).

  (** [float(fee_structure[k])] *)
Definition float_item (fee_structure : dict) (k : string) : result F :=
    v ← dict_item fee_structure k; float v.

Definition _calculate_enhanced_gross_investment (gross_amount : F)
      (fee_structure : dict) (investor_type : string) : result (calc_dict F) :=
    vat_rate_pct ← vat_rate_of fee_structure;
    let t := f_add (lit 1 1) (f_div vat_rate_pct (lit 100 1)) in
    upfront_fee_pct ← float_item fee_structure "upfront_fee_pct";
    let upfront_pct := f_div upfront_fee_pct (lit 100 1) in
    amc_1_3_pct ← float_item fee_structure "amc_1_3_pct";
    let amc1_3_pct_per_year := f_div amc_1_3_pct (lit 100 1) in
    let amc1_3_pct_total := f_mul amc1_3_pct_per_year (lit 3 1) in
    amc_4_5_pct ← float_item fee_structure "amc_4_5_pct";
    let amc4_5_pct_per_year := f_div amc_4_5_pct (lit 100 1) in
    let amc4_5_pct_total := f_mul amc4_5_pct_per_year (lit 2 1) in
    (* Upfront fee *)
    upfront_ex ← rounded fee_structure (f_mul gross_amount upfront_pct);
    upfront_vat ← rounded fee_structure (f_mul upfront_ex (f_div vat_rate_pct (lit 100 1)));
    upfront_tot ← rounded fee_structure (f_add upfront_ex upfront_vat);
    (* AMC base differs by investor type *)
    base ← (if str_eqb investor_type "retail" then
              amc_base ← rounded fee_structure (f_sub gross_amount upfront_tot);
              Ok (amc_base, [StepRetailBase gross_amount upfront_tot amc_base])
            else
              Ok (gross_amount, [StepProfessionalBase gross_amount]));
    let '(amc_base, steps0) := base in
    amc1_3_ex ← rounded fee_structure (f_mul amc_base amc1_3_pct_total);
    amc1_3_vat ← rounded fee_structure (f_mul amc1_3_ex (f_div vat_rate_pct (lit 100 1)));
    amc1_3_tot ← rounded fee_structure (f_add amc1_3_ex amc1_3_vat);
    (* AMC 4-5 accrual (not included in immediate total transfer) *)
    amc4_5_ex ← rounded fee_structure (f_mul amc_base amc4_5_pct_total);
    amc4_5_vat ← rounded fee_structure (f_mul amc4_5_ex (f_div vat_rate_pct (lit 100 1)));
    amc4_5_tot ← rounded fee_structure (f_add amc4_5_ex amc4_5_vat);
    let performance_fee := lit 0 1 in
    raw_upfront ← dict_item fee_structure "upfront_fee_pct";
    raw_amc_1_3 ← dict_item fee_structure "amc_1_3_pct";
    raw_amc_4_5 ← dict_item fee_structure "amc_4_5_pct";
    let steps :=
      (steps0 ++ [ StepUpfront gross_amount raw_upfront upfront_ex upfront_vat;
                   StepAmc13 amc_base raw_amc_1_3 amc1_3_ex amc1_3_vat;
                   StepAmc45 amc_base raw_amc_4_5 amc4_5_ex amc4_5_vat ])%list in
    immediate_fees_total ← rounded fee_structure (f_add upfront_tot amc1_3_tot);
    total_transfer ← rounded fee_structure (f_add gross_amount immediate_fees_total);
    rate_upfront ← float_item fee_structure "upfront_fee_pct";
    rate_amc_1_3 ← float_item fee_structure "amc_1_3_pct";
    rate_amc_4_5 ← float_item fee_structure "amc_4_5_pct";
    rate_vat ← vat_rate_of fee_structure;
    Ok {|
      gross_investment := gross_amount;
      net_investment := gross_amount;
      upfront_fee := upfront_ex;
      amc_1_3_fee := amc1_3_ex;
      amc_4_5_fee := amc4_5_ex;
      performance_fee := performance_fee;
      total_fees := immediate_fees_total;
      total_transfer := total_transfer;
      method := "gross_enhanced";
      steps := steps;
      breakdown := {|
        base_investment := gross_amount;
        investor_type := investor_type;
        applied_rates := {|
          ar_upfront_pct := rate_upfront;
          ar_amc_1_3_pct := rate_amc_1_3;
          ar_amc_4_5_pct := rate_amc_4_5;
          ar_vat_rate_pct := rate_vat;
          ar_amc_base := amc_base |};
        fee_breakdown := {|
          upfront := upfront_ex;
          upfront_ex_vat := upfront_ex;
          upfront_vat := upfront_vat;
          upfront_total := upfront_tot;
          amc_1_3 := amc1_3_ex;
          amc_1_3_ex_vat := amc1_3_ex;
          amc_1_3_vat := amc1_3_vat;
          amc_1_3_total := amc1_3_tot;
          amc_4_5 := amc4_5_ex;
          amc_4_5_ex_vat := amc4_5_ex;
          amc_4_5_vat := amc4_5_vat;
          amc_4_5_total := amc4_5_tot;
          performance := performance_fee |};
        total_amount_required := total_transfer;
        total_amount_provided := None |}
    |}.

(** The multiplier by which [_calculate_enhanced_net_investment] divides the
    net amount, from the three percentages it reads. *)
Definition multiplier_of (investor_type : string)
    (upfront_fee_pct amc_1_3_pct vat_rate_pct : F) : F :=
  let t := f_add (lit 1 1) (f_div vat_rate_pct (lit 100 1)) in
  let upfront_pct := f_div upfront_fee_pct (lit 100 1) in
  let amc1_3_pct_total := f_div (f_mul amc_1_3_pct (lit 3 1)) (lit 100 1) in
  if str_eqb investor_type "retail" then
    (* N = G * [1 + u*t + a*t - u*a*t^2] *)
    f_sub (f_add (f_add (lit 1 1) (f_mul upfront_pct t)) (f_mul amc1_3_pct_total t))
          (f_mul (f_mul upfront_pct amc1_3_pct_total) (f_square t))
  else
    (* Professional: N = G * [1 + t*(u + a)] *)
    f_add (lit 1 1) (f_mul t (f_add upfront_pct amc1_3_pct_total)).

Definition _calculate_enhanced_net_investment (net_amount : F)
    (fee_structure : dict) (investor_type : string) : result (calc_dict F) :=
  vat_rate_pct ← vat_rate_of fee_structure;
  upfront_fee_pct ← float_item fee_structure "upfront_fee_pct";
  amc_1_3_pct ← float_item fee_structure "amc_1_3_pct";
  amc_4_5_pct ← float_item fee_structure "amc_4_5_pct";
  let amc4_5_pct_total := f_div (f_mul amc_4_5_pct (lit 2 1)) (lit 100 1) in
  (* Solve for gross investment based on investor type *)
  let multiplier := multiplier_of investor_type upfront_fee_pct amc_1_3_pct vat_rate_pct in
  quotient ← (if f_is_zero multiplier then Raise ZeroDivisionError
              else Ok (f_div net_amount multiplier));
  gross_investment' ← rounded fee_structure quotient;
  let steps' := [StepNetAmount net_amount; StepDerivedGross multiplier gross_investment'] in
  (* Reuse gross logic to compute component fees and breakdown *)
  gross_result ← _calculate_enhanced_gross_investment gross_investment' fee_structure investor_type;
  (* For net case, total_transfer equals provided net amount *)
  provided ← rounded fee_structure net_amount;
  let gross_result := set_total_transfer gross_result provided in
  let gross_result := set_method gross_result "net_enhanced" in
  let gross_result := set_steps gross_result (steps' ++ gross_result.(steps))%list in
  (* Adjust reconciliation-like labels *)
  let gross_result := set_total_amount_provided gross_result net_amount in
  Ok gross_result.

(** The reconciliation table, in the order its keys are inserted. *)
Definition _create_reconciliation (result : calc_dict F) (is_net : bool)
    : list (string * F) :=
  if is_net then
    let check_sum := f_sub result.(total_transfer) result.(total_fees) in
    [ ("total_provided", result.(total_transfer));
      ("fees_deducted", result.(total_fees));
      ("investment_amount", result.(gross_investment));
      ("check_sum", check_sum);
      ("variance", f_abs (f_sub check_sum result.(gross_investment))) ]
  else
    let check_sum := f_add result.(gross_investment) result.(total_fees) in
    [ ("investment_amount", result.(gross_investment));
      ("fees_added", result.(total_fees));
      ("total_required", result.(total_transfer));
      ("check_sum", check_sum);
      ("variance", f_abs (f_sub check_sum result.(total_transfer))) ].

(** The investor type [calc_breakdown] settles on. *)
Definition resolve_investor_type (investor_data : option dict) : string :=
  let investor_type :=
    if dict_falsy investor_data then ""
    else
      let investor_data := default ∅ investor_data in
      lower (py_str float_repr
               (py_or (py_or (dict_get investor_data "investor_type")
                             (dict_get investor_data "classification"))
                      (PStr ""))) in
  if negb (str_eqb investor_type "retail" || str_eqb investor_type "professional")
  then "professional" else investor_type.

(** [now] is the reading of [datetime.now().isoformat()]. *)
Definition calc_breakdown (now : string) (investment_amount : F)
    (is_net_investment : bool) (company_data investor_data : option dict)
    : result (FeeCalculationResult.t F) :=
  let timestamp := now in
  (* Get fee structure *)
  fee_structure ← _get_enhanced_fee_structure company_data;
  (* Apply investor adjustments *)
  adjusted_structure ← _apply_enhanced_investor_adjustments fee_structure investor_data;
  (* Determine investor type (retail/professional) *)
  let investor_type := resolve_investor_type investor_data in
  (* Calculate based on net vs gross with enhanced logic *)
  result ← (if is_net_investment
            then _calculate_enhanced_net_investment investment_amount adjusted_structure investor_type
            else _calculate_enhanced_gross_investment investment_amount adjusted_structure investor_type);
  (* Add audit trail *)
  rounding_rule ← dict_item adjusted_structure "rounding_rule";
  let audit_trail := {|
    FeeCalculationResult.input_amount := investment_amount;
    FeeCalculationResult.investment_type := if is_net_investment then "net" else "gross";
    FeeCalculationResult.fee_structure_applied := adjusted_structure;
    FeeCalculationResult.calculation_steps := result.(steps);
    FeeCalculationResult.rounding_applied := rounding_rule;
    FeeCalculationResult.audit_timestamp := timestamp |} in
  (* Create reconciliation table *)
  let reconciliation := _create_reconciliation result is_net_investment in
  (* Generate calculation hash for audit *)
  let calc_hash := calc_digest investment_amount is_net_investment adjusted_structure in
  Ok {|
    FeeCalculationResult.gross_investment := result.(gross_investment);
    FeeCalculationResult.net_investment := result.(net_investment);
    FeeCalculationResult.upfront_fee := result.(upfront_fee);
    FeeCalculationResult.amc_1_3_fee := result.(amc_1_3_fee);
    FeeCalculationResult.amc_4_5_fee := result.(amc_4_5_fee);
    FeeCalculationResult.performance_fee := result.(performance_fee);
    FeeCalculationResult.total_fees := result.(total_fees);
    FeeCalculationResult.total_transfer := result.(total_transfer);
    FeeCalculationResult.calculation_method := result.(method);
    FeeCalculationResult.breakdown := result.(breakdown);
    FeeCalculationResult.audit_trail := audit_trail;
    FeeCalculationResult.reconciliation := reconciliation;
    FeeCalculationResult.calc_hash := calc_hash;
    FeeCalculationResult.timestamp := timestamp |}.

End FeeCalculator.

(** ** Strings

    Python's [str] methods used by the adapter, over ASCII. *)

(** [c.isspace()], also what [\s] matches *)
Definition is_space (c : ascii) : bool :=
  let n := nat_of_ascii c in
  ((9 <=? n)%nat && (n <=? 13)%nat) || ((28 <=? n)%nat && (n <=? 32)%nat).

Fixpoint lstrip (s : string) : string :=
  match s with
  | String c r => if is_space c then lstrip r else s
  | EmptyString => EmptyString
  end.

Fixpoint rstrip (s : string) : string :=
  match s with
  | EmptyString => EmptyString
  | String c r =>
      match rstrip r with
      | EmptyString => if is_space c then EmptyString else String c EmptyString
      | r' => String c r'
      end
  end.

(** [s.strip()] *)
Definition strip (s : string) : string := rstrip (lstrip s).

Fixpoint starts_with (p s : string) : bool :=
  match p, s with
  | EmptyString, _ => true
  | String a p', String b s' => bool_decide (a = b) && starts_with p' s'
  | String _ _, EmptyString => false
  end.

(** [p in s] *)
Fixpoint contains (p s : string) : bool :=
  starts_with p s ||
  match s with
  | EmptyString => false
  | String _ s' => contains p s'
  end.

Fixpoint str_rev_onto (s acc : string) : string :=
  match s with
  | EmptyString => acc
  | String c r => str_rev_onto r (String c acc)
  end.

(** [s.endswith(p)] *)
Definition ends_with (p s : string) : bool :=
  starts_with (str_rev_onto p EmptyString) (str_rev_onto s EmptyString).

(** [s[:-n]] for [0 < n <= len(s)] *)
Definition drop_last (n : nat) (s : string) : string :=
  String.substring 0 (String.length s - n) s.

Fixpoint str_filter (f : ascii -> bool) (s : string) : string :=
  match s with
  | EmptyString => EmptyString
  | String c r => if f c then String c (str_filter f r) else str_filter f r
  end.

Definition is_lower_alnum (c : ascii) : bool :=
  let n := nat_of_ascii c in
  ((97 <=? n)%nat && (n <=? 122)%nat) || ((48 <=? n)%nat && (n <=? 57)%nat).

(** [re.sub(r"[^a-z0-9]", "", str(x).lower())] *)
Definition _compress (x : string) : string := str_filter is_lower_alnum (lower x).

(** The words of [s]: [s.split()], and [re.split(r"\s+", s.strip())] without
    its empty pieces. *)
Fixpoint words_from (s : string) (cur : string) : list string :=
  match s with
  | EmptyString => if str_eqb cur "" then [] else [str_rev_onto cur ""]
  | String c r =>
      if is_space c then
        (if str_eqb cur "" then words_from r "" else str_rev_onto cur "" :: words_from r "")
      else words_from r (String c cur)
  end.

Definition words (s : string) : list string := words_from s "".

(** [sep.join(l)] *)
Fixpoint join (sep : string) (l : list string) : string :=
  match l with
  | [] => ""
  | [x] => x
  | x :: r => x ++ sep ++ join sep r
  end.

(** ** The three sheets

    A cell of a [pandas] frame read from the workbook: a missing value, a
    missing time, a string, an integer, a float or a time.  Floats and times
    are kept by their printed form (the lookups read cells through
    [astype(str)] only); a time also has its position on the time line. *)

Inductive cell : Type :=
| NaN
| NaT
| Str (s : string)
| Int (n : Z)
| Float (printed : string)
| Timestamp (printed : string) (ordinal : Z).

Abbreviation row := (gmap string cell).

Record DataFrame : Type := {
  columns : list string;
  rows : list row;
}.

(** [col in df.columns] *)
Definition has_column (df : DataFrame) (col : string) : bool :=
  bool_decide (col ∈ df.(columns)).

(** [str(v)] for a cell, the element-wise step of [astype(str)] *)
Definition cell_str (v : cell) : string :=
  match v with
  | NaN => "nan"
  | NaT => "NaT"
  | Str s => s
  | Int n => str_of_int n
  | Float printed => printed
  | Timestamp printed _ => printed
  end.

(** The cell of [r] in column [col], as a string *)
Definition col_str (col : string) (r : row) : string :=
  cell_str (default NaN (r !! col)).

(** [df[mask]] for an element-wise test on the rows *)
Definition select (f : row -> bool) (df : DataFrame) : DataFrame :=
  {| columns := df.(columns); rows := List.filter f df.(rows) |}.

(** [df.empty] *)
Definition is_empty (df : DataFrame) : bool :=
  match df.(rows) with [] => true | _ => false end.

(** Truth value of an optional cell ([None] for a missing key), and
    [str(v or "")]. *)
Definition cell_truthy (v : option cell) : bool :=
  match v with
  | None => false
  | Some NaN => true
  | Some NaT => true
  | Some (Timestamp _ _) => true
  | Some (Str s) => negb (str_eqb s "")
  | Some (Int n) => negb (Z.eqb n 0)
  | Some (Float printed) =>
      negb (str_eqb printed "0.0" || str_eqb printed "-0.0")
  end.

Definition str_or_empty (v : option cell) : string :=
  if cell_truthy v then cell_str (default NaN v) else "".

(** [self.inv["__full__"]], as [__init__] computes it from the first and
    last names. *)
Definition full_name_of (r : row) : string :=
  strip (strip (col_str "First Name" r) ++ " " ++ strip (col_str "Last Name" r)).

Definition with_full_names (df : DataFrame) : DataFrame :=
  {| columns := (df.(columns) ++ ["__full__"])%list;
     rows := List.map (fun r => <["__full__" := Str (full_name_of r)]> r) df.(rows) |}.

(** ** class ExcelLocalThreeSheet *)

Record ExcelLocalThreeSheet : Type := {
  fees : DataFrame;
  inv : DataFrame;
  cos : DataFrame;
  _co_company_name_col : option string;
}.

(** [m.iloc[0].to_dict()] when [m] is not empty *)
Definition first_row (df : DataFrame) : option row := head df.(rows).

(** [l.index(x)] *)
Fixpoint index_of (x : string) (l : list string) : result nat :=
  match l with
  | [] => Raise (ValueError "is not in list")
  | y :: r => if str_eqb x y then Ok 0%nat else i ← index_of x r; Ok (S i)
  end.

Definition ambiguous_partial (investor_query : string) (matches : list string) : string :=
  "Ambiguous investor name '" ++ investor_query ++ "'. Multiple matches found: "
  ++ join ", " (take 5 matches)
  ++ (if (5 <? length matches)%nat then "..." else "")
  ++ ". Please provide a more specific name.".

Definition ambiguous_similar (investor_query : string) (match_names : list string) : string :=
  "Ambiguous investor name '" ++ investor_query ++ "'. Multiple similar matches found: "
  ++ join ", " match_names
  ++ ". Please provide a more specific name.".

Definition legal_suffixes : list string :=
  [" limited"; " ltd."; " ltd"; " plc"; " llp"; " inc."; " inc"; " corp."; " corp";
   " co."; " company"].

Fixpoint strip_first_suffix (sufs : list string) (x : string) : string :=
  match sufs with
  | [] => x
  | suf :: rest =>
      if ends_with suf x then drop_last (String.length suf) x
      else strip_first_suffix rest x
  end.

(** [_norm] of [find_company_row] *)
Definition _norm (n : string) : string :=
  let x := strip (lower n) in
  let x := strip_first_suffix legal_suffixes x in
  join " " (words x).

Definition _norm_gross_net (x : option cell) : string :=
  let s := lower (strip (str_or_empty x)) in
  if starts_with "n" s then "net" else "gross".

Definition _class_from_fund (fund : option cell) : string :=
  let s := lower (str_or_empty fund) in
  if contains "pro" s then "professional"
  else if contains "retail" s then "retail"
  else "retail".

Section Adapter.

(** [rapidfuzz]: whether it can be imported, [process.extractOne] with the
    scorer [fuzz.WRatio], and [process.extract] with [limit=5] and the scorer
    [fuzz.ratio].  A hit is a choice, its score and its index. *)
Variable rapidfuzz_installed : bool.
Variable extractOne : string -> list string -> option (string * Q * nat).
Variable extract : string -> list string -> list (string * Q * nat).

(** [re.search(pattern, s)] as [str.contains] uses it: [None] for a pattern
    that does not compile. *)
Variable regex_search : string -> option (string -> bool).

(** [pd.to_datetime(v, errors="coerce")] on one cell, and the two
    [sort_values] calls of [find_fee_row]. *)
Variable to_datetime : cell -> cell.
Variable sort_by_date_and_deposit : list row -> list row.
Variable sort_by_deposit : list row -> list row.

Definition score_of (hit : string * Q * nat) : Q := hit.1.2.
Definition choice_of (hit : string * Q * nat) : string := hit.1.1.

(** [self._fuzzy_one(query, choices)] *)
Definition _fuzzy_one (query : string) (choices : list string)
    : option (string * Q * nat) :=
  if negb rapidfuzz_installed then None else extractOne query choices.

(** One round of the loop [for col in ["__full__", "Account Name"]]:
    [Ok None] goes on to the next column. *)
Definition fuzzy_investor_round (self : ExcelLocalThreeSheet)
    (investor_query : string) (col : string) : result (option row) :=
  if negb (has_column self.(inv) col) then Ok None
  else
    let choices := List.map (col_str col) self.(inv).(rows) in
    match choices with
    | [] => Ok None
    | _ =>
        if negb rapidfuzz_installed then Raise ImportError
        else
          let matches := extract investor_query choices in
          let high_matches := List.filter (fun m => Qle_bool 75 (score_of m)) matches in
          if (1 <? length high_matches)%nat then
            Raise (ValueError (ambiguous_similar investor_query
                                 (List.map choice_of high_matches)))
          else
            match high_matches with
            | hit :: _ =>
                idx ← index_of (choice_of hit) choices;
                Ok (self.(inv).(rows) !! idx)
            | [] => Ok None
            end
    end.

(** The tiers of [find_investor_row] before the fuzzy one: the rows [m] that
    each one selects, for the query [s] (stripped and lower-cased) and its
    compressed form [s_comp]. *)
Definition investor_email_matches (self : ExcelLocalThreeSheet) (s : string) : DataFrame :=
  select (fun r => str_eqb (lower (col_str "Contact email" r)) s) self.(inv).

Definition investor_ref_matches (self : ExcelLocalThreeSheet) (s : string) : DataFrame :=
  select (fun r => str_eqb (lower (strip (col_str "Custodian Client Ref" r))) s) self.(inv).

Definition investor_exact_matches (self : ExcelLocalThreeSheet) (s_comp : string) : DataFrame :=
  select (fun r => str_eqb (_compress (col_str "__full__" r)) s_comp) self.(inv).

Definition investor_partial_matches (self : ExcelLocalThreeSheet) (s_comp : string)
    : DataFrame :=
  select (fun r => contains s_comp (_compress (col_str "__full__" r))) self.(inv).

Definition find_investor_row (self : ExcelLocalThreeSheet) (investor_query : string)
    : result (option row) :=
  let s := lower (strip investor_query) in
  (* email exact *)
  let by_email :=
    if contains "@" s && has_column self.(inv) "Contact email" then
      first_row (investor_email_matches self s)
    else None in
  match by_email with
  | Some r => Ok (Some r)
  | None =>
  (* Custodian Client Ref exact *)
  let by_ref :=
    if has_column self.(inv) "Custodian Client Ref" then
      first_row (investor_ref_matches self s)
    else None in
  match by_ref with
  | Some r => Ok (Some r)
  | None =>
  let s_comp := _compress s in
  let by_name : result (option row) :=
    if has_column self.(inv) "__full__" then
      (* Try exact match first *)
      match first_row (investor_exact_matches self s_comp) with
      | Some r => Ok (Some r)
      | None =>
          (* Check for ambiguous partial matches (SAFETY CHECK) *)
          let m := investor_partial_matches self s_comp in
          if (1 <? length m.(rows))%nat then
            let matches := List.map (col_str "__full__") m.(rows) in
            Raise (ValueError (ambiguous_partial investor_query matches))
          else Ok (first_row m)
      end
    else Ok None in
  found ← by_name;
  match found with
  | Some r => Ok (Some r)
  | None =>
  (* Try fuzzy matching with safety checks *)
  found ← fuzzy_investor_round self investor_query "__full__";
  match found with
  | Some r => Ok (Some r)
  | None => fuzzy_investor_round self investor_query "Account Name"
  end end end end.

(** The fallback of [find_fee_row] that links by the investor's full name.
    The first component is the hit that the disabled fuzzy step prints. *)
Definition fee_rows_by_name (self : ExcelLocalThreeSheet) (investor_full_name : string)
    : option (string * Q * nat) * result DataFrame :=
  let full := strip investor_full_name in
  let target := _compress full in
  (* Try exact/contains on compressed *)
  let inv_col r := col_str "Investor name" r in
  let comp r := _compress (inv_col r) in
  let df := select (fun r => str_eqb (comp r) target) self.(fees) in
  let df := if is_empty df then select (fun r => contains target (comp r)) self.(fees) else df in
  (* Try reversed name order *)
  let parts := words full in
  let df :=
    if is_empty df then
      if (2 <=? length parts)%nat then
        let rev_target := _compress (join " " (rev parts)) in
        let df := select (fun r => str_eqb (comp r) rev_target) self.(fees) in
        if is_empty df then select (fun r => contains rev_target (comp r)) self.(fees) else df
      else df
    else df in
  (* Try token inclusion (both first and last present in any order) *)
  let by_tokens : result DataFrame :=
    if is_empty df && (2 <=? length parts)%nat then
      let f_tok := lower (default "" (head parts)) in
      let l_tok := lower (default "" (last parts)) in
      match regex_search f_tok, regex_search l_tok with
      | Some has_first, Some has_last =>
          Ok (select (fun r => has_first (lower (inv_col r)) && has_last (lower (inv_col r)))
                     self.(fees))
      | _, _ => Raise ReError
      end
    else Ok df in
  match by_tokens with
  | Raise e => (None, Raise e)
  | Ok df =>
      (* DISABLED: Fuzzy matching is too dangerous for investor data *)
      if is_empty df && rapidfuzz_installed then
        let choices := List.map inv_col self.(fees).(rows) in
        (extractOne full choices, Ok df)
      else (None, Ok df)
  end.

Definition dt_col : string := "Initial Deposit date/Reinvestment instruction date".

Definition find_fee_row (self : ExcelLocalThreeSheet) (cust_ref : option cell)
    (subscription_code : option string) (investor_full_name : option string)
    : option (string * Q * nat) * result (option row) :=
  if negb (has_column self.(fees) "Custodian Client Ref") then (None, Ok None)
  else
    let rhs := lower (strip (str_or_empty cust_ref)) in
    let df := select (fun r => str_eqb (lower (strip (col_str "Custodian Client Ref" r))) rhs)
                     self.(fees) in
    (* Fallback: link by investor full name when Custodian Client Ref does not match *)
    let '(printed, linked) :=
      if is_empty df
         && negb (str_eqb (default "" investor_full_name) "")
         && has_column self.(fees) "Investor name"
      then fee_rows_by_name self (default "" investor_full_name)
      else (None, Ok df) in
    (printed,
     df ← linked;
     if is_empty df then Ok None
     else
       let df :=
         match subscription_code with
         | Some code =>
             if has_column self.(fees) "Subscription code" then
               let rhs_sub := lower (strip code) in
               let sub := select (fun r => str_eqb (lower (strip (col_str "Subscription code" r)))
                                                   rhs_sub) df in
               if negb (is_empty sub) then sub else df
             else df
         | None => df
         end in
       (* Sort by date desc then Deposit # desc when present *)
       sorted ← (if has_column df dt_col then
                   let dated :=
                     List.map (fun r => <["_dt" := to_datetime (default NaN (r !! dt_col))]> r)
                              df.(rows) in
                   if has_column df "Deposit #" then Ok (sort_by_date_and_deposit dated)
                   else Raise (KeyError "Deposit #")
                 else if has_column df "Deposit #" then Ok (sort_by_deposit df.(rows))
                 else Ok df.(rows));
       Ok (head sorted)).

(** [self.cos["__norm__"] = self.cos[name_col].astype(str).map(_norm)] *)
Definition with_norm_column (name_col : string) (df : DataFrame) : DataFrame :=
  {| columns := if has_column df "__norm__" then df.(columns)
                else (df.(columns) ++ ["__norm__"])%list;
     rows := List.map (fun r => <["__norm__" := Str (_norm (col_str name_col r))]> r)
                      df.(rows) |}.

Definition set_cos (self : ExcelLocalThreeSheet) (df : DataFrame) : ExcelLocalThreeSheet :=
  {| fees := self.(fees); inv := self.(inv); cos := df;
     _co_company_name_col := self.(_co_company_name_col) |}.

(** The rows that the compressed-containment tier of [find_company_row]
    selects. *)
Definition company_partial_matches (name_col : string) (df : DataFrame) (s_comp : string)
    : DataFrame :=
  select (fun r => contains s_comp (_compress (col_str name_col r))) df.

(** [find_company_row] assigns the column [__norm__] of [self.cos]: it
    returns the adapter as it leaves it, and its result. *)
Definition find_company_row (self : ExcelLocalThreeSheet) (company_query : string)
    : ExcelLocalThreeSheet * result (option row) :=
  match self.(_co_company_name_col) with
  | None => (self, Ok None)
  | Some name_col =>
  if str_eqb name_col "" || negb (has_column self.(cos) name_col) then (self, Ok None)
  else
  let s := lower (strip company_query) in
  (* direct exact match *)
  match first_row (select (fun r => str_eqb (lower (strip (col_str name_col r))) s) self.(cos)) with
  | Some r => (self, Ok (Some r))
  | None =>
  (* contains *)
  match regex_search s with
  | None => (self, Raise ReError)
  | Some found_in =>
  match first_row (select (fun r => found_in (lower (col_str name_col r))) self.(cos)) with
  | Some r => (self, Ok (Some r))
  | None =>
  (* normalized comparison (remove legal suffixes) *)
  let s_norm := _norm company_query in
  let self := set_cos self (with_norm_column name_col self.(cos)) in
  match first_row (select (fun r => str_eqb (col_str "__norm__" r) s_norm) self.(cos)) with
  | Some r => (self, Ok (Some r))
  | None =>
  (* compressed (remove spaces/punct) *)
  let s_comp := _compress company_query in
  let comp_col r := _compress (col_str name_col r) in
  match first_row (select (fun r => str_eqb (comp_col r) s_comp) self.(cos)) with
  | Some r => (self, Ok (Some r))
  | None =>
  match first_row (company_partial_matches name_col self.(cos) s_comp) with
  | Some r => (self, Ok (Some r))
  | None =>
  let choices := List.map (col_str name_col) self.(cos).(rows) in
  match _fuzzy_one company_query choices with
  | Some hit =>
      if Qle_bool 75 (score_of hit) then
        (self, idx ← index_of (choice_of hit) choices; Ok (self.(cos).(rows) !! idx))
      else (self, Ok None)
  | None => (self, Ok None)
  end end end end end end end end.

(** What [resolve_payload] settles by its three lookups: the rows it found,
    the fee basis and classification read off the fee row, and whether the
    default rates stand in for a missing fee row.  (The share price and the
    percentages, parsed from these rows afterwards, are left out.) *)
Record payload : Type := {
  investor : row;
  fee : row;
  company : row;
  classification : string;
  investment_type : string;
  using_default_rates : bool;
}.

(** [d.get(k, "")] as a string *)
Definition get_str (r : row) (k : string) : string :=
  match r !! k with
  | Some v => cell_str v
  | None => ""
  end.

(** [not d] for an optional row *)
Definition row_falsy (r : option row) : bool :=
  match r with
  | None => true
  | Some m => bool_decide (m = ∅)
  end.

(** The fee structure that stands in when no fee row is found. *)
Definition default_fee_row (cust_ref : option cell) (full_name : string) : row :=
  let d : row :=
    list_to_map [
      ("Investor name", Str full_name);
      ("Subscription code",
       Str (str_filter (fun c => negb (bool_decide (c = " "%char))) full_name ++ "-EIS-1"));
      ("Fund", Str "Retail");
      ("Gross/Net", Str "Net");
      ("CC Set up fee %", Float "0.015");
      ("CC AMC %", Float "0.02");
      ("CC Carry %", Float "0.2")
    ] in
  match cust_ref with
  | Some v => <["Custodian Client Ref" := v]> d
  | None => d
  end.

Definition resolve_payload (self : ExcelLocalThreeSheet) (investor_query company_query : string)
    (subscription_code : option string) : ExcelLocalThreeSheet * result payload :=
  match find_investor_row self investor_query with
  | Raise e => (self, Raise e)
  | Ok found =>
  if row_falsy found then (self, Raise (ValueError ("Investor not found: " ++ investor_query)))
  else
  let inv := default ∅ found in
  let cust_ref := inv !! "Custodian Client Ref" in
  let full_name := strip (strip (get_str inv "First Name") ++ " " ++ strip (get_str inv "Last Name")) in
  match (find_fee_row self cust_ref subscription_code (Some full_name)).2 with
  | Raise e => (self, Raise e)
  | Ok fee_found =>
  let using_default_rates := row_falsy fee_found in
  let fee := if using_default_rates then default_fee_row cust_ref full_name
             else default ∅ fee_found in
  let '(self, co_found) := find_company_row self company_query in
  match co_found with
  | Raise e => (self, Raise e)
  | Ok co_found =>
  if row_falsy co_found then (self, Raise (ValueError ("Company not found: " ++ company_query)))
  else
  (self,
   Ok {| investor := inv;
         fee := fee;
         company := default ∅ co_found;
         classification := _class_from_fund (fee !! "Fund");
         investment_type := _norm_gross_net (fee !! "Gross/Net");
         using_default_rates := using_default_rates |})
  end end end.

End Adapter.

(** * Vocabulary of the statements *)

(** An amount with at most two decimals. *)
Definition is_cents (x : Q) : Prop := exists n : Z, (x == n # 100)%Q.

(** The fee structure holds these percentages as floats, and rounds with
    the default rule. *)
Definition has_rates {F} (fs : gmap string (pyval F)) (up a13 a45 vat : F) : Prop :=
  fs !! "upfront_fee_pct" = Some (PFloat up) /\
  fs !! "amc_1_3_pct" = Some (PFloat a13) /\
  fs !! "amc_4_5_pct" = Some (PFloat a45) /\
  fs !! "vat_rate" = Some (PFloat vat) /\
  fs !! "rounding_rule" = Some (PStr "banker").

(** [r] with the clock reading [now] in place of its own. *)
Definition with_timestamp {F} (r : FeeCalculationResult.t F) (now : string)
    : FeeCalculationResult.t F :=
  let a := r.(FeeCalculationResult.audit_trail) in
  {| FeeCalculationResult.gross_investment := r.(FeeCalculationResult.gross_investment);
     FeeCalculationResult.net_investment := r.(FeeCalculationResult.net_investment);
     FeeCalculationResult.upfront_fee := r.(FeeCalculationResult.upfront_fee);
     FeeCalculationResult.amc_1_3_fee := r.(FeeCalculationResult.amc_1_3_fee);
     FeeCalculationResult.amc_4_5_fee := r.(FeeCalculationResult.amc_4_5_fee);
     FeeCalculationResult.performance_fee := r.(FeeCalculationResult.performance_fee);
     FeeCalculationResult.total_fees := r.(FeeCalculationResult.total_fees);
     FeeCalculationResult.total_transfer := r.(FeeCalculationResult.total_transfer);
     FeeCalculationResult.calculation_method := r.(FeeCalculationResult.calculation_method);
     FeeCalculationResult.breakdown := r.(FeeCalculationResult.breakdown);
     FeeCalculationResult.audit_trail :=
       {| FeeCalculationResult.input_amount := a.(FeeCalculationResult.input_amount);
          FeeCalculationResult.investment_type := a.(FeeCalculationResult.investment_type);
          FeeCalculationResult.fee_structure_applied :=
            a.(FeeCalculationResult.fee_structure_applied);
          FeeCalculationResult.calculation_steps := a.(FeeCalculationResult.calculation_steps);
          FeeCalculationResult.rounding_applied := a.(FeeCalculationResult.rounding_applied);
          FeeCalculationResult.audit_timestamp := now |};
     FeeCalculationResult.reconciliation := r.(FeeCalculationResult.reconciliation);
     FeeCalculationResult.calc_hash := r.(FeeCalculationResult.calc_hash);
     FeeCalculationResult.timestamp := now |}.

(** The classification that [calc_breakdown] reads off [investor_data]:
    [str(investor_data.get('investor_type') or
    investor_data.get('classification') or '').lower()]. *)
Definition classification_field {F} `{PyFloat F} (float_repr : F -> string)
    (investor_data : gmap string (pyval F)) : string :=
  lower (py_str float_repr
           (py_or (py_or (dict_get investor_data "investor_type")
                         (dict_get investor_data "classification"))
                  (PStr ""))).

(** The query reaches the partial tier of [find_investor_row]: no email,
    client reference or full name equals it. *)
Definition no_exact_investor_match (self : ExcelLocalThreeSheet) (investor_query : string)
    : Prop :=
  let s := lower (strip investor_query) in
  (if contains "@" s && has_column self.(inv) "Contact email"
   then first_row (investor_email_matches self s) else None) = None /\
  (if has_column self.(inv) "Custodian Client Ref"
   then first_row (investor_ref_matches self s) else None) = None /\
  has_column self.(inv) "__full__" = true /\
  first_row (investor_exact_matches self (_compress s)) = None.

(** [re.search] for a pattern without metacharacters: plain containment. *)
Definition literal_search (pattern : string) : option (string -> bool) :=
  Some (contains pattern).

(** ** A workbook for the scenarios *)

Definition fee_row_of (ref name code : string) : row :=
  list_to_map [
    ("Custodian Client Ref", Str ref);
    ("Investor name", Str name);
    ("Subscription code", Str code);
    ("Fund", Str "Retail");
    ("Gross/Net", Str "Gross");
    ("CC Set up fee %", Float "0.015");
    ("CC AMC %", Float "0.02");
    ("CC Carry %", Float "0.2")
  ].

Definition investor_row_of (ref first last email : string) : row :=
  list_to_map [
    ("Custodian Client Ref", Str ref);
    ("First Name", Str first);
    ("Last Name", Str last);
    ("Contact email", Str email)
  ].

Definition company_row_of (name price : string) : row :=
  list_to_map [
    ("Company Name", Str name);
    ("Current Share Price", Float price);
    ("Share Class", Str "Ordinary Share")
  ].

Definition alan_fox_fee : row := fee_row_of "CC001" "Alan Fox" "AF-EIS-1".
Definition alan_hickford_fee : row := fee_row_of "CC002" "Alan Hickford" "AH-EIS-1".

(** The investors Alan Fox and Alan Hickford, a fee row for each, and the
    companies Blue-Sky Ventures Ltd and BlueSky Capital Ltd. *)
Definition workbook : ExcelLocalThreeSheet :=
  {| fees :=
       {| columns := ["Custodian Client Ref"; "Investor name"; "Subscription code"; "Fund";
                      "Gross/Net"; "CC Set up fee %"; "CC AMC %"; "CC Carry %"];
          rows := [alan_fox_fee; alan_hickford_fee] |};
     inv :=
       with_full_names
         {| columns := ["Custodian Client Ref"; "First Name"; "Last Name"; "Contact email"];
            rows := [investor_row_of "CC001" "Alan" "Fox" "alan.fox@example.com";
                     investor_row_of "CC002" "Alan" "Hickford" "alan.hickford@example.com"] |};
     cos :=
       {| columns := ["Company Name"; "Current Share Price"; "Share Class"];
          rows := [company_row_of "Blue-Sky Ventures Ltd" "1.0";
                   company_row_of "BlueSky Capital Ltd" "2.5"] |};
     _co_company_name_col := Some "Company Name" |}.

(** * The rest of the module [vc_enhanced_utils] *)

(** ** Comparisons and integer division

    [f_ltb x y] is [x < y] and [f_leb x y] is [x <= y] on floats (false when
    one side is NaN); [f_true_div n d] is [n / d] for two Python integers:
    the float closest to the quotient, ZeroDivisionError for [d = 0] and
    OverflowError when the quotient is beyond the floats. *)

Class PyFloatOrder (F : Type) : Type := {
  f_ltb : F -> F -> bool;
  f_leb : F -> F -> bool;
  f_true_div : Z -> Z -> result F;
}.

#[global] Instance Q_float_order : PyFloatOrder Q := {
  f_ltb x y := negb (Qle_bool y x);
  f_leb x y := Qle_bool x y;
  f_true_div n d :=
    match d with
    | Z0 => Raise ZeroDivisionError
    | Zpos p => Ok (n # p)
    | Zneg p => Ok ((- n) # p)
    end;
}.

#[global] Instance binary64_float_order : PyFloatOrder float := {
  f_ltb := PrimFloat.ltb;
  f_leb := PrimFloat.leb;
  f_true_div n d :=
    match d with
    | Z0 => Raise ZeroDivisionError
    | Zpos p =>
        let x := Binary64.nearest n p in
        if PrimFloat.is_infinity x then Raise OverflowError else Ok x
    | Zneg p =>
        let x := Binary64.nearest (- n) p in
        if PrimFloat.is_infinity x then Raise OverflowError else Ok x
    end;
}.

(** ** Exceptions of the matcher, the legacy calculator and the policy gate

    These raise, besides the exceptions above, AttributeError (a method of
    [str] called on another value) and IndexError. *)

Inductive exception : Type :=
| Builtin (e : exn)
| AttributeError (attribute : string)
| IndexError.

Inductive outcome (A : Type) : Type :=
| Returned (a : A)
| Raised (e : exception).
Arguments Returned {A} a.
Arguments Raised {A} e.

#[global] Instance outcome_ret : MRet outcome := @Returned.
#[global] Instance outcome_bind : MBind outcome :=
  fun A B f m => match m with Returned a => f a | Raised e => Raised e end.

(** A computation that raises built-in exceptions only. *)
Definition lift {A} (m : result A) : outcome A :=
  match m with
  | Ok a => Returned a
  | Raise e => Raised (Builtin e)
  end.

Section Numbers.
Context {F : Type} `{PyFloat F} `{PyFloatOrder F}.

(** [v.lower()] and [v.upper()] *)
Definition py_lower (v : pyval F) : outcome string :=
  match v with
  | PStr s => Returned (lower s)
  | _ => Raised (AttributeError "lower")
  end.

Definition py_upper (v : pyval F) : outcome string :=
  match v with
  | PStr s => Returned (upper s)
  | _ => Raised (AttributeError "upper")
  end.

(** [v > n] and [v >= n] for an integer [n] that floats hold exactly. *)
Definition py_gt_int (v : pyval F) (n : Z) : result bool :=
  match v with
  | PInt m => Ok (n <? m)%Z
  | PBool b => Ok (n <? (if b then 1 else 0))%Z
  | PFloat x => Ok (f_ltb (f_of_ratio n 1) x)
  | PStr _ => Raise TypeError
  | PNone => Raise TypeError
  end.

Definition py_ge_int (v : pyval F) (n : Z) : result bool :=
  match v with
  | PInt m => Ok (n <=? m)%Z
  | PBool b => Ok (n <=? (if b then 1 else 0))%Z
  | PFloat x => Ok (f_leb (f_of_ratio n 1) x)
  | PStr _ => Raise TypeError
  | PNone => Raise TypeError
  end.

(** [v / 100] *)
Definition py_div_100 (v : pyval F) : result F :=
  match v with
  | PFloat x => Ok (f_div x (f_of_ratio 100 1))
  | PInt n => f_true_div n 100
  | PBool b => f_true_div (if b then 1 else 0) 100
  | PStr _ => Raise TypeError
  | PNone => Raise TypeError
  end.

(** [v * k / 100] for an integer [k]; the product of a string and [k] is a
    string, which [/] refuses. *)
Definition py_times_div_100 (v : pyval F) (k : Z) : result F :=
  match v with
  | PFloat x => Ok (f_div (f_mul x (f_of_ratio k 1)) (f_of_ratio 100 1))
  | PInt n => f_true_div (n * k) 100
  | PBool b => f_true_div ((if b then 1 else 0) * k) 100
  | PStr _ => Raise TypeError
  | PNone => Raise TypeError
  end.

End Numbers.

(** ** The legacy calculator: [FeeCalculator.calculate_fees] *)

Module FeeCalculation.

Record t (F : Type) : Type := {
  gross_investment : F;
  net_investment : F;
  management_fee : F;
  admin_fee : F;
  total_fees : F;
  fee_rate : pyval F;
  calculation_method : string;
  breakdown : list (string * F);
}.
Arguments gross_investment {F} _.
Arguments net_investment {F} _.
Arguments management_fee {F} _.
Arguments admin_fee {F} _.
Arguments total_fees {F} _.
Arguments fee_rate {F} _.
Arguments calculation_method {F} _.
Arguments breakdown {F} _.

End FeeCalculation.

Section LegacyCalculator.
Context {F : Type} `{PyFloat F} `{PyFloatOrder F}.
Variable float_of_str : string -> option F.

Abbreviation dict := (gmap string (pyval F)).
Abbreviation float := (py_float float_of_str).
Abbreviation lit n d := (f_of_ratio n d).

(** The six overrides of [_get_fee_structure], in the order of its [if]
    statements: the company field and the key it sets. *)
Definition legacy_field_mapping : list (string * string) :=
  [ ("Upfront Fee %", "upfront_fee_pct");
    ("AMC 1–3 %", "amc_1_3_pct");
    ("AMC 4–5 %", "amc_4_5_pct");
    ("Perf Fee %", "performance_fee_pct");
    ("minimum_investment", "minimum_investment");
    ("maximum_investment", "maximum_investment") ].

(** [if field in company_data: structure[key] = float(company_data[field])] *)
Definition override_field (company_data : dict) (structure : dict)
    (entry : string * string) : result dict :=
  match company_data !! entry.1 with
  | None => Ok structure
  | Some v => x ← float v; Ok (<[entry.2 := PFloat x]> structure)
  end.

Fixpoint override_fields (company_data : dict) (structure : dict)
    (entries : list (string * string)) : result dict :=
  match entries with
  | [] => Ok structure
  | entry :: rest =>
      structure' ← override_field company_data structure entry;
      override_fields company_data structure' rest
  end.

Definition _get_fee_structure (company_data : option dict) : result dict :=
  if dict_falsy company_data then Ok DEFAULT_FEE_STRUCTURE
  else override_fields (default ∅ company_data) DEFAULT_FEE_STRUCTURE legacy_field_mapping.

Definition _apply_investor_adjustments (fee_structure : dict)
    (investor_data : option dict) : outcome dict :=
  if dict_falsy investor_data then Returned fee_structure
  else
    let investor_data := default ∅ investor_data in
    let adjusted := fee_structure in
    (* Apply investor tier discounts *)
    adjusted ←
      match investor_data !! "tier" with
      | None => Returned adjusted
      | Some v =>
          tier ← py_upper v;
          if str_eqb tier "PREMIUM" then
            adjusted ← lift (scale_item adjusted "management_fee_rate" (lit 8 10));
            lift (scale_item adjusted "admin_fee_flat" (lit 5 10))
          else if str_eqb tier "VIP" then
            adjusted ← lift (scale_item adjusted "management_fee_rate" (lit 6 10));
            Returned (<["admin_fee_flat" := PInt 0]> adjusted)
          else Returned adjusted
      end;
    (* Apply specific discounts *)
    match investor_data !! "management_fee_discount" with
    | None => Returned adjusted
    | Some v =>
        discount ← lift (float v);
        lift (scale_item adjusted "management_fee_rate" (f_sub (lit 1 1) discount))
    end.

Definition _calculate_gross_investment (gross_amount : F) (fee_structure : dict)
    : result (FeeCalculation.t F) :=
  upfront_fee_pct ← dict_item fee_structure "upfront_fee_pct";
  upfront_rate ← py_div_100 upfront_fee_pct;
  let upfront_fee := f_mul gross_amount upfront_rate in
  amc_1_3_pct ← dict_item fee_structure "amc_1_3_pct";
  amc_1_3_rate ← py_times_div_100 amc_1_3_pct 3;
  let amc_1_3_fee := f_mul gross_amount amc_1_3_rate in
  amc_4_5_pct ← dict_item fee_structure "amc_4_5_pct";
  amc_4_5_rate ← py_times_div_100 amc_4_5_pct 2;
  let amc_4_5_fee := f_mul gross_amount amc_4_5_rate in
  let performance_fee := lit 0 1 in
  (* Total management fees (AMC + performance) *)
  let management_fee := f_add (f_add amc_1_3_fee amc_4_5_fee) performance_fee in
  let admin_fee := upfront_fee in
  let total_fees := f_add upfront_fee amc_1_3_fee in
  (* Net investment is same as gross (fees are additional) *)
  let net_investment := gross_amount in
  fee_rate ← dict_item fee_structure "amc_1_3_pct";
  Ok {|
    FeeCalculation.gross_investment := gross_amount;
    FeeCalculation.net_investment := net_investment;
    FeeCalculation.management_fee := management_fee;
    FeeCalculation.admin_fee := admin_fee;
    FeeCalculation.total_fees := total_fees;
    FeeCalculation.fee_rate := fee_rate;
    FeeCalculation.calculation_method := "gross_enhanced";
    FeeCalculation.breakdown :=
      [ ("gross_investment", gross_amount);
        ("upfront_fee", upfront_fee);
        ("amc_1_3_fee", amc_1_3_fee);
        ("amc_4_5_fee", amc_4_5_fee);
        ("performance_fee", performance_fee);
        ("total_fees", total_fees);
        ("total_transfer", f_add gross_amount total_fees) ]
  |}.

Definition _calculate_net_investment (net_amount : F) (fee_structure : dict)
    : result (FeeCalculation.t F) :=
  upfront_pct ← dict_item fee_structure "upfront_fee_pct";
  amc_1_3_pct ← dict_item fee_structure "amc_1_3_pct";
  amc_4_5_pct ← dict_item fee_structure "amc_4_5_pct";
  (* Calculate total fee multiplier for immediate payments *)
  upfront_rate ← py_div_100 upfront_pct;
  amc_1_3_rate ← py_times_div_100 amc_1_3_pct 3;
  let total_fee_multiplier := f_add (f_add (lit 1 1) upfront_rate) amc_1_3_rate in
  gross_investment ← (if f_is_zero total_fee_multiplier then Raise ZeroDivisionError
                      else Ok (f_div net_amount total_fee_multiplier));
  upfront_rate ← py_div_100 upfront_pct;
  let upfront_fee := f_mul gross_investment upfront_rate in
  amc_1_3_rate ← py_times_div_100 amc_1_3_pct 3;
  let amc_1_3_fee := f_mul gross_investment amc_1_3_rate in
  amc_4_5_rate ← py_times_div_100 amc_4_5_pct 2;
  let amc_4_5_fee := f_mul gross_investment amc_4_5_rate in
  let performance_fee := lit 0 1 in
  let management_fee := f_add (f_add amc_1_3_fee amc_4_5_fee) performance_fee in
  let admin_fee := upfront_fee in
  let total_fees := f_add upfront_fee amc_1_3_fee in
  Ok {|
    FeeCalculation.gross_investment := gross_investment;
    FeeCalculation.net_investment := gross_investment;
    FeeCalculation.management_fee := management_fee;
    FeeCalculation.admin_fee := admin_fee;
    FeeCalculation.total_fees := total_fees;
    FeeCalculation.fee_rate := amc_1_3_pct;
    FeeCalculation.calculation_method := "net_enhanced";
    FeeCalculation.breakdown :=
      [ ("total_amount_provided", net_amount);
        ("upfront_fee", upfront_fee);
        ("amc_1_3_fee", amc_1_3_fee);
        ("amc_4_5_fee", amc_4_5_fee);
        ("performance_fee", performance_fee);
        ("actual_investment", gross_investment);
        ("total_fees_deducted", total_fees) ]
  |}.

Definition calculate_fees (investment_amount : F) (is_net_investment : bool)
    (company_data investor_data : option dict) : outcome (FeeCalculation.t F) :=
  (* Get fee structure from company data or use defaults *)
  fee_structure ← lift (_get_fee_structure company_data);
  (* Apply investor-specific adjustments *)
  adjusted_structure ← _apply_investor_adjustments fee_structure investor_data;
  (* Calculate based on net vs gross *)
  if is_net_investment
  then lift (_calculate_net_investment investment_amount adjusted_structure)
  else lift (_calculate_gross_investment investment_amount adjusted_structure).

End LegacyCalculator.

(** ** class PolicyGate *)

Record ValidationResult : Type := {
  is_valid : bool;
  missing_fields : list string;
  warnings : list string;
  compliance_violations : list string;
  remediation_suggestions : list string;
  message : string;
  risk_level : string;
  auto_approve : bool;
}.

Section PolicyGate.
Context {F : Type} `{PyFloat F} `{PyFloatOrder F}.
Variable float_of_str : string -> option F.
Variable float_repr : F -> string.

(** [format(x, ",.2f")] for a float [x]. *)
Variable format_2f : F -> string.

Abbreviation dict := (gmap string (pyval F)).
Abbreviation float := (py_float float_of_str).
Abbreviation lit n d := (f_of_ratio n d).

(** [f"{v:,.2f}"] *)
Definition py_format_2f (v : pyval F) : result string :=
  match v with
  | PFloat x => Ok (format_2f x)
  | PInt n => x ← f_of_int n; Ok (format_2f x)
  | PBool b => Ok (format_2f (lit (if b then 1 else 0) 1))
  | PStr _ => Raise (ValueError "Unknown format code 'f' for object of type 'str'")
  | PNone => Raise TypeError
  end.

(** [l.append(x)] *)
Definition append (l : list string) (x : string) : list string := (l ++ [x])%list.

(** [d.get(k, v)] *)
Definition dict_get_default (d : dict) (k : string) (v : pyval F) : pyval F :=
  default v (d !! k).

Definition REQUIRED_FIELDS : list (string * list string) :=
  [ ("investor", ["First Name"; "Last Name"; "Contact email"]);
    ("company", ["Company Name"; "Current Share Price"]);
    ("investment", ["amount"; "investment_type"]) ].

(** The inner loop of the check of required fields, on the lists
    [missing_fields] and [remediation_suggestions]. *)
Fixpoint check_fields (data_source : dict) (entity : string) (fields : list string)
    (missing_fields remediation_suggestions : list string) : list string * list string :=
  match fields with
  | [] => (missing_fields, remediation_suggestions)
  | field :: rest =>
      if negb (py_truthy (dict_get data_source field)) then
        check_fields data_source entity rest
          (append missing_fields (entity ++ "." ++ field))
          (append remediation_suggestions ("Please provide " ++ field ++ " for " ++ entity))
      else check_fields data_source entity rest missing_fields remediation_suggestions
  end.

(** The loop over [REQUIRED_FIELDS]; [data_source] is the dictionary of the
    entity. *)
Fixpoint check_required (investor_data company_data investment_data : dict)
    (entries : list (string * list string))
    (missing_fields remediation_suggestions : list string) : list string * list string :=
  match entries with
  | [] => (missing_fields, remediation_suggestions)
  | (entity, fields) :: rest =>
      let data_source :=
        if str_eqb entity "investor" then investor_data
        else if str_eqb entity "company" then company_data
        else investment_data in
      let '(missing_fields, remediation_suggestions) :=
        check_fields data_source entity fields missing_fields remediation_suggestions in
      check_required investor_data company_data investment_data rest
        missing_fields remediation_suggestions
  end.

(** Each check appends to the lists it is given: it returns them as it
    leaves them. *)
Definition _check_eis_compliance (amount : pyval F) (company_data : dict)
    (violations remedies : list string) : outcome (list string * list string) :=
  over ← lift (py_gt_int amount 1000000);
  lists ← (if over : bool then
             printed ← lift (py_format_2f amount);
             Returned
               (append violations ("Investment £" ++ printed
                                ++ " exceeds EIS annual limit of £1,000,000.00"),
                append remedies "Reduce investment to £1,000,000 or split across tax years")
           else Returned (violations, remedies));
  let '(violations, remedies) := lists in
  let company_assets := dict_get_default company_data "Gross Assets" (PInt 0) in
  if py_truthy company_assets then
    assets ← lift (float company_assets);
    if f_ltb (lit 15000000 1) assets then
      printed ← lift (py_format_2f company_assets);
      Returned
        (append violations ("Company assets £" ++ printed ++ " exceed EIS limit"),
         append remedies "Verify company qualifies for EIS - assets must be <£15M")
    else Returned (violations, remedies)
  else Returned (violations, remedies).

Definition _check_investor_classification (investor_data company_data : dict)
    (violations remedies : list string) : outcome (list string * list string) :=
  classification ← py_lower (dict_get_default investor_data "classification" (PStr ""));
  if str_eqb classification "" then
    Returned (violations,
              append remedies "Classify investor as Retail, Professional, or Eligible Counterparty")
  else Returned (violations, remedies).

Definition _check_fee_limits (amount : pyval F) (classification : string) (company_data : dict)
    (violations remedies : list string) : outcome (list string * list string) :=
  if str_eqb classification "retail" then
    upfront_fee ← lift (float (dict_get_default company_data "Upfront Fee %" (PInt 0)));
    amc_fee ← lift (float (dict_get_default company_data "AMC 1–3 %" (PInt 0)));
    let '(violations, remedies) :=
      if f_ltb (lit 2 1) upfront_fee then
        (append violations ("Upfront fee " ++ float_repr upfront_fee
                         ++ "% exceeds retail limit of 2.0%"),
         append remedies "Reduce upfront fee to ≤2.0% or reclassify investor")
      else (violations, remedies) in
    if f_ltb (lit 25 10) amc_fee then
      Returned
        (append violations ("AMC " ++ float_repr amc_fee ++ "% exceeds retail limit of 2.5%"),
         append remedies "Reduce AMC to ≤2.5% or reclassify investor")
    else Returned (violations, remedies)
  else Returned (violations, remedies).

Definition _check_kyc_aml (investor_data : dict) (warnings remedies : list string)
    : outcome (list string * list string) :=
  kyc_status ← py_lower (dict_get_default investor_data "KYC_Status" (PStr ""));
  let '(warnings, remedies) :=
    if negb (str_eqb kyc_status "complete") then
      (append warnings "KYC not complete",
       append remedies "Complete KYC verification before proceeding")
    else (warnings, remedies) in
  aml_status ← py_lower (dict_get_default investor_data "AML_Status" (PStr ""));
  if negb (str_eqb aml_status "clear") then
    Returned (append warnings "AML check not clear",
              append remedies "Complete AML screening before proceeding")
  else Returned (warnings, remedies).

Definition _assess_risk_level (amount : pyval F) (investor_data : dict)
    : result (string * list string) :=
  high ← py_ge_int amount 500000;
  if high : bool then Ok ("HIGH", ["High-risk: Investment ≥£500,000.00"])
  else
    medium ← py_ge_int amount 100000;
    if medium : bool then Ok ("MEDIUM", ["Medium-risk: Investment ≥£100,000.00"])
    else Ok ("LOW", []).

(** [len(l)] in an f-string *)
Definition len_str (l : list string) : string := str_of_int (Z.of_nat (length l)).

Definition validate_fee_letter_request (investor_data company_data investment_data : dict)
    : outcome ValidationResult :=
  let missing_fields := [] in
  let warnings := [] in
  let compliance_violations := [] in
  let remediation_suggestions := [] in
  (* Check required fields *)
  let '(missing_fields, remediation_suggestions) :=
    check_required investor_data company_data investment_data REQUIRED_FIELDS
      missing_fields remediation_suggestions in
  let investment_amount := dict_get_default investment_data "amount" (PInt 0) in
  investor_classification ←
    py_lower (dict_get_default investor_data "classification" (PStr ""));
  (* Enhanced compliance checks *)
  lists ← _check_eis_compliance investment_amount company_data
            compliance_violations remediation_suggestions;
  let '(compliance_violations, remediation_suggestions) := lists in
  lists ← _check_investor_classification investor_data company_data
            compliance_violations remediation_suggestions;
  let '(compliance_violations, remediation_suggestions) := lists in
  lists ← _check_fee_limits investment_amount investor_classification company_data
            compliance_violations remediation_suggestions;
  let '(compliance_violations, remediation_suggestions) := lists in
  lists ← _check_kyc_aml investor_data warnings remediation_suggestions;
  let '(warnings, remediation_suggestions) := lists in
  (* Risk assessment *)
  risk ← lift (_assess_risk_level investment_amount investor_data);
  let '(risk_level, risk_warnings) := risk in
  let warnings := (warnings ++ risk_warnings)%list in
  (* Determine validation result *)
  let is_valid :=
    (length missing_fields =? 0)%nat && (length compliance_violations =? 0)%nat in
  let auto_approve :=
    is_valid && str_eqb risk_level "LOW" && (length warnings =? 0)%nat in
  let message :=
    if is_valid then
      if negb (length compliance_violations =? 0)%nat then
        "❌ Compliance violations found: " ++ len_str compliance_violations ++ " issues"
      else
        "✅ All policy validations passed"
        ++ (if negb (length warnings =? 0)%nat
            then " (with " ++ len_str warnings ++ " warnings)" else "")
    else
      "❌ Validation failed: " ++ len_str missing_fields ++ " missing fields, "
      ++ len_str compliance_violations ++ " violations" in
  Returned {|
    is_valid := is_valid;
    missing_fields := missing_fields;
    warnings := warnings;
    compliance_violations := compliance_violations;
    remediation_suggestions := remediation_suggestions;
    message := message;
    risk_level := risk_level;
    auto_approve := auto_approve |}.

End PolicyGate.

(** ** class FuzzyMatcher *)

Section FuzzyMatcher.
Context {F : Type} `{PyFloat F} `{PyFloatOrder F}.
Variable float_repr : F -> string.

(** [SequenceMatcher(None, a, b).ratio()] of [difflib]. *)
Variable ratio : string -> string -> F.

Abbreviation dict := (gmap string (pyval F)).
Abbreviation lit n d := (f_of_ratio n d).
Abbreviation str := (py_str float_repr).

Definition similarity_score (a b : string) : F :=
  if str_eqb a "" || str_eqb b "" then lit 0 1
  else
    (* Normalize strings *)
    let a_norm := strip (lower a) in
    let b_norm := strip (lower b) in
    if str_eqb a_norm b_norm then lit 1 1
    else ratio a_norm b_norm.

(** The loop of [find_best_match].  A candidate that becomes the best
    match is given the key [_match_score]: the candidates are returned as
    the loop leaves them, with the best match. *)
Fixpoint best_match_loop (target_name name_field : string) (threshold : F)
    (candidates : list dict) (best_match : option dict) (best_score : F)
    : list dict * option dict :=
  match candidates with
  | [] => ([], best_match)
  | candidate :: rest =>
      match candidate !! name_field with
      | None =>
          let '(rest, found) :=
            best_match_loop target_name name_field threshold rest best_match best_score in
          (candidate :: rest, found)
      | Some name =>
          let candidate_name := str name in
          let score := similarity_score target_name candidate_name in
          if f_ltb best_score score && f_leb threshold score then
            let candidate := <["_match_score" := PFloat score]> candidate in
            let '(rest, found) :=
              best_match_loop target_name name_field threshold rest (Some candidate) score in
            (candidate :: rest, found)
          else
            let '(rest, found) :=
              best_match_loop target_name name_field threshold rest best_match best_score in
            (candidate :: rest, found)
      end
  end.

Definition find_best_match (target_name : string) (candidates : list dict)
    (name_field : string) (threshold : F) : list dict * option dict :=
  if str_eqb target_name "" || bool_decide (candidates = []) then (candidates, None)
  else best_match_loop target_name name_field threshold candidates None (lit 0 1).

(** [max(a, b)] *)
Definition py_max (a b : F) : F := if f_ltb a b then b else a.

(** [str(candidate.get(k, '')).lower()] *)
Definition name_part (candidate : dict) (k : string) : string :=
  lower (str (default (PStr "") (candidate !! k))).

(** The two loops of [find_best_match_split_name]. *)
Fixpoint single_name_loop (search_name : string) (threshold : F) (candidates : list dict)
    : option dict :=
  match candidates with
  | [] => None
  | candidate :: rest =>
      let first_name := name_part candidate "First Name" in
      let last_name := name_part candidate "Last Name" in
      let first_score := similarity_score search_name first_name in
      let last_score := similarity_score search_name last_name in
      if f_leb threshold (py_max first_score last_score) then Some candidate
      else single_name_loop search_name threshold rest
  end.

Fixpoint split_name_loop (search_first search_last : string) (threshold : F)
    (candidates : list dict) (best_match : option dict) (best_score : F) : option dict :=
  match candidates with
  | [] => best_match
  | candidate :: rest =>
      let first_name := name_part candidate "First Name" in
      let last_name := name_part candidate "Last Name" in
      (* Calculate combined score *)
      let first_score := similarity_score search_first first_name in
      let last_score := similarity_score search_last last_name in
      let combined_score := f_div (f_add first_score last_score) (lit 2 1) in
      if f_ltb best_score combined_score && f_leb threshold combined_score then
        split_name_loop search_first search_last threshold rest (Some candidate) combined_score
      else split_name_loop search_first search_last threshold rest best_match best_score
  end.

Definition find_best_match_split_name (target_name : string) (candidates : list dict)
    (threshold : F) : outcome (option dict) :=
  if str_eqb target_name "" || bool_decide (candidates = []) then Returned None
  else
    (* Parse target name *)
    let name_parts := words (strip target_name) in
    if (length name_parts <? 2)%nat then
      (* Single name - try to match against either first or last name *)
      match head name_parts with
      | None => Raised IndexError
      | Some part => Returned (single_name_loop (lower part) threshold candidates)
      end
    else
      (* Multiple names - match first and last *)
      let search_first := lower (default "" (head name_parts)) in
      let search_last := lower (default "" (last name_parts)) in
      Returned (split_name_loop search_first search_last threshold candidates None (lit 0 1)).

(** The threshold is the default of [find_best_match], 0.7. *)
Definition resolve_name_to_id (target_name : string) (data_records : list dict)
    (name_field id_field : string) : list dict * option (pyval F) :=
  let '(data_records, found) :=
    find_best_match target_name data_records name_field (lit 7 10) in
  (data_records,
   match found with
   | Some record =>
       if negb (bool_decide (record = ∅)) then record !! id_field else None
   | None => None
   end).

End FuzzyMatcher.

(** ** class ActivityLogger

    The log file is absent, holds something that is not JSON, or holds the
    list of records that the logger has written.  A record has the four
    keys that [log_activity] gives it; [D] is the type of the details,
    values that JSON can hold. *)

Section ActivityLogger.
Variable D : Type.

Record activity : Type := {
  record_id : string;
  record_timestamp : string;
  record_type : string;
  record_details : D;
}.

Inductive log_file : Type :=
| Absent
| NotJson
| Activities (records : list activity).

(** [json.load] of the file, with what the two [except] clauses put in its
    place. *)
Definition load (file : log_file) : option (list activity) :=
  match file with
  | Absent => None
  | NotJson => None
  | Activities records => Some records
  end.

Definition _ensure_log_file (file : log_file) : log_file :=
  match file with
  | Absent => Activities []
  | _ => file
  end.

(** [l[-n:]] for [n > 0] *)
Definition last_n {A} (n : nat) (l : list A) : list A := drop (length l - n) l.

(** [stamp] is [datetime.now().strftime('%Y%m%d_%H%M%S_%f')] and [now] the
    [datetime.now().isoformat()] read after it.  Returns the file as it is
    left and the identifier. *)
Definition log_activity (file : log_file) (stamp now : string)
    (activity_type : string) (details : D) : log_file * string :=
  let activity_id := activity_type ++ "_" ++ stamp in
  let activity_record :=
    {| record_id := activity_id;
       record_timestamp := now;
       record_type := activity_type;
       record_details := details |} in
  (* Load existing activities *)
  let activities := default [] (load file) in
  (* Add new activity *)
  let activities := (activities ++ [activity_record])%list in
  (* Keep only last 1000 activities *)
  let activities := last_n 1000 activities in
  (* Save back to file *)
  (Activities activities, activity_id).

(** [l[:limit]] *)
Definition slice_to {A} (limit : Z) (l : list A) : list A :=
  if (0 <=? limit)%Z then take (Z.to_nat limit) l
  else take (length l - Z.to_nat (- limit)) l.

Definition get_recent_activities (file : log_file) (limit : Z)
    (activity_type : option string) : list activity :=
  match load file with
  | None => []
  | Some activities =>
      (* Filter by type if specified *)
      let activities :=
        match activity_type with
        | Some t =>
            if negb (str_eqb t "") then
              List.filter (fun a => str_eqb a.(record_type) t) activities
            else activities
        | None => activities
        end in
      (* Return most recent activities *)
      slice_to limit (rev activities)
  end.

Record activity_stats : Type := {
  total_activities : nat;
  activity_types : gmap string nat;
  (* the key is missing, or holds None or a timestamp *)
  recent_activity : option (option string);
}.

Definition count_type (counts : gmap string nat) (a : activity) : gmap string nat :=
  <[a.(record_type) := (default 0 (counts !! a.(record_type)) + 1)%nat]> counts.

Definition get_activity_stats (file : log_file) : activity_stats :=
  match load file with
  | None => {| total_activities := 0; activity_types := ∅; recent_activity := None |}
  | Some activities =>
      {| total_activities := length activities;
         (* Count by type *)
         activity_types := fold_left count_type activities ∅;
         (* Most recent activity *)
         recent_activity :=
           Some (match last activities with
                 | Some a => Some a.(record_timestamp)
                 | None => None
                 end) |}
  end.

End ActivityLogger.

Arguments record_id {D} _.
Arguments record_timestamp {D} _.
Arguments record_type {D} _.
Arguments record_details {D} _.
Arguments Absent {D}.
Arguments NotJson {D}.
Arguments Activities {D} records.
Arguments load {D} file.
Arguments _ensure_log_file {D} file.
Arguments log_activity {D} file stamp now activity_type details.
Arguments get_recent_activities {D} file limit activity_type.
Arguments count_type {D} counts a.
Arguments get_activity_stats {D} file.

(** ** The rest of the adapter *)

Section Percentages.
Context {F : Type} `{PyFloat F} `{PyFloatOrder F}.
Variable float_of_str : string -> option F.

Abbreviation lit n d := (f_of_ratio n d).

(** [_as_pct(fee.get(k))]: a fee percentage of the fee row, as a fraction.
    [None] is also what the [except] clause returns. *)
Definition _as_pct (x : option cell) : option F :=
  match x with
  | None => None
  | Some c =>
      let s := strip (cell_str c) in
      if str_eqb s "" then None
      else
        match float_of_str s with
        | None => None
        | Some v => Some (if f_ltb (lit 1 1) v then f_div v (lit 100 1) else v)
        end
  end.

(** [pct] of [FeeLetterAgent.execute_enhanced]: a fraction of the payload,
    as the percentage given to the calculator. *)
Definition pct (v : option F) (default : F) : F :=
  match v with
  | None => default
  | Some fv => if f_leb fv (lit 1 1) then f_mul fv (lit 100 1) else fv
  end.

End Percentages.

(** *** The headers of the workbook ([__init__]) *)

(** [s.replace(" ", "")] *)
Definition remove_spaces (s : string) : string :=
  str_filter (fun c => negb (bool_decide (c = " "%char))) s.

(** [pick]: the sheet among [available] whose name is one of [candidates],
    case and spaces apart.  [canon] maps a key to the last sheet with it. *)
Definition canon_sheets (available : list string) : gmap string string :=
  fold_left (fun canon s => <[remove_spaces (lower s) := s]> canon) available ∅.

Fixpoint pick (available : list string) (candidates : list string) : option string :=
  match candidates with
  | [] => None
  | c :: rest =>
      match canon_sheets available !! remove_spaces (lower c) with
      | Some s => Some s
      | None => pick available rest
      end
  end.

(** [pick(candidates) or fallback] *)
Definition pick_or (available candidates : list string) (fallback : string) : string :=
  match pick available candidates with
  | Some s => if str_eqb s "" then fallback else s
  | None => fallback
  end.

(** [_canonize], on the column names: a name whose stripped lower-case form
    is a key of [mapping] is renamed, and every name is stripped.  The
    mapping is given by its entries, no key twice. *)
Definition _canonize (mapping : list (string * string)) (columns : list string)
    : list string :=
  List.map
    (fun c =>
       let key := lower (strip c) in
       match (list_to_map mapping : gmap string string) !! key with
       | Some canon => if str_eqb canon "" then strip c else strip canon
       | None => strip c
       end)
    columns.

Definition fee_map : list (string * string) :=
  [ ("custodian client ref", "Custodian Client Ref");
    ("subscription code", "Subscription code");
    ("subscription_code", "Subscription code");
    ("fund", "Fund");
    ("gross/net", "Gross/Net");
    ("grossnet", "Gross/Net");
    ("cc set up fee %", "CC Set up fee %");
    ("cc setup fee %", "CC Set up fee %");
    ("cc amc %", "CC AMC %");
    ("cc carry %", "CC Carry %");
    ("deposit #", "Deposit #");
    ("deposit number", "Deposit #");
    ("initial deposit date/reinvestment instruction date",
     "Initial Deposit date/Reinvestment instruction date") ].

Definition inv_map : list (string * string) :=
  [ ("custodian client ref", "Custodian Client Ref");
    ("account name", "Account Name");
    ("salutation", "Salutation");
    ("first name", "First Name");
    ("last name", "Last Name");
    ("contact email", "Contact email");
    ("contact email address", "Contact email");
    ("login email", "Login Email") ].

Definition co_map : list (string * string) :=
  [ ("company name", "Company Name");
    ("current share price", "Current Share Price");
    ("company number", "Company Number");
    ("share class", "Share Class") ].

(** [_norm_hdr] *)
Definition _norm_hdr (x : string) : string :=
  str_filter is_lower_alnum (lower (strip x)).

(** The first loop of [_pick_col]: exact preferred keys. *)
Fixpoint pick_preferred (cols preferred : list string) : option string :=
  match preferred with
  | [] => None
  | p :: rest =>
      match List.find (fun c => str_eqb (_norm_hdr c) (_norm_hdr p)) cols with
      | Some c => Some c
      | None => pick_preferred cols rest
      end
  end.

(** [_pick_col]; [must_contain_all] is empty for [None]. *)
Definition _pick_col (cols : list string) (preferred must_contain_all : list string)
    : option string :=
  (* 1) exact preferred keys *)
  match pick_preferred cols preferred with
  | Some c => Some c
  | None =>
  (* 2) contains all tokens *)
  let tokens := List.map _norm_hdr must_contain_all in
  let all_tokens :=
    match must_contain_all with
    | [] => None
    | _ => List.find (fun c => forallb (fun t => contains t (_norm_hdr c)) tokens) cols
    end in
  match all_tokens with
  | Some c => Some c
  | None =>
  (* 3) best-effort: any header containing the first token *)
  let first_token :=
    match must_contain_all with
    | [] => None
    | t :: _ => List.find (fun c => contains (_norm_hdr t) (_norm_hdr c)) cols
    end in
  match first_token with
  | Some c => Some c
  | None =>
      match preferred with
      | p :: _ => Some p
      | [] => head cols
      end
  end end end.

(** ** Vocabulary of the further statements *)

(** The keys of the fee structure that the two calculation routines read. *)
Definition keys_read : list string :=
  ["vat_rate"; "upfront_fee_pct"; "amc_1_3_pct"; "amc_4_5_pct"; "rounding_rule"].

Section GateVocabulary.
Context {F : Type} `{PyFloat F}.

(** The fields of [fields] that [data_source] lacks or holds a false value
    for. *)
Definition lacking (data_source : gmap string (pyval F)) (fields : list string)
    : list string :=
  List.filter (fun field => negb (py_truthy (dict_get data_source field))) fields.

(** The fields that a request lacks, as [missing_fields] names them. *)
Definition missing_of (investor_data company_data investment_data : gmap string (pyval F))
    : list string :=
  app (List.map (fun field => "investor." ++ field)
                (lacking investor_data ["First Name"; "Last Name"; "Contact email"]))
      (app (List.map (fun field => "company." ++ field)
                     (lacking company_data ["Company Name"; "Current Share Price"]))
           (List.map (fun field => "investment." ++ field)
                     (lacking investment_data ["amount"; "investment_type"]))).

(** The status that the key [k] of [investor_data] holds is the string [s],
    up to case. *)
Definition has_status (investor_data : gmap string (pyval F)) (k s : string) : Prop :=
  exists held, investor_data !! k = Some (PStr held) /\ lower held = s.

End GateVocabulary.

(** [l'] is [l] with [n] more entries. *)
Definition grown (l l' : list string) (n : nat) : Prop :=
  exists more, l' = (l ++ more)%list /\ length more = n.

Section MatcherVocabulary.
Context {F : Type} `{PyFloat F} `{PyFloatOrder F}.
Variable float_repr : F -> string.
Variable ratio : string -> string -> F.

(** The candidate has the name field, and its score is above [least] and
    reaches the threshold. *)
Definition qualifies (target_name name_field : string) (threshold least : F)
    (candidate : gmap string (pyval F)) : bool :=
  match candidate !! name_field with
  | Some v =>
      f_ltb least (similarity_score ratio target_name (py_str float_repr v))
      && f_leb threshold (similarity_score ratio target_name (py_str float_repr v))
  | None => false
  end.

(** [candidate'] is [candidate], possibly with a [_match_score]. *)
Definition scored (candidate candidate' : gmap string (pyval F)) : Prop :=
  candidate' = candidate \/ exists s, candidate' = <["_match_score" := PFloat s]> candidate.

(** [m] is a candidate with the name field, marked with its score, which
    reaches the threshold. *)
Definition marked (target_name name_field : string) (threshold : F)
    (candidates : list (gmap string (pyval F))) (m : gmap string (pyval F)) : Prop :=
  exists c v,
    c ∈ candidates /\ c !! name_field = Some v /\
    m = <["_match_score" :=
            PFloat (similarity_score ratio target_name (py_str float_repr v))]> c /\
    f_leb threshold (similarity_score ratio target_name (py_str float_repr v)) = true.

End MatcherVocabulary.

(** The number of records of [records] with the type [t]. *)
Definition records_of_type {D} (t : string) (records : list (activity D)) : nat :=
  length (List.filter (fun a => str_eqb (record_type a) t) records).

(** The key under which [pick] compares sheet names. *)
Definition sheet_key (s : string) : string := remove_spaces (lower s).

(** The canonical names are fixed by [_canonize]. *)
Definition canonical (mapping : list (string * string)) : Prop :=
  Forall (fun entry : string * string =>
            entry.2 <> "" /\
            (list_to_map mapping : gmap string string) !! lower (strip (strip entry.2))
            = Some entry.2)
         mapping.

(** ** Requests, candidates and sheets for the scenarios *)

Definition complete_investor : gmap string (pyval Q) :=
  list_to_map [ ("First Name", PStr "Alan"); ("Last Name", PStr "Fox");
                ("Contact email", PStr "alan.fox@example.com");
                ("classification", PStr "Professional");
                ("KYC_Status", PStr "Complete"); ("AML_Status", PStr "Clear") ].

Definition complete_company : gmap string (pyval Q) :=
  list_to_map [ ("Company Name", PStr "Blue-Sky Ventures Ltd");
                ("Current Share Price", PFloat (28 # 100)) ].

Definition complete_investment : gmap string (pyval Q) :=
  list_to_map [ ("amount", PInt 50000); ("investment_type", PStr "gross") ].

Definition jacob : gmap string (pyval Q) :=
  list_to_map [ ("id", PStr "1"); ("name", PStr "Jacob Pedersen") ].

(** A workbook whose company sheet has no header with 'company'. *)
Definition nameless_sheet : ExcelLocalThreeSheet :=
  {| fees := {| columns := []; rows := [] |};
     inv := {| columns := []; rows := [] |};
     cos := {| columns := ["Name"; "Price"];
               rows := [ list_to_map [("Name", Str "Blue-Sky Ventures Ltd");
                                      ("Price", Float "1.0")] ] |};
     _co_company_name_col := Some "Company Name" |}.

(** What [resolve_payload] settles for Alan Fox and Blue-Sky Ventures Ltd. *)
Definition alan_fox_payload : payload :=
  {| investor := default ∅ (head (rows (inv workbook)));
     fee := alan_fox_fee;
     company := default ∅ (head (rows (cos workbook)));
     classification := "retail";
     investment_type := "gross";
     using_default_rates := false |}.

(** * Rounding in exact arithmetic *)

Section ExactRounding.
Local Open Scope Q_scope.

Lemma Zround_half_even_wd (x y : Q) : x == y -> Zround_half_even x = Zround_half_even y.
Proof.
  intros E. unfold Zround_half_even.
  rewrite (Qfloor_comp _ _ E).
  assert (Ec : (x - inject_Z (Qfloor y) ?= 1 # 2) = (y - inject_Z (Qfloor y) ?= 1 # 2)).
  { apply Qcompare_comp; [rewrite E|]; reflexivity. }
  rewrite Ec. reflexivity.
Qed.

Lemma Zround_half_even_err (x : Q) : Qabs (inject_Z (Zround_half_even x) - x) <= 1 # 2.
Proof.
  unfold Zround_half_even.
  pose proof (Qfloor_le x) as Hlo. pose proof (Qlt_floor x) as Hhi.
  rewrite inject_Z_plus in Hhi.
  change (inject_Z 1) with 1 in Hhi.
  destruct (Qcompare_spec (x - inject_Z (Qfloor x)) (1 # 2)) as [E|L|G].
  - destruct (Z.even (Qfloor x)); [|rewrite inject_Z_plus; change (inject_Z 1) with 1];
      apply Qabs_case; intros; lra.
  - apply Qabs_case; intros; lra.
  - rewrite inject_Z_plus; change (inject_Z 1) with 1. apply Qabs_case; intros; lra.
Qed.

Lemma Zround_half_even_Z (n : Z) : Zround_half_even (inject_Z n) = n.
Proof.
  unfold Zround_half_even. rewrite Qfloor_Z.
  assert (E : inject_Z n - inject_Z n == 0) by ring.
  rewrite E. reflexivity.
Qed.

Lemma Qmake_100 (n : Z) : n # 100 == inject_Z n / 100.
Proof. unfold Qeq, Qdiv, Qmult, Qinv, inject_Z; simpl. lia. Qed.

Lemma round2_wd (x y : Q) : x == y -> Exact.round2 x = Exact.round2 y.
Proof.
  intros E. unfold Exact.round2. f_equal. apply Zround_half_even_wd. rewrite E. reflexivity.
Qed.

Lemma round2_err (x : Q) : Qabs (Exact.round2 x - x) <= 1 # 200.
Proof.
  unfold Exact.round2. pose proof (Zround_half_even_err (x * 100)) as H.
  rewrite Qmake_100. revert H. set (n := inject_Z (Zround_half_even (x * 100))).
  intros H. apply Qabs_Qle_condition in H. apply Qabs_Qle_condition.
  assert (E : n / 100 - x == (n - x * 100) / 100) by (field).
  rewrite E. split.
  - apply Qle_shift_div_l; lra.
  - apply Qle_shift_div_r; lra.
Qed.

Lemma round2_bounds (x : Q) : - (1 # 200) <= Exact.round2 x - x <= 1 # 200.
Proof. pose proof (round2_err x) as H. apply Qabs_Qle_condition in H. exact H. Qed.

Lemma round2_is_cents (x : Q) : is_cents (Exact.round2 x).
Proof. eexists. unfold Exact.round2. reflexivity. Qed.

Lemma round2_cents (x : Q) : is_cents x -> Exact.round2 x == x.
Proof.
  intros [n E]. rewrite (round2_wd _ _ E), E. unfold Exact.round2.
  assert (E' : (n # 100) * 100 == inject_Z n).
  { unfold Qeq, Qmult, inject_Z; simpl. lia. }
  rewrite (Zround_half_even_wd _ _ E'), Zround_half_even_Z. reflexivity.
Qed.

Lemma is_cents_plus (x y : Q) : is_cents x -> is_cents y -> is_cents (x + y).
Proof.
  intros [n E] [m E']. exists (n + m)%Z. rewrite E, E'.
  unfold Qeq, Qplus; simpl. lia.
Qed.

Lemma is_cents_minus (x y : Q) : is_cents x -> is_cents y -> is_cents (x - y).
Proof.
  intros [n E] [m E']. exists (n - m)%Z. rewrite E, E'.
  unfold Qeq, Qminus, Qplus, Qopp; simpl. lia.
Qed.

(** Two amounts in cents that are less than three cents apart are at most
    two cents apart. *)
Lemma cents_gap (x y : Q) :
  is_cents x -> is_cents y -> Qabs (x - y) < 3 # 100 -> Qabs (x - y) <= 2 # 100.
Proof.
  intros [n E] [m E'] H.
  assert (D : x - y == (n - m)%Z # 100).
  { rewrite E, E'. unfold Qeq, Qminus, Qplus, Qopp; simpl. lia. }
  rewrite D in *. clear D E E'.
  revert H. generalize (n - m)%Z. intros k.
  unfold Qabs, Qlt, Qle; simpl. lia.
Qed.

(** An error of at most [h], scaled by [c >= 0]. *)
Lemma scaled_error (e c h : Q) :
  - h <= e <= h -> 0 <= c -> - (h * c) <= e * c <= h * c.
Proof. intros [H1 H2] Hc. split; nra. Qed.

(** An error of at most [b], scaled by a factor between 0 and 1. *)
Lemma damped_error (e c b : Q) :
  - b <= e <= b -> 0 <= c <= 1 -> - b <= e * c <= b.
Proof. intros [H1 H2] [Hc1 Hc2]. split; nra. Qed.

(** Dividing by [m >= 1] does not enlarge the distance to [g * m]. *)
Lemma quotient_error (x g m b : Q) :
  1 <= m -> - b <= x - g * m <= b -> - b <= x / m - g <= b.
Proof.
  intros Hm [H1 H2].
  assert (Hm0 : ~ m == 0) by (intros E; rewrite E in Hm; lra).
  assert (E : x / m - g == (x - g * m) / m) by (field; exact Hm0).
  rewrite E. set (y := x - g * m) in *.
  assert (Hb : 0 <= b) by lra.
  split.
  - apply Qle_shift_div_l; [lra|]. nra.
  - apply Qle_shift_div_r; [lra|]. nra.
Qed.

(** A VAT-inclusive total is the ex-VAT amount plus its rounded VAT. *)
Lemma vat_total (ex v : Q) :
  is_cents ex ->
  let vat := Exact.round2 (ex * v) in
  Exact.round2 (ex + vat) == ex + vat /\ - (1 # 200) <= (ex + vat) - ex * (1 + v) <= 1 # 200.
Proof.
  intros C. cbn zeta. split.
  - apply round2_cents, is_cents_plus; [exact C|apply round2_is_cents].
  - pose proof (round2_bounds (ex * v)). split; lra.
Qed.

(** With no VAT the total of a component is its ex-VAT amount. *)
Lemma vat_total_0 (ex : Q) :
  is_cents ex -> Exact.round2 (ex + Exact.round2 (ex * (0 / (100 # 1)))) == ex.
Proof.
  intros C.
  assert (E0 : Exact.round2 (ex * (0 / (100 # 1))) == 0).
  { assert (E : ex * (0 / (100 # 1)) == 0) by field.
    rewrite (round2_wd _ _ E). reflexivity. }
  assert (E : ex + Exact.round2 (ex * (0 / (100 # 1))) == ex) by (rewrite E0; ring).
  rewrite (round2_wd _ _ E). apply round2_cents, C.
Qed.

End ExactRounding.

(** * The two directions of the calculation, for any float arithmetic *)

Lemma bind_ok_inv {A B} (m : result A) (f : A -> result B) (b : B) :
  m ≫= f = Ok b -> exists a, m = Ok a /\ f a = Ok b.
Proof. destruct m as [a|e]; [|discriminate]. intros E. exists a. split; [reflexivity|exact E]. Qed.

Ltac bind_inv H :=
  repeat (let x := fresh "x" in let Hx := fresh "Hx" in
          apply bind_ok_inv in H as (x & Hx & H)).

Section Directions.
Context {F : Type} `{PyFloat F}.
Variable float_of_str : string -> option F.

Lemma default_has_rates :
  has_rates (@DEFAULT_FEE_STRUCTURE F _)
            (f_of_ratio 15 10) (f_of_ratio 2 1) (f_of_ratio 15 10) (f_of_ratio 20 1).
Proof. repeat split; reflexivity. Qed.

Lemma rounded_banker (fs : gmap string (pyval F)) (x : F) :
  fs !! "rounding_rule" = Some (PStr "banker") -> rounded fs x = Ok (f_round2 x).
Proof. intros E. unfold rounded, dict_item. rewrite E. reflexivity. Qed.

(** The forward direction returns, and each figure is the rounding of the
    expression the source computes it from. *)
Lemma gross_banker (fs : gmap string (pyval F)) (up a13 a45 vat g : F) (ty : string) :
  has_rates fs up a13 a45 vat ->
  exists d,
    _calculate_enhanced_gross_investment float_of_str g fs ty = Ok d /\
    let fb := fee_breakdown (breakdown d) in
    let v := f_div vat (f_of_ratio 100 1) in
    let amc_base := ar_amc_base (applied_rates (breakdown d)) in
    gross_investment d = g /\
    upfront_ex_vat fb = f_round2 (f_mul g (f_div up (f_of_ratio 100 1))) /\
    upfront_vat fb = f_round2 (f_mul (upfront_ex_vat fb) v) /\
    upfront_total fb = f_round2 (f_add (upfront_ex_vat fb) (upfront_vat fb)) /\
    amc_base = (if str_eqb ty "retail" then f_round2 (f_sub g (upfront_total fb)) else g) /\
    amc_1_3_ex_vat fb =
      f_round2 (f_mul amc_base (f_mul (f_div a13 (f_of_ratio 100 1)) (f_of_ratio 3 1))) /\
    amc_1_3_vat fb = f_round2 (f_mul (amc_1_3_ex_vat fb) v) /\
    amc_1_3_total fb = f_round2 (f_add (amc_1_3_ex_vat fb) (amc_1_3_vat fb)) /\
    amc_4_5_ex_vat fb =
      f_round2 (f_mul amc_base (f_mul (f_div a45 (f_of_ratio 100 1)) (f_of_ratio 2 1))) /\
    amc_4_5_vat fb = f_round2 (f_mul (amc_4_5_ex_vat fb) v) /\
    amc_4_5_total fb = f_round2 (f_add (amc_4_5_ex_vat fb) (amc_4_5_vat fb)) /\
    upfront_fee d = upfront_ex_vat fb /\
    amc_1_3_fee d = amc_1_3_ex_vat fb /\
    amc_4_5_fee d = amc_4_5_ex_vat fb /\
    total_fees d = f_round2 (f_add (upfront_total fb) (amc_1_3_total fb)) /\
    total_transfer d = f_round2 (f_add g (total_fees d)).
Proof.
  intros (Hup & H13 & H45 & Hvat & Hrule).
  unfold _calculate_enhanced_gross_investment, vat_rate_of, float_item, dict_item.
  rewrite Hup, H13, H45, Hvat.
  destruct (str_eqb ty "retail");
    repeat first [ rewrite (rounded_banker _ _ Hrule)
                 | progress cbn [default from_option id mbind result_bind py_float] ];
    (eexists; split; [reflexivity|]; cbn; repeat split; reflexivity).
Qed.

(** The net direction returns when its multiplier is not zero: it rounds
    the quotient of the net amount by the multiplier, and runs the forward
    direction on the result. *)
Lemma net_banker (fs : gmap string (pyval F)) (up a13 a45 vat net : F) (ty : string) :
  has_rates fs up a13 a45 vat ->
  f_is_zero (multiplier_of ty up a13 vat) = false ->
  exists d d',
    let derived := f_round2 (f_div net (multiplier_of ty up a13 vat)) in
    _calculate_enhanced_gross_investment float_of_str derived fs ty = Ok d /\
    _calculate_enhanced_net_investment float_of_str net fs ty = Ok d' /\
    gross_investment d' = derived /\
    total_transfer d' = f_round2 net /\
    total_fees d' = total_fees d /\
    fee_breakdown (breakdown d') = fee_breakdown (breakdown d) /\
    method d' = "net_enhanced".
Proof.
  intros Hr Hz.
  destruct (gross_banker fs up a13 a45 vat
              (f_round2 (f_div net (multiplier_of ty up a13 vat))) ty Hr)
    as (d & Hd & Hg & _).
  destruct Hr as (Hup & H13 & H45 & Hvat & Hrule).
  exists d.
  unfold _calculate_enhanced_net_investment, vat_rate_of, float_item, dict_item.
  rewrite Hup, H13, Hvat, H45.
  cbn [default from_option id mbind result_bind py_float].
  rewrite Hz.
  repeat first [ rewrite (rounded_banker _ _ Hrule)
               | rewrite Hd
               | progress cbn [default from_option id mbind result_bind py_float] ].
  eexists. split; [reflexivity|]. split; [reflexivity|].
  cbn. rewrite Hg. repeat split; reflexivity.
Qed.

Lemma net_zero_multiplier (fs : gmap string (pyval F)) (up a13 a45 vat net : F) (ty : string) :
  has_rates fs up a13 a45 vat ->
  f_is_zero (multiplier_of ty up a13 vat) = true ->
  _calculate_enhanced_net_investment float_of_str net fs ty = Raise ZeroDivisionError.
Proof.
  intros (Hup & H13 & H45 & Hvat & Hrule) Hz.
  unfold _calculate_enhanced_net_investment, vat_rate_of, float_item, dict_item.
  rewrite Hup, H13, Hvat, H45.
  cbn [default from_option id mbind result_bind py_float].
  rewrite Hz. reflexivity.
Qed.

(** What a result of the forward direction says of its inputs, whatever the
    fee structure and the rounding rule. *)
Lemma gross_ok_inv (g : F) (fs : gmap string (pyval F)) (ty : string) (d : calc_dict F) :
  _calculate_enhanced_gross_investment float_of_str g fs ty = Ok d ->
  gross_investment d = g /\
  investor_type (breakdown d) = ty /\
  (str_eqb ty "retail" = false -> ar_amc_base (applied_rates (breakdown d)) = g).
Proof.
  unfold _calculate_enhanced_gross_investment. intros E.
  apply bind_ok_inv in E as (vat & _ & E).
  apply bind_ok_inv in E as (up & _ & E).
  apply bind_ok_inv in E as (a13 & _ & E).
  apply bind_ok_inv in E as (a45 & _ & E).
  apply bind_ok_inv in E as (uex & _ & E).
  apply bind_ok_inv in E as (uvat & _ & E).
  apply bind_ok_inv in E as (utot & _ & E).
  apply bind_ok_inv in E as ([base steps0] & Hbase & E).
  bind_inv E. injection E as <-. cbn. split; [reflexivity|]. split; [reflexivity|].
  intros Hty. rewrite Hty in Hbase. injection Hbase as <- _. reflexivity.
Qed.

Lemma net_ok_inv (net : F) (fs : gmap string (pyval F)) (ty : string) (d' : calc_dict F) :
  _calculate_enhanced_net_investment float_of_str net fs ty = Ok d' ->
  exists d,
    _calculate_enhanced_gross_investment float_of_str (gross_investment d') fs ty = Ok d /\
    investor_type (breakdown d') = ty /\
    (str_eqb ty "retail" = false ->
     ar_amc_base (applied_rates (breakdown d')) = gross_investment d').
Proof.
  unfold _calculate_enhanced_net_investment. intros E.
  apply bind_ok_inv in E as (vat & _ & E).
  apply bind_ok_inv in E as (up & _ & E).
  apply bind_ok_inv in E as (a13 & _ & E).
  apply bind_ok_inv in E as (a45 & _ & E).
  apply bind_ok_inv in E as (q & _ & E).
  apply bind_ok_inv in E as (g & _ & E).
  apply bind_ok_inv in E as (d & Hd & E).
  apply bind_ok_inv in E as (provided & _ & E).
  injection E as <-. cbn.
  destruct (gross_ok_inv _ _ _ _ Hd) as (Hg & Hty & Hb).
  rewrite Hg. exists d. split; [exact Hd|]. split; [exact Hty|]. exact Hb.
Qed.

End Directions.

(** * The fee engine in exact arithmetic *)

Ltac exact_ops :=
  cbn [f_of_ratio f_of_int f_add f_sub f_mul f_div f_square f_abs f_is_zero f_round2
       Exact.Q_float] in *.

Section ExactEngine.
Local Open Scope Q_scope.
Variable float_of_str : string -> option Q.

(** The total transfer is the gross amount times the closed-form
    multiplier, up to the rounding of the four fee components. *)
Lemma forward_error (fs : gmap string (pyval Q)) (up a13 a45 vat g : Q) (ty : string) :
  has_rates fs up a13 a45 vat ->
  is_cents g ->
  0 <= vat ->
  0 <= (a13 * 3 / 100) * (1 + vat / 100) <= 1 ->
  exists d,
    _calculate_enhanced_gross_investment float_of_str g fs ty = Ok d /\
    is_cents (total_transfer d) /\
    let b := (1 # 100) * (2 + vat / 100) in
    - b <= total_transfer d - g * multiplier_of ty up a13 vat <= b.
Proof.
  intros Hr Hg Hvat HA.
  destruct (gross_banker float_of_str fs up a13 a45 vat g ty Hr)
    as (d & Hd & _ & Hue & Huv & Hut & Hbase & Hae & Hav & Hat & _ & _ & _ & _ & _ & _ & Hf & Ht).
  exists d. split; [exact Hd|].
  cbn zeta in *. exact_ops.
  set (fb := fee_breakdown (breakdown d)) in *.
  pose proof (round2_bounds (g * (up / (100 # 1)))) as B1. rewrite <- Hue in B1.
  pose proof (round2_bounds (upfront_ex_vat fb * (vat / (100 # 1)))) as B2. rewrite <- Huv in B2.
  assert (Cue : is_cents (upfront_ex_vat fb)) by (rewrite Hue; apply round2_is_cents).
  assert (Cuv : is_cents (upfront_vat fb)) by (rewrite Huv; apply round2_is_cents).
  assert (Eut : upfront_total fb == upfront_ex_vat fb + upfront_vat fb).
  { rewrite Hut. apply round2_cents, is_cents_plus; assumption. }
  assert (Cut : is_cents (upfront_total fb)) by (rewrite Hut; apply round2_is_cents).
  pose proof (round2_bounds
                (ar_amc_base (applied_rates (breakdown d)) * (a13 / (100 # 1) * (3 # 1)))) as B3.
  rewrite <- Hae in B3.
  pose proof (round2_bounds (amc_1_3_ex_vat fb * (vat / (100 # 1)))) as B4. rewrite <- Hav in B4.
  assert (Cae : is_cents (amc_1_3_ex_vat fb)) by (rewrite Hae; apply round2_is_cents).
  assert (Cav : is_cents (amc_1_3_vat fb)) by (rewrite Hav; apply round2_is_cents).
  assert (Eat : amc_1_3_total fb == amc_1_3_ex_vat fb + amc_1_3_vat fb).
  { rewrite Hat. apply round2_cents, is_cents_plus; assumption. }
  assert (Cat : is_cents (amc_1_3_total fb)) by (rewrite Hat; apply round2_is_cents).
  assert (Ef : total_fees d == upfront_total fb + amc_1_3_total fb).
  { rewrite Hf. apply round2_cents, is_cents_plus; assumption. }
  assert (Cf : is_cents (total_fees d)) by (rewrite Hf; apply round2_is_cents).
  assert (Et : total_transfer d == g + total_fees d).
  { rewrite Ht. apply round2_cents, is_cents_plus; assumption. }
  split; [rewrite Ht; apply round2_is_cents|].
  unfold multiplier_of. exact_ops.
  set (v := vat / (100 # 1)) in *.
  set (u := up / (100 # 1)) in *.
  set (a := a13 / (100 # 1) * (3 # 1)) in *.
  assert (Ea : a13 * (3 # 1) / (100 # 1) == a) by (unfold a; field).
  rewrite Ea in HA.
  assert (Hv : 0 <= v) by (unfold v; apply Qle_shift_div_l; lra).
  assert (Eb : ar_amc_base (applied_rates (breakdown d)) ==
               if str_eqb ty "retail" then g - (upfront_ex_vat fb + upfront_vat fb) else g).
  { rewrite Hbase. destruct (str_eqb ty "retail"); [|reflexivity].
    rewrite <- Eut. apply round2_cents, is_cents_minus; assumption. }
  rewrite Et, Ef, Eat, Eut.
  clear Hbase Hue Huv Hut Hae Hav Hat Hf Ht Et Ef Eat Eut Cf Cat Cut.
  set (Uex := upfront_ex_vat fb) in *. set (Uvat := upfront_vat fb) in *.
  set (Aex := amc_1_3_ex_vat fb) in *. set (Avat := amc_1_3_vat fb) in *.
  set (base := ar_amc_base (applied_rates (breakdown d))) in *.
  clearbody Uex Uvat Aex Avat base v u a. clear fb Hd Hr.
  pose proof (scaled_error _ v _ B1 Hv) as P1.
  destruct (str_eqb ty "retail"); rewrite Eb in B3; rewrite Ea; clear Eb Ea.
  - pose proof (scaled_error _ v _ B3 Hv) as P3.
    assert (W : - ((1 # 200) * (2 + v)) <= (Uex + Uvat) - g * u * (1 + v) <= (1 # 200) * (2 + v))
      by (split; lra).
    assert (Hc : 0 <= 1 - a * (1 + v) <= 1) by lra.
    pose proof (damped_error _ _ _ W Hc) as P2.
    split; lra.
  - pose proof (scaled_error _ v _ B3 Hv) as P3.
    split; lra.
Qed.

Lemma multiplier_closed_form (up a13 vat : Q) (ty : string) :
  let u := up / 100 in
  let a := 3 * (a13 / 100) in
  let t := 1 + vat / 100 in
  multiplier_of ty up a13 vat ==
  if str_eqb ty "retail" then 1 + u * t + a * t - u * a * t ^ 2 else 1 + t * (u + a).
Proof.
  cbn zeta. unfold multiplier_of. exact_ops.
  destruct (str_eqb ty "retail"); field.
Qed.

Lemma multiplier_ge_1 (up a13 vat : Q) (ty : string) :
  0 <= up -> 0 <= vat ->
  0 <= (a13 * 3 / 100) * (1 + vat / 100) <= 1 ->
  1 <= multiplier_of ty up a13 vat.
Proof.
  intros Hup Hvat HA. unfold multiplier_of. exact_ops.
  set (v := vat / (100 # 1)) in *. set (u := up / (100 # 1)) in *.
  set (a := a13 * (3 # 1) / (100 # 1)) in *.
  assert (Hv : 0 <= v) by (unfold v; apply Qle_shift_div_l; lra).
  assert (Hu : 0 <= u) by (unfold u; apply Qle_shift_div_l; lra).
  clearbody v u a.
  assert (Hut : 0 <= u * (1 + v)) by nra.
  destruct (str_eqb ty "retail").
  - assert (0 <= (u * (1 + v)) * (1 - a * (1 + v))) by (apply Qmult_le_0_compat; lra).
    lra.
  - lra.
Qed.

End ExactEngine.

Section ExactClaims.
Local Open Scope Q_scope.
Variable float_of_str : string -> option Q.



End ExactClaims.

Section VatScaling.
Local Open Scope Q_scope.
Variable float_of_str : string -> option Q.


End VatScaling.

Section ExactWitnesses.
Local Open Scope Q_scope.




End ExactWitnesses.

(** * The fee engine on binary64 floats *)

Section Binary64Engine.
Import Binary64.
Local Open Scope Q_scope.

Abbreviation defaults := (@DEFAULT_FEE_STRUCTURE float _).

(** C6.  On binary64 floats, for the gross amount 50000, a professional
    investor and a fee structure with upfront 1.5, AMC 1-3 2.0, VAT 20 and
    the default rounding, the forward direction returns upfront_ex_vat 750,
    upfront_total 900, amc_1_3_ex_vat 3000, amc_1_3_total 3600, total_fees
    4500 (AMC 4-5 left out) and total_transfer 54500, with total_fees =
    upfront_total + amc_1_3_total and total_transfer = amount + total_fees. *)
Theorem scenario_gross_professional_50000
    (float_of_str : string -> option float) (fs : gmap string (pyval float)) (a45 : float) :
  has_rates fs 1.5%float 2%float a45 20%float ->
  exists d,
    _calculate_enhanced_gross_investment float_of_str 50000%float fs "professional" = Ok d /\
    let fb := fee_breakdown (breakdown d) in
    upfront_ex_vat fb = 750%float /\
    upfront_total fb = 900%float /\
    amc_1_3_ex_vat fb = 3000%float /\
    amc_1_3_total fb = 3600%float /\
    total_fees d = 4500%float /\
    total_transfer d = 54500%float /\
    total_fees d = (upfront_total fb + amc_1_3_total fb)%float /\
    total_transfer d = (50000 + total_fees d)%float.
Proof.
  intros Hr.
  destruct (gross_banker float_of_str fs _ _ _ _ 50000%float "professional" Hr)
    as (d & Hd & _ & Hue & Huv & Hut & Hbase & Hae & Hav & Hat & _ & _ & _ & _ & _ & _ & Hf & Ht).
  exists d. split; [exact Hd|]. cbn zeta in *.
  change (str_eqb "professional" "retail") with false in Hbase.
  rewrite Hbase in Hae. clear Hbase.
  set (fb := fee_breakdown (breakdown d)) in *.
  assert (Eue : upfront_ex_vat fb = 750%float) by (rewrite Hue; vm_compute; reflexivity).
  rewrite Eue in Huv, Hut.
  assert (Euv : upfront_vat fb = 150%float) by (rewrite Huv; vm_compute; reflexivity).
  rewrite Euv in Hut.
  assert (Eut : upfront_total fb = 900%float) by (rewrite Hut; vm_compute; reflexivity).
  assert (Eae : amc_1_3_ex_vat fb = 3000%float) by (rewrite Hae; vm_compute; reflexivity).
  rewrite Eae in Hav, Hat.
  assert (Eav : amc_1_3_vat fb = 600%float) by (rewrite Hav; vm_compute; reflexivity).
  rewrite Eav in Hat.
  assert (Eat : amc_1_3_total fb = 3600%float) by (rewrite Hat; vm_compute; reflexivity).
  rewrite Eut, Eat in Hf.
  assert (Ef : total_fees d = 4500%float) by (rewrite Hf; vm_compute; reflexivity).
  rewrite Ef in Ht.
  assert (Et : total_transfer d = 54500%float) by (rewrite Ht; vm_compute; reflexivity).
  rewrite Ef, Et, Eut, Eat. repeat split; try assumption; vm_compute; reflexivity.
Qed.

Lemma scenario_gross_professional_50000_witness :
  has_rates defaults 1.5%float 2%float 1.5%float 20%float /\
  exists d,
    _calculate_enhanced_gross_investment (fun _ => None) 50000%float defaults "professional"
      = Ok d /\
    let fb := fee_breakdown (breakdown d) in
    upfront_ex_vat fb = 750%float /\
    upfront_total fb = 900%float /\
    amc_1_3_ex_vat fb = 3000%float /\
    amc_1_3_total fb = 3600%float /\
    total_fees d = 4500%float /\
    total_transfer d = 54500%float /\
    total_fees d = (upfront_total fb + amc_1_3_total fb)%float /\
    total_transfer d = (50000 + total_fees d)%float.
Proof.
  assert (Hr : has_rates defaults 1.5%float 2%float 1.5%float 20%float)
    by (repeat split; vm_compute; reflexivity).
  split; [exact Hr|].
  apply (scenario_gross_professional_50000 (fun _ => None) defaults 1.5%float Hr).
Defined.




End Binary64Engine.

(** * calc_breakdown *)

Section Breakdown.
Context {F : Type} `{PyFloat F}.
Variable float_of_str : string -> option F.
Variable float_repr : F -> string.
Variable calc_digest : F -> bool -> gmap string (pyval F) -> string.

Abbreviation calc := (calc_breakdown float_of_str float_repr calc_digest).
Abbreviation dict := (gmap string (pyval F)).

(** A call at the clock reading [now2] is the call at [now1] with the two
    timestamps replaced. *)
Lemma calc_breakdown_clock (now1 now2 : string) (amount : F) (is_net : bool)
    (company_data investor_data : option dict) :
  calc now2 amount is_net company_data investor_data =
  r ← calc now1 amount is_net company_data investor_data; Ok (with_timestamp r now2).
Proof.
  unfold calc_breakdown.
  destruct (_get_enhanced_fee_structure float_of_str company_data) as [fs|e];
    [|reflexivity]. cbn [mbind result_bind].
  destruct (_apply_enhanced_investor_adjustments float_repr fs investor_data) as [adj|e];
    [|reflexivity]. cbn [mbind result_bind].
  set (res := if is_net then _calculate_enhanced_net_investment _ _ _ _ else _).
  destruct res as [res|e]; [|reflexivity]. cbn [mbind result_bind].
  destruct (dict_item adj "rounding_rule") as [rule|e]; reflexivity.
Qed.

Lemma calc_breakdown_timestamp (now : string) (amount : F) (is_net : bool)
    (company_data investor_data : option dict) (r : FeeCalculationResult.t F) :
  calc now amount is_net company_data investor_data = Ok r ->
  FeeCalculationResult.timestamp r = now.
Proof.
  unfold calc_breakdown. intros E.
  apply bind_ok_inv in E as (fs & _ & E).
  apply bind_ok_inv in E as (adj & _ & E).
  apply bind_ok_inv in E as (res & _ & E).
  apply bind_ok_inv in E as (rule & _ & E).
  injection E as <-. reflexivity.
Qed.

Lemma resolve_investor_type_spec (investor_data : option dict) :
  resolve_investor_type float_repr investor_data =
  if negb (dict_falsy investor_data)
     && str_eqb (classification_field float_repr (default ∅ investor_data)) "retail"
  then "retail" else "professional".
Proof.
  unfold resolve_investor_type, classification_field.
  destruct (dict_falsy investor_data); [reflexivity|]. cbn [negb andb].
  set (c := lower _).
  unfold str_eqb.
  destruct (bool_decide_reflect (c = "retail")) as [->|Hr]; [reflexivity|].
  cbn [orb]. destruct (bool_decide_reflect (c = "professional")) as [->|Hp]; reflexivity.
Qed.

Lemma calc_breakdown_formulas (now : string) (amount : F) (is_net : bool)
    (company_data investor_data : option dict) (r : FeeCalculationResult.t F) :
  calc now amount is_net company_data investor_data = Ok r ->
  let ty := resolve_investor_type float_repr investor_data in
  investor_type (FeeCalculationResult.breakdown r) = ty /\
  (str_eqb ty "retail" = false ->
   ar_amc_base (applied_rates (FeeCalculationResult.breakdown r)) =
   FeeCalculationResult.gross_investment r).
Proof.
  unfold calc_breakdown. intros E. cbn zeta.
  apply bind_ok_inv in E as (fs & _ & E).
  apply bind_ok_inv in E as (adj & _ & E).
  apply bind_ok_inv in E as (res & Hres & E).
  apply bind_ok_inv in E as (rule & _ & E).
  injection E as <-. cbn.
  destruct is_net.
  - destruct (net_ok_inv _ _ _ _ _ Hres) as (_ & _ & Hty & Hb). split; assumption.
  - destruct (gross_ok_inv _ _ _ _ _ Hres) as (Hg & Hty & Hb). rewrite Hg.
    split; assumption.
Qed.


Lemma map_company_fields_raises (company_data : dict) (entries : list (string * string)) :
  forall (structure : dict) (entry : string * string) (v : pyval F) (e : exn),
    entry ∈ entries ->
    company_data !! entry.1 = Some v -> v <> PNone ->
    py_float float_of_str v = Raise e ->
    raises (map_company_fields float_of_str company_data structure entries).
Proof.
  induction entries as [|e0 rest IH]; intros structure entry v e Hin Hv Hn Hf.
  - inversion Hin.
  - cbn [map_company_fields].
    destruct (map_company_field float_of_str company_data structure e0) as [s'|e'] eqn:E0.
    + cbn [mbind result_bind]. apply elem_of_cons in Hin as [->|Hin].
      * exfalso. unfold map_company_field in E0. rewrite Hv in E0.
        destruct v; try congruence; rewrite Hf in E0; discriminate.
      * eapply IH; eassumption.
    + exists e'. reflexivity.
Qed.

Lemma calc_breakdown_malformed (now : string) (amount : F) (is_net : bool)
    (company_data : dict) (investor_data : option dict)
    (entry : string * string) (v : pyval F) (e : exn) :
  entry ∈ field_mapping ->
  company_data !! entry.1 = Some v -> v <> PNone ->
  py_float float_of_str v = Raise e ->
  raises (calc now amount is_net (Some company_data) investor_data).
Proof.
  intros Hin Hv Hn Hf.
  destruct (map_company_fields_raises company_data field_mapping DEFAULT_FEE_STRUCTURE
              entry v e Hin Hv Hn Hf) as [e' He'].
  exists e'. unfold calc_breakdown, _get_enhanced_fee_structure.
  assert (Hne : dict_falsy (Some company_data) = false).
  { cbn. apply bool_decide_eq_false. intros ->. rewrite lookup_empty in Hv. discriminate. }
  rewrite Hne. cbn [default from_option id]. rewrite He'. reflexivity.
Qed.

Lemma calc_breakdown_defaults (now : string) (amount : F) :
  exists r, calc now amount false None None = Ok r /\
            FeeCalculationResult.gross_investment r = amount.
Proof.
  destruct (gross_banker float_of_str DEFAULT_FEE_STRUCTURE _ _ _ _ amount
              "professional" default_has_rates) as (d & Hd & Hg & _).
  unfold calc_breakdown. cbn [_get_enhanced_fee_structure dict_falsy mbind result_bind].
  cbn [_apply_enhanced_investor_adjustments dict_falsy mbind result_bind].
  change (resolve_investor_type float_repr None) with "professional".
  rewrite Hd. cbn [mbind result_bind].
  change (dict_item DEFAULT_FEE_STRUCTURE "rounding_rule")
    with (Ok (PStr (F:=F) "banker")).
  cbn [mbind result_bind]. eexists. split; [reflexivity|]. exact Hg.
Qed.

End Breakdown.

Section Validation.
Context {F : Type} `{PyFloat F}.
Variable float_of_str : string -> option F.
Variable float_repr : F -> string.
Variable calc_digest : F -> bool -> gmap string (pyval F) -> string.

Abbreviation dict := (gmap string (pyval F)).


(** C9, as amended.  Two calls with the same arguments differ only by the
    clock: the call at the reading [now2] raises what the call at [now1]
    raises, or returns its result with the two timestamps (of the result and
    of its audit trail) set to [now2]; all other fields, the audit hash
    among them, are the same. *)
Theorem calc_breakdown_repeatable_up_to_clock (now1 now2 : string) (amount : F)
    (is_net : bool) (company_data investor_data : option dict) :
  calc_breakdown float_of_str float_repr calc_digest
    now2 amount is_net company_data investor_data =
  (r ← calc_breakdown float_of_str float_repr calc_digest
         now1 amount is_net company_data investor_data;
   Ok (with_timestamp r now2)) /\
  forall r1 r2,
    calc_breakdown float_of_str float_repr calc_digest
      now1 amount is_net company_data investor_data = Ok r1 ->
    calc_breakdown float_of_str float_repr calc_digest
      now2 amount is_net company_data investor_data = Ok r2 ->
    r2 = with_timestamp r1 now2 /\
    FeeCalculationResult.calc_hash r1 = FeeCalculationResult.calc_hash r2 /\
    FeeCalculationResult.timestamp r1 = now1 /\
    FeeCalculationResult.timestamp r2 = now2.
Proof.
  pose proof (calc_breakdown_clock float_of_str float_repr calc_digest now1 now2 amount is_net
                company_data investor_data) as Hc.
  split; [exact Hc|].
  intros r1 r2 H1 H2. rewrite H1 in Hc. cbn [mbind result_bind] in Hc.
  rewrite H2 in Hc. injection Hc as ->.
  split; [reflexivity|]. split; [reflexivity|].
  split; [|reflexivity].
  eapply calc_breakdown_timestamp. exact H1.
Qed.

End Validation.


(** Two calls one microsecond apart return different results. *)
Lemma timestamps_differ :
  ~ exists float_of_str float_repr calc_digest,
      calc_breakdown (F:=float) float_of_str float_repr calc_digest
        "2024-01-01T09:00:00.000000" 50000%float false None None =
      calc_breakdown float_of_str float_repr calc_digest
        "2024-01-01T09:00:00.000001" 50000%float false None None.
Proof.
  intros (fos & repr & digest & E).
  destruct (calc_breakdown_defaults fos repr digest "2024-01-01T09:00:00.000000" 50000%float)
    as (r1 & H1 & _).
  destruct (calc_breakdown_defaults fos repr digest "2024-01-01T09:00:00.000001" 50000%float)
    as (r2 & H2 & _).
  pose proof (calc_breakdown_timestamp _ _ _ _ _ _ _ _ _ H1) as T1.
  pose proof (calc_breakdown_timestamp _ _ _ _ _ _ _ _ _ H2) as T2.
  rewrite H1, H2 in E. injection E as ->. rewrite T1 in T2. discriminate.
Qed.

Section BreakdownWitnesses.
Import Binary64.

(** A runtime for calls that convert no string to a float, print no float
    and whose digest is not looked at. *)
Abbreviation calc_at now amount is_net company_data investor_data :=
  (calc_breakdown (F:=float) (fun _ => None) (fun _ => "") (fun _ _ _ => "")
     now amount is_net company_data investor_data).



Lemma calc_breakdown_repeatable_up_to_clock_witness :
  exists r1 r2,
    calc_at "2024-01-01T09:00:00.000000" 50000%float false None None = Ok r1 /\
    calc_at "2024-01-01T09:00:00.000001" 50000%float false None None = Ok r2 /\
    r2 = with_timestamp r1 "2024-01-01T09:00:00.000001" /\
    FeeCalculationResult.calc_hash r1 = FeeCalculationResult.calc_hash r2 /\
    FeeCalculationResult.timestamp r1 = "2024-01-01T09:00:00.000000" /\
    FeeCalculationResult.timestamp r2 = "2024-01-01T09:00:00.000001".
Proof.
  destruct (calc_at "2024-01-01T09:00:00.000000" 50000%float false None None)
    as [r1|e] eqn:E1; [|vm_compute in E1; discriminate].
  destruct (calc_at "2024-01-01T09:00:00.000001" 50000%float false None None)
    as [r2|e] eqn:E2; [|vm_compute in E2; discriminate].
  exists r1, r2. split; [reflexivity|]. split; [reflexivity|].
  apply (proj2 (calc_breakdown_repeatable_up_to_clock
                  (fun _ => None) (fun _ => "") (fun _ _ _ => "")
                  "2024-01-01T09:00:00.000000" "2024-01-01T09:00:00.000001"
                  50000%float false None None) r1 r2 E1 E2).
Defined.

End BreakdownWitnesses.

(** * The lookups of the adapter *)

(** An equation between closed terms, checked by evaluating both sides. *)
Ltac by_evaluation :=
  lazymatch goal with
  | |- ?a = ?b => vm_cast_no_check (@eq_refl _ b)
  end.

Section FeeRowLookup.

(** The fuzzy matcher decides no outcome of the by-name fallback. *)
Lemma fee_rows_by_name_result rf1 ex1 rf2 ex2 regex_search self name :
  (fee_rows_by_name rf1 ex1 regex_search self name).2 =
  (fee_rows_by_name rf2 ex2 regex_search self name).2.
Proof.
  unfold fee_rows_by_name. cbn zeta.
  match goal with |- context [match ?t with Ok _ => _ | Raise _ => _ end] =>
    destruct t as [df|e]; [|reflexivity] end.
  destruct (is_empty df); cbn [andb]; [destruct rf1, rf2|]; reflexivity.
Qed.

Lemma find_fee_row_result rf1 ex1 rf2 ex2 regex_search to_datetime sort2 sort1
    self cust_ref subscription_code investor_full_name :
  (find_fee_row rf1 ex1 regex_search to_datetime sort2 sort1
                self cust_ref subscription_code investor_full_name).2 =
  (find_fee_row rf2 ex2 regex_search to_datetime sort2 sort1
                self cust_ref subscription_code investor_full_name).2.
Proof.
  unfold find_fee_row. destruct (negb _); [reflexivity|]. cbn zeta.
  match goal with |- context [if ?c then fee_rows_by_name _ _ _ _ _ else _] =>
    destruct c end; [|reflexivity].
  pose proof (fee_rows_by_name_result rf1 ex1 rf2 ex2 regex_search self
                (default "" investor_full_name)) as E.
  destruct (fee_rows_by_name rf1 ex1 _ _ _) as [p1 l1].
  destruct (fee_rows_by_name rf2 ex2 _ _ _) as [p2 l2].
  cbn in E. subst l2. reflexivity.
Qed.

Lemma alan_fo_finds_alan_fox rf ex regex_search to_datetime sort2 sort1 :
  (find_fee_row rf ex regex_search to_datetime sort2 sort1
                workbook (Some (Str "CC999")) None (Some "Alan Fo")).2
  = Ok (Some alan_fox_fee).
Proof.
  rewrite (find_fee_row_result rf ex false (fun _ _ => None)).
  by_evaluation.
Qed.

Lemma alan_fax_finds_nothing rf ex to_datetime sort2 sort1 :
  (find_fee_row rf ex literal_search to_datetime sort2 sort1
                workbook (Some (Str "CC999")) None (Some "Alan Fax")).2
  = Ok None.
Proof.
  rewrite (find_fee_row_result rf ex false (fun _ _ => None)).
  by_evaluation.
Qed.

(** C3, as amended.  The fee-row lookup never follows the fuzzy matcher:
    its result is the same whether rapidfuzz is installed or not and
    whatever it proposes.  With fee rows for Alan Fox and Alan Hickford and
    no matching client reference, the name 'Alan Fo' finds Alan Fox's row,
    by compressed containment ('alanfo' is part of 'alanfox'); a name that
    no exact, containment, reversed or token tier matches, such as
    'Alan Fax', finds no row. *)
Theorem fee_row_lookup_never_follows_fuzzy :
  (forall rf1 ex1 rf2 ex2 regex_search to_datetime sort2 sort1
          self cust_ref subscription_code investor_full_name,
     (find_fee_row rf1 ex1 regex_search to_datetime sort2 sort1
                   self cust_ref subscription_code investor_full_name).2 =
     (find_fee_row rf2 ex2 regex_search to_datetime sort2 sort1
                   self cust_ref subscription_code investor_full_name).2) /\
  (forall rf ex regex_search to_datetime sort2 sort1,
     (find_fee_row rf ex regex_search to_datetime sort2 sort1
                   workbook (Some (Str "CC999")) None (Some "Alan Fo")).2
     = Ok (Some alan_fox_fee)) /\
  (forall rf ex to_datetime sort2 sort1,
     (find_fee_row rf ex literal_search to_datetime sort2 sort1
                   workbook (Some (Str "CC999")) None (Some "Alan Fax")).2
     = Ok None).
Proof.
  split; [|split].
  - intros. apply find_fee_row_result.
  - intros. apply alan_fo_finds_alan_fox.
  - intros. apply alan_fax_finds_nothing.
Qed.

(** For no runtime does the lookup of 'Alan Fo' return no row. *)
Lemma alan_fo_is_found :
  ~ exists rf ex regex_search to_datetime sort2 sort1,
      (find_fee_row rf ex regex_search to_datetime sort2 sort1
                    workbook (Some (Str "CC999")) None (Some "Alan Fo")).2
      = Ok None.
Proof.
  intros (rf & ex & re & td & s2 & s1 & E).
  rewrite alan_fo_finds_alan_fox in E. discriminate.
Qed.

(** C2, at the failing input.  The company query 'Blue Sky' matches no
    name exactly, as a pattern or normalized; compressed, it is contained in
    two names, Blue-Sky Ventures Ltd and BlueSky Capital Ltd, and
    [find_company_row] returns the first of them. *)
Theorem company_partial_match_picks_first rf ex :
  let s_comp := _compress "Blue Sky" in
  let candidates :=
    company_partial_matches "Company Name"
      (with_norm_column "Company Name" workbook.(cos)) s_comp in
  List.map (col_str "Company Name") candidates.(rows)
    = ["Blue-Sky Ventures Ltd"; "BlueSky Capital Ltd"] /\
  (find_company_row rf ex literal_search workbook "Blue Sky").2
    = Ok (first_row candidates) /\
  option_map (col_str "Company Name") (first_row candidates) = Some "Blue-Sky Ventures Ltd".
Proof.
  cbn zeta. split; [by_evaluation|]. split; by_evaluation.
Qed.

End FeeRowLookup.

Section Outcomes.
Variable rapidfuzz_installed : bool.
Variable extractOne : string -> list string -> option (string * Q * nat).
Variable extract : string -> list string -> list (string * Q * nat).
Variable regex_search : string -> option (string -> bool).
Variable to_datetime : cell -> cell.
Variable sort_by_date_and_deposit : list row -> list row.
Variable sort_by_deposit : list row -> list row.

Abbreviation find_investor := (find_investor_row rapidfuzz_installed extract).
Abbreviation find_fee :=
  (find_fee_row rapidfuzz_installed extractOne regex_search to_datetime
                sort_by_date_and_deposit sort_by_deposit).
Abbreviation find_company := (find_company_row rapidfuzz_installed extractOne regex_search).
Abbreviation resolve :=
  (resolve_payload rapidfuzz_installed extractOne extract regex_search to_datetime
                   sort_by_date_and_deposit sort_by_deposit).

(** The safety check of the investor lookup: more than one partial match
    raises, with a preview of at most five names. *)
Lemma investor_partial_ambiguity_raises (self : ExcelLocalThreeSheet) (investor_query : string) :
  no_exact_investor_match self investor_query ->
  let m := investor_partial_matches self (_compress (lower (strip investor_query))) in
  (1 < length m.(rows))%nat ->
  find_investor self investor_query =
  Raise (ValueError (ambiguous_partial investor_query (List.map (col_str "__full__") m.(rows)))).
Proof.
  intros (He & Hr & Hc & Hx) m Hm. unfold find_investor_row. cbn zeta in *.
  rewrite He, Hr, Hc, Hx. fold m.
  apply Nat.ltb_lt in Hm. rewrite Hm. reflexivity.
Qed.

Lemma resolve_payload_investor_raises self investor_query company_query subscription_code e :
  find_investor self investor_query = Raise e ->
  resolve self investor_query company_query subscription_code = (self, Raise e).
Proof. intros E. unfold resolve_payload. rewrite E. reflexivity. Qed.

Lemma resolve_payload_investor_not_found self investor_query company_query subscription_code
    found :
  find_investor self investor_query = Ok found ->
  row_falsy found = true ->
  resolve self investor_query company_query subscription_code
  = (self, Raise (ValueError ("Investor not found: " ++ investor_query))).
Proof. intros E Hf. unfold resolve_payload. rewrite E, Hf. reflexivity. Qed.

Lemma resolve_payload_after_investor self investor_query company_query subscription_code
    found fee_found self' co_found :
  find_investor self investor_query = Ok found ->
  row_falsy found = false ->
  let inv := default ∅ found in
  let cust_ref := inv !! "Custodian Client Ref" in
  let full_name :=
    strip (strip (get_str inv "First Name") ++ " " ++ strip (get_str inv "Last Name")) in
  (find_fee self cust_ref subscription_code (Some full_name)).2 = Ok fee_found ->
  find_company self company_query = (self', Ok co_found) ->
  (resolve self investor_query company_query subscription_code).2 =
  if row_falsy co_found then Raise (ValueError ("Company not found: " ++ company_query))
  else
    let fee := if row_falsy fee_found then default_fee_row cust_ref full_name
               else default ∅ fee_found in
    Ok {| investor := inv;
          fee := fee;
          company := default ∅ co_found;
          classification := _class_from_fund (fee !! "Fund");
          investment_type := _norm_gross_net (fee !! "Gross/Net");
          using_default_rates := row_falsy fee_found |}.
Proof.
  intros E Hf inv cust_ref full_name Efee Eco. unfold resolve_payload.
  rewrite E, Hf. fold inv. fold cust_ref. fold full_name. rewrite Efee, Eco.
  destruct (row_falsy co_found); reflexivity.
Qed.


End Outcomes.

Lemma alan_is_ambiguous rf extract :
  find_investor_row rf extract workbook "Alan" =
  Raise (ValueError
    "Ambiguous investor name 'Alan'. Multiple matches found: Alan Fox, Alan Hickford. Please provide a more specific name.").
Proof. by_evaluation. Qed.


Section OutcomeWitnesses.

(** A runtime with rapidfuzz installed and finding nothing similar, and
    patterns without metacharacters. *)
Abbreviation resolve_at :=
  (resolve_payload true (fun _ _ => None) (fun _ _ => []) literal_search
     (fun v => v) (fun l => l) (fun l => l)).


End OutcomeWitnesses.

(** * The rounding rules *)

Section RoundingRules.
Local Open Scope Q_scope.

Lemma Zround_half_even_mono (x y : Q) : x <= y -> (Zround_half_even x <= Zround_half_even y)%Z.
Proof.
  intros L.
  destruct (Z_le_gt_dec (Zround_half_even x) (Zround_half_even y)) as [Hle|Hgt]; [exact Hle|].
  exfalso.
  pose proof (Zround_half_even_err x) as Ex. pose proof (Zround_half_even_err y) as Ey.
  apply Qabs_Qle_condition in Ex. apply Qabs_Qle_condition in Ey.
  assert (G : inject_Z (Zround_half_even y) + 1 <= inject_Z (Zround_half_even x)).
  { change 1 with (inject_Z 1). rewrite <- inject_Z_plus. rewrite <- Zle_Qle. lia. }
  assert (E : x == y) by lra.
  rewrite (Zround_half_even_wd _ _ E) in Hgt. lia.
Qed.

Lemma round2_mono (x y : Q) : x <= y -> Exact.round2 x <= Exact.round2 y.
Proof.
  intros L. unfold Exact.round2.
  assert (M : (Zround_half_even (x * 100) <= Zround_half_even (y * 100))%Z).
  { apply Zround_half_even_mono. lra. }
  unfold Qle; simpl. lia.
Qed.


End RoundingRules.

(** * The reconciliation table *)

Section Reconciliation.
Local Open Scope Q_scope.
Variable float_of_str : string -> option Q.

(** The transfer of the forward direction is the amount plus the fees. *)
Lemma forward_adds_up (fs : gmap string (pyval Q)) (up a13 a45 vat g : Q) (ty : string)
    (d : calc_dict Q) :
  has_rates fs up a13 a45 vat ->
  is_cents g ->
  _calculate_enhanced_gross_investment float_of_str g fs ty = Ok d ->
  let fb := fee_breakdown (breakdown d) in
  gross_investment d = g /\
  is_cents (total_fees d) /\
  total_fees d == upfront_ex_vat fb + upfront_vat fb + amc_1_3_ex_vat fb + amc_1_3_vat fb /\
  total_transfer d == g + total_fees d.
Proof.
  intros Hr Hg Hd.
  destruct (gross_banker float_of_str fs up a13 a45 vat g ty Hr)
    as (d0 & Hd0 & Hgi & Hue & Huv & Hut & _ & Hae & Hav & Hat & _ & _ & _ & _ & _ & _ & Hf & Ht).
  rewrite Hd in Hd0. injection Hd0 as <-.
  cbn zeta in *. exact_ops.
  set (fb := fee_breakdown (breakdown d)) in *.
  assert (Cue : is_cents (upfront_ex_vat fb)) by (rewrite Hue; apply round2_is_cents).
  assert (Cuv : is_cents (upfront_vat fb)) by (rewrite Huv; apply round2_is_cents).
  assert (Eut : upfront_total fb == upfront_ex_vat fb + upfront_vat fb).
  { rewrite Hut. apply round2_cents, is_cents_plus; assumption. }
  assert (Cut : is_cents (upfront_total fb)) by (rewrite Hut; apply round2_is_cents).
  assert (Cae : is_cents (amc_1_3_ex_vat fb)) by (rewrite Hae; apply round2_is_cents).
  assert (Cav : is_cents (amc_1_3_vat fb)) by (rewrite Hav; apply round2_is_cents).
  assert (Eat : amc_1_3_total fb == amc_1_3_ex_vat fb + amc_1_3_vat fb).
  { rewrite Hat. apply round2_cents, is_cents_plus; assumption. }
  assert (Cat : is_cents (amc_1_3_total fb)) by (rewrite Hat; apply round2_is_cents).
  assert (Ef : total_fees d == upfront_total fb + amc_1_3_total fb).
  { rewrite Hf. apply round2_cents, is_cents_plus; assumption. }
  assert (Cf : is_cents (total_fees d)) by (rewrite Hf; apply round2_is_cents).
  split; [exact Hgi|]. split; [exact Cf|]. split.
  - rewrite Ef, Eut, Eat. ring.
  - rewrite Ht. apply round2_cents, is_cents_plus; assumption.
Qed.


End Reconciliation.

(** * The keys of the fee structure that the calculation reads *)

Section Frame.
Context {F : Type} `{PyFloat F}.
Variable float_of_str : string -> option F.

Lemma gross_frame (g : F) (fs : gmap string (pyval F)) (ty k : string) (v : pyval F) :
  k ∉ keys_read ->
  _calculate_enhanced_gross_investment float_of_str g (<[k := v]> fs) ty =
  _calculate_enhanced_gross_investment float_of_str g fs ty.
Proof.
  intros Hk.
  assert (forall k', k' ∈ keys_read -> (<[k := v]> fs) !! k' = fs !! k') as L.
  { intros k' Hk'. apply lookup_insert_ne. intros ->. contradiction. }
  unfold _calculate_enhanced_gross_investment, vat_rate_of, float_item, rounded, dict_item.
  rewrite !L by (apply list_elem_of_In; cbn; tauto).
  reflexivity.
Qed.

Lemma net_frame (net : F) (fs : gmap string (pyval F)) (ty k : string) (v : pyval F) :
  k ∉ keys_read ->
  _calculate_enhanced_net_investment float_of_str net (<[k := v]> fs) ty =
  _calculate_enhanced_net_investment float_of_str net fs ty.
Proof.
  intros Hk.
  assert (forall k', k' ∈ keys_read -> (<[k := v]> fs) !! k' = fs !! k') as L.
  { intros k' Hk'. apply lookup_insert_ne. intros ->. contradiction. }
  unfold _calculate_enhanced_net_investment, _calculate_enhanced_gross_investment,
    vat_rate_of, float_item, rounded, dict_item.
  rewrite !L by (apply list_elem_of_In; cbn; tauto).
  reflexivity.
Qed.

Ltac lockstep H1 H2 :=
  repeat
    (let x := fresh "x" in let Hx := fresh "Hx" in
     apply bind_ok_inv in H1 as (x & Hx & H1);
     first [ rewrite Hx in H2; cbn [mbind result_bind] in H2
           | let y := fresh "y" in let Hy := fresh "Hy" in
             apply bind_ok_inv in H2 as (y & Hy & H2)
           | idtac ];
     try match type of H1 with
         | context [let '(_, _) := x in _] => destruct x; cbn beta iota in H1, H2
         end).

Lemma accrual_frame (g : F) (fs : gmap string (pyval F)) (ty : string) (v : pyval F)
    (d d' : calc_dict F) :
  _calculate_enhanced_gross_investment float_of_str g fs ty = Ok d ->
  _calculate_enhanced_gross_investment float_of_str g (<["amc_4_5_pct" := v]> fs) ty = Ok d' ->
  total_fees d' = total_fees d /\
  total_transfer d' = total_transfer d /\
  upfront_fee d' = upfront_fee d /\
  amc_1_3_fee d' = amc_1_3_fee d /\
  upfront_total (fee_breakdown (breakdown d')) = upfront_total (fee_breakdown (breakdown d)) /\
  amc_1_3_total (fee_breakdown (breakdown d')) = amc_1_3_total (fee_breakdown (breakdown d)).
Proof.
  intros Hd Hd'.
  unfold _calculate_enhanced_gross_investment, vat_rate_of, float_item, rounded, dict_item
    in Hd, Hd'.
  assert (forall k', "amc_4_5_pct" <> k' -> (<["amc_4_5_pct" := v]> fs) !! k' = fs !! k') as L
    by (intros; apply lookup_insert_ne; assumption).
  rewrite ?(L "vat_rate"), ?(L "upfront_fee_pct"), ?(L "amc_1_3_pct"), ?(L "rounding_rule")
    in Hd' by discriminate.
  clear L.
  lockstep Hd Hd'.
  injection Hd as <-. injection Hd' as <-. cbn. repeat split; reflexivity.
Qed.

(** X3.  For any float arithmetic, the two calculation routines read five keys
    of the fee structure: whatever another key holds (performance_fee_pct,
    minimum_investment, maximum_investment, fee_cap, fee_floor and currency
    among them), both return the same, errors included; so no minimum,
    maximum, cap or floor is enforced.  The AMC of years 4-5 changes
    neither the fees charged now nor the transfer: with another value of
    amc_4_5_pct, total_fees, total_transfer and the upfront and AMC 1-3
    figures are the same. *)
Theorem limits_and_accruals_never_enter_the_transfer :
  (forall (amount : F) (fs : gmap string (pyval F)) (ty k : string) (v : pyval F),
     k ∉ keys_read ->
     _calculate_enhanced_gross_investment float_of_str amount (<[k := v]> fs) ty =
     _calculate_enhanced_gross_investment float_of_str amount fs ty /\
     _calculate_enhanced_net_investment float_of_str amount (<[k := v]> fs) ty =
     _calculate_enhanced_net_investment float_of_str amount fs ty) /\
  Forall (fun k => k ∉ keys_read)
         ["performance_fee_pct"; "minimum_investment"; "maximum_investment";
          "fee_cap"; "fee_floor"; "currency"] /\
  (forall (amount : F) (fs : gmap string (pyval F)) (ty : string) (v : pyval F)
          (d d' : calc_dict F),
     _calculate_enhanced_gross_investment float_of_str amount fs ty = Ok d ->
     _calculate_enhanced_gross_investment float_of_str amount (<["amc_4_5_pct" := v]> fs) ty
       = Ok d' ->
     total_fees d' = total_fees d /\
     total_transfer d' = total_transfer d /\
     upfront_fee d' = upfront_fee d /\
     amc_1_3_fee d' = amc_1_3_fee d /\
     upfront_total (fee_breakdown (breakdown d')) = upfront_total (fee_breakdown (breakdown d)) /\
     amc_1_3_total (fee_breakdown (breakdown d')) = amc_1_3_total (fee_breakdown (breakdown d))).
Proof.
  split; [|split].
  - intros amount fs ty k v Hk. split; [apply gross_frame|apply net_frame]; exact Hk.
  - unfold keys_read.
    repeat (constructor;
            [intros Hin; apply list_elem_of_In in Hin; cbn in Hin; intuition discriminate|]).
    constructor.
  - apply accrual_frame.
Qed.

End Frame.

(** * Investor tiers *)

Section Tiers.
Local Open Scope Q_scope.
Variable float_of_str : string -> option Q.
Variable float_repr : Q -> string.

Lemma round2_mul_mono (g r r' : Q) :
  0 <= g -> r' <= r -> Exact.round2 (g * r') <= Exact.round2 (g * r).
Proof. intros Hg Hr. apply round2_mono. nra. Qed.

(** For a professional investor, lower rates give lower fees. *)
Lemma professional_monotone (fs fs' : gmap string (pyval Q))
    (up up' a13 a13' a45 a45' vat g : Q) (ty : string) :
  has_rates fs up a13 a45 vat ->
  has_rates fs' up' a13' a45' vat ->
  str_eqb ty "retail" = false ->
  0 <= g -> 0 <= vat -> up' <= up -> a13' <= a13 ->
  exists d d',
    _calculate_enhanced_gross_investment float_of_str g fs ty = Ok d /\
    _calculate_enhanced_gross_investment float_of_str g fs' ty = Ok d' /\
    upfront_fee d' <= upfront_fee d /\
    amc_1_3_fee d' <= amc_1_3_fee d /\
    total_fees d' <= total_fees d /\
    total_transfer d' <= total_transfer d.
Proof.
  intros Hr Hr' Hty Hg Hvat Hup Ha.
  destruct (gross_banker float_of_str fs up a13 a45 vat g ty Hr)
    as (d & Hd & _ & Hue & Huv & Hut & Hbase & Hae & Hav & Hat & _ & _ & _ & Hu & Ha13 & _ & Hf & Ht).
  destruct (gross_banker float_of_str fs' up' a13' a45' vat g ty Hr')
    as (d' & Hd' & _ & Hue' & Huv' & Hut' & Hbase' & Hae' & Hav' & Hat' & _ & _ & _ & Hu' & Ha13'
        & _ & Hf' & Ht').
  exists d, d'. split; [exact Hd|]. split; [exact Hd'|].
  cbn zeta in *. exact_ops. rewrite Hty in Hbase, Hbase'.
  rewrite Hbase in Hae. rewrite Hbase' in Hae'. clear Hbase Hbase'.
  set (fb := fee_breakdown (breakdown d)) in *.
  set (fb' := fee_breakdown (breakdown d')) in *.
  assert (Hv : 0 <= vat / (100 # 1)) by (apply Qle_shift_div_l; lra).
  assert (L1 : upfront_ex_vat fb' <= upfront_ex_vat fb).
  { rewrite Hue, Hue'. apply round2_mul_mono; [exact Hg|].
    apply Qmult_le_compat_r; [exact Hup|]. apply Qlt_le_weak. reflexivity. }
  assert (L2 : upfront_vat fb' <= upfront_vat fb).
  { rewrite Huv, Huv'. apply round2_mono. apply Qmult_le_compat_r; assumption. }
  assert (L3 : upfront_total fb' <= upfront_total fb).
  { rewrite Hut, Hut'. apply round2_mono. lra. }
  assert (L4 : amc_1_3_ex_vat fb' <= amc_1_3_ex_vat fb).
  { rewrite Hae, Hae'. apply round2_mul_mono; [exact Hg|].
    apply Qmult_le_compat_r; [|discriminate].
    apply Qmult_le_compat_r; [exact Ha|]. apply Qlt_le_weak. reflexivity. }
  assert (L5 : amc_1_3_vat fb' <= amc_1_3_vat fb).
  { rewrite Hav, Hav'. apply round2_mono. apply Qmult_le_compat_r; assumption. }
  assert (L6 : amc_1_3_total fb' <= amc_1_3_total fb).
  { rewrite Hat, Hat'. apply round2_mono. lra. }
  assert (L7 : total_fees d' <= total_fees d).
  { rewrite Hf, Hf'. apply round2_mono. lra. }
  split; [rewrite Hu, Hu'; exact L1|].
  split; [rewrite Ha13, Ha13'; exact L4|].
  split; [exact L7|].
  rewrite Ht, Ht'. apply round2_mono. lra.
Qed.

Lemma scale_item_float (fs : gmap string (pyval Q)) (k : string) (x c : Q) :
  fs !! k = Some (PFloat x) ->
  scale_item fs k c = Ok (<[k := PFloat (x * c)]> fs).
Proof. intros E. unfold scale_item, dict_item. rewrite E. reflexivity. Qed.

Lemma tier_adjustment (fs : gmap string (pyval Q)) (up a13 a45 vat : Q)
    (investor_data : gmap string (pyval Q)) (t : pyval Q) :
  has_rates fs up a13 a45 vat ->
  investor_data !! "tier" = Some t ->
  let tier := upper (py_str float_repr t) in
  let cu := if str_eqb tier "PREMIUM" then 8 # 10 else if str_eqb tier "VIP" then 5 # 10 else 1 in
  let ca := if str_eqb tier "PREMIUM" then 9 # 10 else if str_eqb tier "VIP" then 8 # 10 else 1 in
  exists fs',
    _apply_enhanced_investor_adjustments float_repr fs (Some investor_data) = Ok fs' /\
    has_rates fs' (up * cu) (a13 * ca) a45 vat /\
    (str_eqb tier "PREMIUM" = false -> str_eqb tier "VIP" = false -> fs' = fs).
Proof.
  intros (Hup & H13 & H45 & Hvat & Hrule) Ht. cbn zeta.
  unfold _apply_enhanced_investor_adjustments.
  assert (Hne : dict_falsy (Some investor_data) = false).
  { cbn. apply bool_decide_eq_false. intros ->. rewrite lookup_empty in Ht. discriminate. }
  rewrite Hne. cbn [default from_option id]. rewrite Ht.
  assert (S2 : forall c c',
    (adjusted ← scale_item fs "upfront_fee_pct" c; scale_item adjusted "amc_1_3_pct" c') =
    Ok (<["amc_1_3_pct" := PFloat (a13 * c')]> (<["upfront_fee_pct" := PFloat (up * c)]> fs))).
  { intros c c'. rewrite (scale_item_float fs _ up c Hup). cbn [mbind result_bind].
    apply scale_item_float. rewrite lookup_insert_ne by discriminate. exact H13. }
  assert (R2 : forall c c',
    has_rates (<["amc_1_3_pct" := PFloat (a13 * c')]> (<["upfront_fee_pct" := PFloat (up * c)]> fs))
              (up * c) (a13 * c') a45 vat).
  { intros c c'. unfold has_rates.
    rewrite lookup_insert_ne by discriminate. rewrite lookup_insert.
    rewrite lookup_insert.
    rewrite !lookup_insert_ne by discriminate.
    repeat split; try assumption; try reflexivity. }
  destruct (str_eqb (upper (py_str float_repr t)) "PREMIUM").
  - exact_ops. eexists. split; [apply S2|]. split; [apply R2|]. discriminate.
  - destruct (str_eqb (upper (py_str float_repr t)) "VIP").
    + exact_ops. eexists. split; [apply S2|]. split; [apply R2|]. discriminate.
    + exists fs. split; [reflexivity|]. split; [|reflexivity].
      repeat split; try assumption.
      * rewrite Hup. do 2 f_equal. unfold Qmult. destruct up; simpl. f_equal; lia.
      * rewrite H13.  do 2 f_equal. unfold Qmult. destruct a13; simpl. f_equal; lia.
Qed.


End Tiers.

(** * The legacy calculator *)

Lemma bind_returned_inv {A B} (m : outcome A) (f : A -> outcome B) (b : B) :
  m ≫= f = Returned b -> exists a, m = Returned a /\ f a = Returned b.
Proof. destruct m as [a|e]; [|discriminate]. intros E. exists a. split; [reflexivity|exact E]. Qed.

Section Legacy.
Context {F : Type} `{PyFloat F} `{PyFloatOrder F}.
Variable float_of_str : string -> option F.

Lemma override_fields_frame (company_data : gmap string (pyval F)) (k : string)
    (entries : list (string * string)) :
  Forall (fun entry => entry.2 <> k) entries ->
  forall structure structure',
    override_fields float_of_str company_data structure entries = Ok structure' ->
    structure' !! k = structure !! k.
Proof.
  induction 1 as [|entry rest Hk _ IH]; intros structure structure' E.
  - injection E as <-. reflexivity.
  - cbn [override_fields] in E. apply bind_ok_inv in E as (s1 & H1 & E).
    rewrite (IH _ _ E). unfold override_field in H1.
    destruct (company_data !! entry.1) as [v|].
    + apply bind_ok_inv in H1 as (x & _ & H1). injection H1 as <-.
      apply lookup_insert_ne. exact Hk.
    + injection H1 as <-. reflexivity.
Qed.

(** The legacy structure has none of the keys that the legacy adjustments
    scale. *)
Lemma legacy_structure_keys (company_data : option (gmap string (pyval F)))
    (fs : gmap string (pyval F)) :
  _get_fee_structure float_of_str company_data = Ok fs ->
  fs !! "management_fee_rate" = None /\ fs !! "admin_fee_flat" = None.
Proof.
  unfold _get_fee_structure. destruct (dict_falsy company_data).
  - intros E. injection E as <-. split; vm_compute; reflexivity.
  - intros E.
    assert (Hf : forall k, k = "management_fee_rate" \/ k = "admin_fee_flat" ->
                 Forall (fun entry : string * string => entry.2 <> k) legacy_field_mapping).
    { intros k Hk. unfold legacy_field_mapping.
      repeat (constructor; [cbn [snd]; destruct Hk as [->| ->]; discriminate|]). constructor. }
    split.
    + rewrite (override_fields_frame _ _ _ (Hf _ (or_introl eq_refl)) _ _ E).
      vm_compute. reflexivity.
    + rewrite (override_fields_frame _ _ _ (Hf _ (or_intror eq_refl)) _ _ E).
      vm_compute. reflexivity.
Qed.

(** X5.  The legacy [calculate_fees] cannot apply a discount: whenever the
    fee structure is built, it raises KeyError 'management_fee_rate' for
    an investor whose tier is the string PREMIUM or VIP in any case, and
    for an investor without tier whose management_fee_discount converts
    to a float; it raises AttributeError for a tier that is no string.
    The structure of [_get_fee_structure] never has the key that the
    adjustments scale. *)
Theorem legacy_discounts_raise (amount : F) (is_net : bool)
    (company_data : option (gmap string (pyval F)))
    (investor_data fs : gmap string (pyval F)) :
  _get_fee_structure float_of_str company_data = Ok fs ->
  (forall v, investor_data !! "tier" = Some v ->
     match v with
     | PStr s => str_eqb (upper s) "PREMIUM" || str_eqb (upper s) "VIP" = true
     | _ => True
     end) ->
  (investor_data !! "tier" = None ->
   exists v x, investor_data !! "management_fee_discount" = Some v /\
               py_float float_of_str v = Ok x) ->
  calculate_fees float_of_str amount is_net company_data (Some investor_data) =
  Raised (match investor_data !! "tier" with
          | Some (PStr _) => Builtin (KeyError "management_fee_rate")
          | Some _ => AttributeError "upper"
          | None => Builtin (KeyError "management_fee_rate")
          end).
Proof.
  intros Hfs Htier Hdisc.
  destruct (legacy_structure_keys _ _ Hfs) as [Hm _].
  unfold calculate_fees. rewrite Hfs. cbn [lift mbind outcome_bind].
  assert (Hne : dict_falsy (Some investor_data) = false).
  { cbn. apply bool_decide_eq_false. intros ->.
    destruct (Hdisc (lookup_empty _)) as (v & x & Hv & _).
    rewrite lookup_empty in Hv. discriminate. }
  unfold _apply_investor_adjustments. rewrite Hne. cbn [default from_option id].
  destruct (investor_data !! "tier") as [v|] eqn:Et.
  - specialize (Htier v eq_refl).
    destruct v; try reflexivity.
    cbn [py_upper mbind outcome_bind].
    unfold scale_item, dict_item. rewrite Hm.
    destruct (str_eqb (upper s) "PREMIUM"); [reflexivity|].
    destruct (str_eqb (upper s) "VIP"); [reflexivity|discriminate].
  - destruct (Hdisc eq_refl) as (v & x & Hv & Hx).
    cbn [mbind outcome_bind]. rewrite Hv, Hx. cbn [lift mbind outcome_bind].
    unfold scale_item, dict_item. rewrite Hm. reflexivity.
Qed.

End Legacy.

Section LegacyExact.
Local Open Scope Q_scope.
Variable float_of_str : string -> option Q.


End LegacyExact.

(** * The policy gate *)

Section Gate.
Context {F : Type} `{PyFloat F} `{PyFloatOrder F}.
Variable float_of_str : string -> option F.
Variable float_repr : F -> string.
Variable format_2f : F -> string.

Abbreviation dict := (gmap string (pyval F)).
Abbreviation validate :=
  (validate_fee_letter_request float_of_str float_repr format_2f).

Lemma check_fields_spec (data_source : dict) (entity : string) (fields : list string) :
  forall missing remedies,
    check_fields data_source entity fields missing remedies =
    (app missing (List.map (fun field => entity ++ "." ++ field)
                           (lacking data_source fields)),
     app remedies (List.map (fun field => "Please provide " ++ field ++ " for " ++ entity)
                            (lacking data_source fields))).
Proof.
  induction fields as [|field rest IH]; intros missing remedies; cbn [check_fields lacking List.filter].
  - cbn. rewrite !app_nil_r. reflexivity.
  - destruct (negb (py_truthy (dict_get data_source field))).
    + rewrite IH. unfold append. cbn [List.map]. rewrite <- !app_assoc. reflexivity.
    + apply IH.
Qed.

(** [l'] is [l] with [n] more entries. *)
Lemma grown_refl l : grown l l 0.
Proof. exists []. rewrite app_nil_r. split; reflexivity. Qed.

Lemma grown_append l x : grown l (append l x) 1.
Proof. exists [x]. split; reflexivity. Qed.

Lemma grown_trans l1 l2 l3 n m : grown l1 l2 n -> grown l2 l3 m -> grown l1 l3 (n + m).
Proof.
  intros (a & -> & <-) (b & -> & <-). exists (a ++ b)%list.
  rewrite app_assoc, length_app. split; reflexivity.
Qed.

Lemma grown_length l l' n : grown l l' n -> length l' = (length l + n)%nat.
Proof. intros (a & -> & <-). apply length_app. Qed.

Lemma eis_grows (amount : pyval F) (company_data : dict) (v r v' r' : list string) :
  _check_eis_compliance float_of_str format_2f amount company_data v r = Returned (v', r') ->
  exists n, grown v v' n /\ grown r r' n.
Proof.
  unfold _check_eis_compliance. intros E.
  apply bind_returned_inv in E as (over & _ & E).
  apply bind_returned_inv in E as ([v1 r1] & H1 & E).
  assert (G1 : exists n, grown v v1 n /\ grown r r1 n).
  { destruct over.
    - apply bind_returned_inv in H1 as (printed & _ & H1). injection H1 as <- <-.
      exists 1%nat. split; apply grown_append.
    - injection H1 as <- <-. exists 0%nat. split; apply grown_refl. }
  destruct G1 as (n & Gv & Gr).
  assert (G2 : exists m, grown v1 v' m /\ grown r1 r' m).
  { destruct (py_truthy _).
    - apply bind_returned_inv in E as (assets & _ & E).
      destruct (f_ltb _ assets).
      + apply bind_returned_inv in E as (printed & _ & E). injection E as <- <-.
        exists 1%nat. split; apply grown_append.
      + injection E as <- <-. exists 0%nat. split; apply grown_refl.
    - injection E as <- <-. exists 0%nat. split; apply grown_refl. }
  destruct G2 as (m & Gv' & Gr').
  exists (n + m)%nat. split; eapply grown_trans; eassumption.
Qed.

Lemma classification_grows (investor_data company_data : dict) (v r v' r' : list string) :
  _check_investor_classification investor_data company_data v r = Returned (v', r') ->
  v' = v /\ exists n, grown r r' n.
Proof.
  unfold _check_investor_classification. intros E.
  apply bind_returned_inv in E as (c & _ & E).
  destruct (str_eqb c ""); injection E as <- <-; (split; [reflexivity|]).
  - exists 1%nat. apply grown_append.
  - exists 0%nat. apply grown_refl.
Qed.

Lemma fee_limits_grow (amount : pyval F) (classification : string) (company_data : dict)
    (v r v' r' : list string) :
  _check_fee_limits float_of_str float_repr amount classification company_data v r
    = Returned (v', r') ->
  exists n, grown v v' n /\ grown r r' n.
Proof.
  unfold _check_fee_limits. intros E.
  destruct (str_eqb classification "retail").
  - apply bind_returned_inv in E as (up & _ & E).
    apply bind_returned_inv in E as (amc & _ & E).
    destruct (f_ltb _ up), (f_ltb _ amc); injection E as <- <-.
    + exists (1 + 1)%nat. split; eapply grown_trans; apply grown_append.
    + exists 1%nat. split; apply grown_append.
    + exists 1%nat. split; apply grown_append.
    + exists 0%nat. split; apply grown_refl.
  - injection E as <- <-. exists 0%nat. split; apply grown_refl.
Qed.

(** The status that the key [k] of [investor_data] holds is the string [s],
    up to case. *)
Lemma status_lower (investor_data : dict) (k s status : string) :
  py_lower (dict_get_default investor_data k (PStr "")) = Returned status ->
  str_eqb status s = true -> s <> "" -> has_status investor_data k s.
Proof.
  unfold dict_get_default. intros E Hs Hne.
  apply bool_decide_eq_true in Hs. subst s.
  destruct (investor_data !! k) as [v|] eqn:Ek; cbn [default from_option id] in E.
  - destruct v; try discriminate. injection E as <-. exists s. split; [exact Ek|reflexivity].
  - injection E as <-. contradiction Hne. reflexivity.
Qed.

Lemma kyc_aml_grows (investor_data : dict) (w r w' r' : list string) :
  _check_kyc_aml investor_data w r = Returned (w', r') ->
  exists n, grown w w' n /\ grown r r' n /\
    (n = 0%nat -> has_status investor_data "KYC_Status" "complete" /\
                  has_status investor_data "AML_Status" "clear").
Proof.
  unfold _check_kyc_aml. intros E.
  apply bind_returned_inv in E as (kyc & Hk & E).
  destruct (str_eqb kyc "complete") eqn:Ek; cbn [negb] in E;
    apply bind_returned_inv in E as (aml & Ha & E);
    destruct (str_eqb aml "clear") eqn:Ea; cbn [negb] in E; injection E as <- <-.
  - exists 0%nat. split; [apply grown_refl|]. split; [apply grown_refl|].
    intros _. split; eapply status_lower; try eassumption; discriminate.
  - exists 1%nat. split; [apply grown_append|]. split; [apply grown_append|]. discriminate.
  - exists 1%nat. split; [apply grown_append|]. split; [apply grown_append|]. discriminate.
  - exists (1 + 1)%nat. split; [eapply grown_trans; apply grown_append|].
    split; [eapply grown_trans; apply grown_append|]. discriminate.
Qed.

Lemma risk_levels (amount : pyval F) (investor_data : dict) (level : string)
    (risk_warnings : list string) :
  _assess_risk_level amount investor_data = Ok (level, risk_warnings) ->
  (level = "LOW" /\ risk_warnings = [] /\ py_ge_int amount 100000 = Ok false) \/
  (level = "MEDIUM" /\ length risk_warnings = 1%nat) \/
  (level = "HIGH" /\ length risk_warnings = 1%nat).
Proof.
  unfold _assess_risk_level. intros E.
  apply bind_ok_inv in E as (high & Hh & E). destruct high.
  - injection E as <- <-. right. right. split; reflexivity.
  - apply bind_ok_inv in E as (medium & Hm & E). destruct medium.
    + injection E as <- <-. right. left. split; reflexivity.
    + injection E as <- <-. left. split; [reflexivity|]. split; [reflexivity|exact Hm].
Qed.

(** The fields that a request lacks, as [missing_fields] names them. *)
Lemma validate_inv (investor_data company_data investment_data : dict)
    (r : ValidationResult) :
  validate investor_data company_data investment_data = Returned r ->
  let amount := dict_get_default investment_data "amount" (PInt 0) in
  missing_fields r = missing_of investor_data company_data investment_data /\
  (exists nc nk kyc_warnings risk_warnings,
     length (remediation_suggestions r) =
       (length (missing_fields r) + length (compliance_violations r) + nc + nk)%nat /\
     warnings r = (kyc_warnings ++ risk_warnings)%list /\
     length kyc_warnings = nk /\
     (nk = 0%nat -> has_status investor_data "KYC_Status" "complete" /\
                    has_status investor_data "AML_Status" "clear") /\
     _assess_risk_level amount investor_data = Ok (risk_level r, risk_warnings)) /\
  is_valid r = (length (missing_fields r) =? 0)%nat
               && (length (compliance_violations r) =? 0)%nat /\
  auto_approve r = is_valid r && str_eqb (risk_level r) "LOW"
                   && (length (warnings r) =? 0)%nat /\
  message r =
    (if is_valid r then
       "✅ All policy validations passed"
       ++ (if negb (length (warnings r) =? 0)%nat
           then " (with " ++ len_str (warnings r) ++ " warnings)" else "")
     else
       "❌ Validation failed: " ++ len_str (missing_fields r) ++ " missing fields, "
       ++ len_str (compliance_violations r) ++ " violations").
Proof.
  unfold validate_fee_letter_request. cbn [check_required REQUIRED_FIELDS].
  change (str_eqb "investor" "investor") with true.
  change (str_eqb "company" "investor") with false.
  change (str_eqb "company" "company") with true.
  change (str_eqb "investment" "investor") with false.
  change (str_eqb "investment" "company") with false.
  cbn iota. rewrite !check_fields_spec. cbn [app]. unfold missing_of.
  set (Li := lacking investor_data _). set (Lc := lacking company_data _).
  set (Lm := lacking investment_data _). clearbody Li Lc Lm.
  intros E.
  apply bind_returned_inv in E as (cls & _ & E).
  apply bind_returned_inv in E as ([v1 r1] & H1 & E).
  apply bind_returned_inv in E as ([v2 r2] & H2 & E).
  apply bind_returned_inv in E as ([v3 r3] & H3 & E).
  apply bind_returned_inv in E as ([w4 r4] & H4 & E).
  apply bind_returned_inv in E as ([level rw] & H5 & E).
  injection E as <-. cbn [missing_fields compliance_violations remediation_suggestions warnings
                          is_valid auto_approve message risk_level].
  destruct (eis_grows _ _ _ _ _ _ H1) as (n1 & Gv1 & Gr1).
  destruct (classification_grows _ _ _ _ _ _ H2) as (-> & nc & Gr2).
  destruct (fee_limits_grow _ _ _ _ _ _ _ H3) as (n3 & Gv3 & Gr3).
  destruct (kyc_aml_grows _ _ _ _ _ H4) as (nk & Gw4 & Gr4 & Hst).
  destruct (_assess_risk_level _ investor_data) as [[level' rw']|e] eqn:Er; [|discriminate].
  injection H5 as -> ->.
  split; [rewrite app_assoc; reflexivity|]. split.
  - destruct Gw4 as (kw & -> & Hkw). exists nc, nk, kw, rw.
    rewrite (grown_length _ _ _ Gr4), (grown_length _ _ _ Gr3), (grown_length _ _ _ Gr2),
      (grown_length _ _ _ Gr1), (grown_length _ _ _ Gv3), (grown_length _ _ _ Gv1).
    rewrite !length_app, !length_map. cbn [length app].
    split; [lia|]. split; [reflexivity|]. split; [exact Hkw|]. split; [exact Hst|reflexivity].
  - split; [reflexivity|]. split; [reflexivity|].
    destruct (length _ =? 0)%nat; [|reflexivity]. cbn [andb].
    destruct (length v3 =? 0)%nat; reflexivity.
Qed.

End Gate.

Section GateTheorems.
Context {F : Type} `{PyFloat F} `{PyFloatOrder F}.
Variable float_of_str : string -> option F.
Variable float_repr : F -> string.
Variable format_2f : F -> string.

Abbreviation dict := (gmap string (pyval F)).
Abbreviation validate :=
  (validate_fee_letter_request float_of_str float_repr format_2f).

Lemma length_eqb_nil {A} (l : list A) : (length l =? 0)%nat = true -> l = [].
Proof. destruct l; [reflexivity|discriminate]. Qed.

(** X7.  A request that [validate_fee_letter_request] approves automatically
    lacks no required field, has no compliance violation and no warning,
    has the risk level LOW with an amount that is not at least 100000, and
    an investor whose KYC_Status is 'complete' and whose AML_Status is
    'clear', case apart. *)
Theorem auto_approve_requirements (investor_data company_data investment_data : dict)
    (r : ValidationResult) :
  validate investor_data company_data investment_data = Returned r ->
  auto_approve r = true ->
  missing_of investor_data company_data investment_data = [] /\
  compliance_violations r = [] /\
  warnings r = [] /\
  risk_level r = "LOW" /\
  py_ge_int (dict_get_default investment_data "amount" (PInt 0)) 100000 = Ok false /\
  has_status investor_data "KYC_Status" "complete" /\
  has_status investor_data "AML_Status" "clear".
Proof.
  intros E Ha.
  destruct (validate_inv _ _ _ _ _ _ _ E)
    as (Hm & (nc & nk & kw & rw & _ & Hw & Hk & Hst & Hrisk) & Hv & Hauto & _).
  rewrite Hauto, Hv in Ha.
  apply andb_prop in Ha as [Ha Hw0]. apply andb_prop in Ha as [Ha Hlow].
  apply andb_prop in Ha as [Hm0 Hv0].
  apply length_eqb_nil in Hm0, Hv0, Hw0.
  rewrite Hm0 in Hm. rewrite Hw in Hw0. apply app_eq_nil in Hw0 as [-> ->].
  apply bool_decide_eq_true in Hlow.
  split; [symmetry; exact Hm|]. split; [exact Hv0|]. split; [exact Hw|].
  split; [exact Hlow|].
  cbn zeta in Hrisk. cbn [length] in Hk. subst nk. destruct (Hst eq_refl) as [Hkyc Haml].
  split; [|split; assumption].
  destruct (risk_levels _ _ _ _ Hrisk) as [(_ & _ & Hge)|[(_ & Hl)|(_ & Hl)]];
    [exact Hge|discriminate Hl|discriminate Hl].
Qed.

(** X8.  What [validate_fee_letter_request] returns: missing_fields names, in
    the order investor, company, investment, the required fields that are
    absent or hold a false value; the request is valid exactly when
    nothing is missing and nothing is violated; there is a remediation
    suggestion for each missing field and each violation at least; and
    the message is one of two, never the one on compliance violations
    that the code holds for a valid request. *)
Theorem validation_verdict (investor_data company_data investment_data : dict)
    (r : ValidationResult) :
  validate investor_data company_data investment_data = Returned r ->
  missing_fields r = missing_of investor_data company_data investment_data /\
  (is_valid r = true <-> missing_fields r = [] /\ compliance_violations r = []) /\
  (length (missing_fields r) + length (compliance_violations r)
   <= length (remediation_suggestions r))%nat /\
  message r =
    (if is_valid r then
       "✅ All policy validations passed"
       ++ (if negb (length (warnings r) =? 0)%nat
           then " (with " ++ len_str (warnings r) ++ " warnings)" else "")
     else
       "❌ Validation failed: " ++ len_str (missing_fields r) ++ " missing fields, "
       ++ len_str (compliance_violations r) ++ " violations").
Proof.
  intros E.
  destruct (validate_inv _ _ _ _ _ _ _ E)
    as (Hm & (nc & nk & kw & rw & Hlen & _) & Hv & _ & Hmsg).
  split; [exact Hm|]. split; [|split; [lia|exact Hmsg]].
  rewrite Hv. split.
  - intros Hb. apply andb_prop in Hb as [H1 H2]. split; apply length_eqb_nil; assumption.
  - intros [-> ->]. reflexivity.
Qed.

(** X9.  [validate_fee_letter_request] raises instead of reporting when the
    data has the wrong type: AttributeError when the classification of the
    investor is present and no string; TypeError when the amount is a
    string; ValueError when the company's 'Gross Assets' is a string that
    reads as a number above 15000000 (the message formats it as a
    number). *)
Theorem validation_raises_on_ill_typed_data :
  (forall (investor_data company_data investment_data : dict) (v : pyval F),
     investor_data !! "classification" = Some v ->
     (forall s, v <> PStr s) ->
     validate investor_data company_data investment_data = Raised (AttributeError "lower")) /\
  (forall (investor_data company_data investment_data : dict) (c s : string),
     dict_get_default investor_data "classification" (PStr "") = PStr c ->
     investment_data !! "amount" = Some (PStr s) ->
     validate investor_data company_data investment_data = Raised (Builtin TypeError)) /\
  (forall (investor_data company_data investment_data : dict) (c s : string) (assets : F),
     dict_get_default investor_data "classification" (PStr "") = PStr c ->
     py_gt_int (dict_get_default investment_data "amount" (PInt 0)) 1000000 = Ok false ->
     company_data !! "Gross Assets" = Some (PStr s) ->
     s <> "" ->
     float_of_str s = Some assets ->
     f_ltb (f_of_ratio 15000000 1) assets = true ->
     exists msg,
       validate investor_data company_data investment_data = Raised (Builtin (ValueError msg))).
Proof.
  split; [|split].
  - intros investor_data company_data investment_data v Hv Hs.
    unfold validate_fee_letter_request.
    destruct (check_required _ _ _ _ _ _) as [m0 r0].
    unfold dict_get_default. rewrite Hv. cbn [default from_option id].
    destruct v; try reflexivity. contradiction (Hs s). reflexivity.
  - intros investor_data company_data investment_data c s Hc Ha.
    unfold validate_fee_letter_request.
    destruct (check_required _ _ _ _ _ _) as [m0 r0].
    rewrite Hc. cbn [py_lower mbind outcome_bind].
    unfold _check_eis_compliance, dict_get_default. rewrite Ha. reflexivity.
  - intros investor_data company_data investment_data c s assets Hc Ha Hg Hs Hf Hlt.
    unfold validate_fee_letter_request.
    destruct (check_required _ _ _ _ _ _) as [m0 r0].
    rewrite Hc. cbn [py_lower mbind outcome_bind].
    unfold _check_eis_compliance. rewrite Ha. cbn [lift mbind outcome_bind].
    unfold dict_get_default. rewrite Hg. cbn [default from_option id py_truthy].
    assert (Es : str_eqb s "" = false) by (apply bool_decide_eq_false; exact Hs).
    rewrite Es. cbn [negb py_float]. rewrite Hf. cbn [lift mbind outcome_bind].
    rewrite Hlt. cbn [py_format_2f lift mbind outcome_bind]. eexists. reflexivity.
Qed.

Lemma lacking_insert_ne (d : dict) (k : string) (v : pyval F) (fields : list string) :
  k ∉ fields -> lacking (<[k := v]> d) fields = lacking d fields.
Proof.
  intros Hk. unfold lacking. apply List.filter_ext_in. intros f Hf.
  unfold dict_get. rewrite lookup_insert_ne; [reflexivity|].
  intros ->. apply Hk. apply list_elem_of_In. exact Hf.
Qed.

(** X10.  The retail fee limits bind only an investor classified 'retail':
    when the classification does not lower-case to 'retail' (the key
    missing included), [validate_fee_letter_request] returns the same,
    errors included, whatever the company's 'Upfront Fee %' or 'AMC 1–3 %'
    holds. *)
Theorem fee_limits_need_retail_classification
    (investor_data company_data investment_data : dict) (k : string) (v : pyval F) :
  k = "Upfront Fee %" \/ k = "AMC 1–3 %" ->
  py_lower (dict_get_default investor_data "classification" (PStr "")) <> Returned "retail" ->
  validate investor_data (<[k := v]> company_data) investment_data =
  validate investor_data company_data investment_data.
Proof.
  intros Hk Hc.
  unfold validate_fee_letter_request. cbn [check_required REQUIRED_FIELDS].
  change (str_eqb "investor" "investor") with true.
  change (str_eqb "company" "investor") with false.
  change (str_eqb "company" "company") with true.
  change (str_eqb "investment" "investor") with false.
  change (str_eqb "investment" "company") with false.
  cbn iota. rewrite !check_fields_spec.
  rewrite lacking_insert_ne
    by (destruct Hk as [->| ->]; intros Hin; apply list_elem_of_In in Hin;
        cbn in Hin; intuition discriminate).
  destruct (py_lower _) as [cls|e] eqn:Ec; [|reflexivity].
  cbn [mbind outcome_bind].
  assert (Er : str_eqb cls "retail" = false).
  { apply bool_decide_eq_false. intros ->. apply Hc. reflexivity. }
  unfold _check_eis_compliance, _check_fee_limits, dict_get_default.
  rewrite (lookup_insert_ne company_data k "Gross Assets")
    by (destruct Hk as [->| ->]; discriminate).
  rewrite Er. reflexivity.
Qed.

End GateTheorems.

(** * The fuzzy matcher *)

Section Matcher.
Context {F : Type} `{PyFloat F} `{PyFloatOrder F}.
Variable float_repr : F -> string.
Variable ratio : string -> string -> F.

Abbreviation dict := (gmap string (pyval F)).
Abbreviation score_of_name target v :=
  (similarity_score ratio target (py_str float_repr v)).

Ltac loop_result E Er rest' found' :=
  match type of E with
  | (let '(_, _) := ?p in _) = _ =>
      let q := fresh "q" in
      remember p as q eqn:Er in E; destruct q as [rest' found'];
      symmetry in Er; injection E as <- <-
  end.

Lemma best_match_loop_spec (target_name name_field : string) (threshold : F)
    (candidates : list dict) :
  forall (best : option dict) (best_score : F) candidates' found,
    best_match_loop float_repr ratio target_name name_field threshold
      candidates best best_score = (candidates', found) ->
    Forall2 scored candidates candidates' /\
    (forall m, best = Some m -> found <> None) /\
    (found = best \/
     exists m, found = Some m /\ m ∈ candidates' /\
               marked float_repr ratio target_name name_field threshold candidates m).
Proof.
  induction candidates as [|c rest IH]; intros best best_score candidates' found E.
  - injection E as <- <-. split; [constructor|]. split; [intros m ->; discriminate|].
    left. reflexivity.
  - cbn [best_match_loop] in E.
    destruct (c !! name_field) as [v|] eqn:Ev.
    + destruct (f_ltb best_score _ && f_leb threshold _) eqn:Eq.
      * loop_result E Er rest' found'.
        destruct (IH _ _ _ _ Er) as (Hf & Hs & Hr).
        split; [constructor; [right; eexists; reflexivity|exact Hf]|].
        split; [intros m _; eapply Hs; reflexivity|].
        right. destruct Hr as [->|(m & -> & Hin & c0 & v0 & Hc0 & Hv0 & Hm & Ht)].
        -- eexists. split; [reflexivity|]. split; [left|].
           exists c, v. split; [left|]. split; [exact Ev|]. split; [reflexivity|].
           apply andb_prop in Eq as [_ Ht]. exact Ht.
        -- exists m. split; [reflexivity|]. split; [right; exact Hin|].
           exists c0, v0. split; [right; exact Hc0|]. repeat split; assumption.
      * loop_result E Er rest' found'.
        destruct (IH _ _ _ _ Er) as (Hf & Hs & Hr).
        split; [constructor; [left; reflexivity|exact Hf]|].
        split; [exact Hs|].
        destruct Hr as [->|(m & -> & Hin & c0 & v0 & Hc0 & Hv0 & Hm & Ht)]; [left; reflexivity|].
        right. exists m. split; [reflexivity|]. split; [right; exact Hin|].
        exists c0, v0. split; [right; exact Hc0|]. repeat split; assumption.
    + loop_result E Er rest' found'.
      destruct (IH _ _ _ _ Er) as (Hf & Hs & Hr).
      split; [constructor; [left; reflexivity|exact Hf]|].
      split; [exact Hs|].
      destruct Hr as [->|(m & -> & Hin & c0 & v0 & Hc0 & Hv0 & Hm & Ht)]; [left; reflexivity|].
      right. exists m. split; [reflexivity|]. split; [right; exact Hin|].
      exists c0, v0. split; [right; exact Hc0|]. repeat split; assumption.
Qed.

(** With no best match yet, a match is found exactly when a candidate
    qualifies against the score [least] the loop starts from. *)
Lemma best_match_loop_found (target_name name_field : string) (threshold least : F)
    (candidates : list dict) :
  forall candidates' found,
    best_match_loop float_repr ratio target_name name_field threshold
      candidates None least = (candidates', found) ->
    (found <> None <->
     Exists (fun c => qualifies float_repr ratio target_name name_field threshold least c = true) candidates).
Proof.
  induction candidates as [|c rest IH]; intros candidates' found E.
  - injection E as <- <-. split; [intros Hn; contradiction Hn; reflexivity|].
    intros Hex. inversion Hex.
  - cbn [best_match_loop] in E.
    destruct (c !! name_field) as [v|] eqn:Ev.
    + destruct (f_ltb least _ && f_leb threshold _) eqn:Eq.
      * loop_result E Er rest' found'.
        destruct (best_match_loop_spec _ _ _ _ _ _ _ _ Er) as (_ & Hs & _).
        split; [intros _|intros _; eapply Hs; reflexivity].
        left. unfold qualifies. rewrite Ev. exact Eq.
      * loop_result E Er rest' found'. rewrite (IH _ _ Er). split.
        -- intros Hex. right. exact Hex.
        -- intros Hex. inversion Hex as [? ? Hq|? ? Hq]; subst; [|exact Hq].
           unfold qualifies in Hq. rewrite Ev, Eq in Hq. discriminate.
    + loop_result E Er rest' found'. rewrite (IH _ _ Er). split.
      * intros Hex. right. exact Hex.
      * intros Hex. inversion Hex as [? ? Hq|? ? Hq]; subst; [|exact Hq].
        unfold qualifies in Hq. rewrite Ev in Hq. discriminate.
Qed.

(** X11.  [find_best_match] leaves the candidates in their order, each as it
    was or with a '_match_score' added; it finds a match exactly when the
    target name is not empty and some candidate has the name field with a
    score above 0 that reaches the threshold; and the match is one of the
    candidates as the search leaves them: a candidate with the name field,
    marked with its own score, which reaches the threshold. *)
Theorem find_best_match_result (target_name name_field : string) (threshold : F)
    (candidates candidates' : list dict) (found : option dict) :
  find_best_match float_repr ratio target_name candidates name_field threshold
    = (candidates', found) ->
  Forall2 scored candidates candidates' /\
  (found <> None <->
   target_name <> "" /\
   Exists (fun c => qualifies float_repr ratio target_name name_field threshold (f_of_ratio 0 1) c = true)
          candidates) /\
  (forall m, found = Some m ->
     m ∈ candidates' /\ marked float_repr ratio target_name name_field threshold candidates m).
Proof.
  unfold find_best_match. intros E.
  destruct (str_eqb target_name "") eqn:Et.
  - injection E as <- <-. apply bool_decide_eq_true in Et.
    split; [apply Forall2_same_length_lookup_2; [reflexivity|];
            intros i x y Hx Hy; rewrite Hx in Hy; injection Hy as <-; left; reflexivity|].
    split; [|discriminate].
    split; [intros Hn; contradiction Hn; reflexivity|]. intros [Hne _]. contradiction.
  - apply bool_decide_eq_false in Et. cbn [orb] in E.
    destruct (bool_decide (candidates = [])) eqn:Ec.
    + injection E as <- <-. apply bool_decide_eq_true in Ec. subst candidates.
      split; [constructor|]. split; [|discriminate].
      split; [intros Hn; contradiction Hn; reflexivity|]. intros [_ Hex]. inversion Hex.
    + destruct (best_match_loop_spec _ _ _ _ _ _ _ _ E) as (Hf & _ & Hr).
      split; [exact Hf|]. split.
      * rewrite (best_match_loop_found _ _ _ _ _ _ _ E). tauto.
      * intros m Hm. destruct Hr as [->|(m' & -> & Hin & Hmk)]; [discriminate|].
        injection Hm as <-. split; assumption.
Qed.

(** The searches of [find_best_match_split_name] return candidates. *)
Lemma single_name_loop_first (search_name : string) (threshold : F) (candidates : list dict)
    (c : dict) :
  single_name_loop float_repr ratio search_name threshold candidates = Some c ->
  exists before after,
    candidates = (before ++ c :: after)%list /\
    single_name_loop float_repr ratio search_name threshold before = None.
Proof.
  induction candidates as [|c0 rest IH]; [discriminate|].
  cbn [single_name_loop]. destruct (f_leb threshold _) eqn:Et.
  - intros E. injection E as <-. exists [], rest. split; reflexivity.
  - intros E. destruct (IH E) as (before & after & -> & Hb).
    exists (c0 :: before), after. split; [reflexivity|].
    cbn [single_name_loop]. rewrite Et. exact Hb.
Qed.

Lemma split_name_loop_in (search_first search_last : string) (threshold : F)
    (candidates : list dict) :
  forall best best_score c,
    split_name_loop float_repr ratio search_first search_last threshold
      candidates best best_score = Some c ->
    c ∈ candidates \/ best = Some c.
Proof.
  induction candidates as [|c0 rest IH]; intros best best_score c E.
  - right. exact E.
  - cbn [split_name_loop] in E. destruct (_ && _).
    + destruct (IH _ _ _ E) as [Hin|Hb]; [left; right; exact Hin|].
      injection Hb as <-. left. left.
    + destruct (IH _ _ _ E) as [Hin|Hb]; [left; right; exact Hin|right; exact Hb].
Qed.


End Matcher.

(** * The activity log *)

Section Logger.
Variable D : Type.

Lemma last_n_spec {A} (n : nat) (l : list A) (x : A) :
  (0 < n)%nat ->
  (length (last_n n (l ++ [x])) <= n)%nat /\
  last (last_n n (l ++ [x])) = Some x /\
  exists dropped, (l ++ [x] = dropped ++ last_n n (l ++ [x]))%list.
Proof.
  intros Hn. unfold last_n. split; [|split].
  - rewrite length_drop. lia.
  - rewrite length_app. cbn [length].
    destruct (decide (length l + 1 - n <= length l)%nat) as [Hle|Hgt]; [|lia].
    rewrite drop_app_le by exact Hle. apply last_snoc.
  - exists (take (length (l ++ [x]) - n) (l ++ [x])). symmetry. apply take_drop.
Qed.

(** X13.  [log_activity] returns the identifier type_stamp and leaves a log of
    at most 1000 records that ends with the new record and is the end of
    the old log followed by it; a log that was absent or unreadable holds
    the new record alone.  Reading the log back, the new record is the
    first of [get_recent_activities] for any positive limit, unfiltered or
    filtered by its type, and its timestamp is the recent_activity of
    [get_activity_stats]. *)
Theorem log_activity_recorded (file : log_file D) (stamp now activity_type : string)
    (details : D) :
  let logged := log_activity file stamp now activity_type details in
  let record := {| record_id := activity_type ++ "_" ++ stamp;
                   record_timestamp := now;
                   record_type := activity_type;
                   record_details := details |} in
  logged.2 = activity_type ++ "_" ++ stamp /\
  (exists records dropped,
     logged.1 = Activities records /\
     (length records <= 1000)%nat /\
     last records = Some record /\
     (default [] (load file) ++ [record] = dropped ++ records)%list) /\
  (load file = None -> logged.1 = Activities [record]) /\
  (forall limit type_filter,
     (1 <= limit)%Z ->
     type_filter = None \/ type_filter = Some "" \/ type_filter = Some activity_type ->
     head (get_recent_activities logged.1 limit type_filter) = Some record) /\
  recent_activity (get_activity_stats logged.1) = Some (Some now).
Proof.
  cbn zeta. unfold log_activity. cbn [fst snd].
  set (record := {| record_id := _ |}).
  set (old := default [] (load file)).
  destruct (last_n_spec 1000 old record ltac:(lia)) as (Hlen & Hlast & dropped & Hd).
  split; [reflexivity|]. split; [|split; [|split]].
  - exists (last_n 1000 (old ++ [record])), dropped. repeat split; assumption.
  - intros Hf. unfold old. rewrite Hf. reflexivity.
  - intros limit type_filter Hl Ht.
    unfold get_recent_activities. cbn [load].
    set (records := last_n 1000 (old ++ [record])) in *.
    assert (Hr : exists front, records = (front ++ [record])%list).
    { apply last_Some. exact Hlast. }
    destruct Hr as (front & Hr).
    assert (Hf : forall l, head (slice_to limit (record :: l)) = Some record).
    { intros l. unfold slice_to. destruct (0 <=? limit)%Z eqn:E0; [|lia].
      destruct (Z.to_nat limit) eqn:En; [lia|]. reflexivity. }
    destruct Ht as [->|[->| ->]].
    + rewrite Hr, rev_app_distr. apply Hf.
    + cbn [negb]. change (str_eqb "" "") with true. cbn [negb].
      rewrite Hr, rev_app_distr. apply Hf.
    + destruct (negb (str_eqb activity_type "")).
      * rewrite Hr, List.filter_app. cbn [List.filter record_type record].
        assert (Ee : str_eqb activity_type activity_type = true)
          by (apply bool_decide_eq_true; reflexivity).
        unfold record at 1. cbn [record_type]. rewrite Ee.
        rewrite rev_app_distr. apply Hf.
      * rewrite Hr, rev_app_distr. apply Hf.
  - unfold get_activity_stats. cbn [load recent_activity]. rewrite Hlast. reflexivity.
Qed.

(** The number of records of [records] with the type [t]. *)
Lemma count_types_spec (t : string) (records : list (activity D)) :
  forall counts : gmap string nat,
    default 0%nat (fold_left (count_type) records counts !! t) =
    (default 0%nat (counts !! t) + records_of_type t records)%nat.
Proof.
  induction records as [|a rest IH]; intros counts.
  - cbn. lia.
  - cbn [fold_left]. rewrite IH. unfold count_type, records_of_type. cbn [List.filter].
    unfold str_eqb at 2.
    destruct (bool_decide_reflect (record_type a = t)) as [->|Hne].
    + rewrite lookup_insert_eq. cbn [default from_option id length]. lia.
    + rewrite lookup_insert_ne by exact Hne. lia.
Qed.

Lemma count_types_present (records : list (activity D)) :
  forall (counts : gmap string nat) (t : string) (n : nat),
    (forall t' n', counts !! t' = Some n' -> (0 < n')%nat) ->
    fold_left (count_type) records counts !! t = Some n -> (0 < n)%nat.
Proof.
  induction records as [|a rest IH]; intros counts t n Hpos.
  - apply Hpos.
  - cbn [fold_left]. apply IH. intros t' n'. unfold count_type.
    destruct (decide (record_type a = t')) as [->|Hne].
    + rewrite lookup_insert_eq. intros E. injection E as <-. lia.
    + rewrite lookup_insert_ne by exact Hne. apply Hpos.
Qed.

(** X14.  [get_activity_stats] counts right: total_activities is the number of
    records of the log, activity_types holds for every type the number of
    records of that type and has no entry for a type without records; for
    a log that is absent or unreadable the statistics have no
    recent_activity key. *)
Theorem activity_stats_count (file : log_file D) :
  let stats := get_activity_stats file in
  let records := default [] (load file) in
  total_activities stats = length records /\
  (forall t, default 0%nat (activity_types stats !! t) = records_of_type t records) /\
  (forall t, activity_types stats !! t <> Some 0%nat) /\
  (load file = None -> recent_activity stats = None).
Proof.
  cbn zeta. unfold get_activity_stats.
  destruct (load file) as [records|]; cbn [default from_option id total_activities
                                            activity_types recent_activity].
  - split; [reflexivity|]. split; [|split; [|discriminate]].
    + intros t. rewrite count_types_spec. rewrite lookup_empty. reflexivity.
    + intros t E. apply count_types_present in E; [lia|].
      intros t' n'. rewrite lookup_empty. discriminate.
  - split; [reflexivity|]. split; [|split; [|reflexivity]].
    + intros t. rewrite lookup_empty. reflexivity.
    + intros t. rewrite lookup_empty. discriminate.
Qed.

Lemma slice_to_sublist {A} (limit : Z) (l : list A) :
  sublist (slice_to limit l) l /\ ((0 <= limit)%Z -> (length (slice_to limit l) <= Z.to_nat limit)%nat).
Proof.
  unfold slice_to. destruct (0 <=? limit)%Z eqn:E.
  - split; [apply sublist_take|]. intros _. rewrite length_take. lia.
  - split; [apply sublist_take|]. lia.
Qed.

(** X15.  [get_recent_activities] with a type returns records of the log only,
    all of that type unless the type is the empty string (which filters
    nothing); at most limit records for a limit that is not negative; and
    none for a log that is absent or unreadable. *)
Theorem recent_activities_are_filtered (file : log_file D) (limit : Z) (t : string) :
  let recent := get_recent_activities file limit (Some t) in
  (forall a, a ∈ recent ->
     a ∈ default [] (load file) /\ (t <> "" -> record_type a = t)) /\
  ((0 <= limit)%Z -> (length recent <= Z.to_nat limit)%nat) /\
  (load file = None -> recent = []).
Proof.
  cbn zeta. unfold get_recent_activities.
  destruct (load file) as [records|]; cbn [default from_option id].
  - destruct (slice_to_sublist limit
                (rev (if negb (str_eqb t "")
                      then List.filter (fun a => str_eqb (record_type a) t) records
                      else records))) as [Hs Hl].
    split; [|split; [exact Hl|discriminate]].
    intros a Ha. pose proof (elem_of_sublist _ _ _ Ha Hs) as Hin.
    apply list_elem_of_In, List.in_rev in Hin.
    destruct (str_eqb t "") eqn:En; cbn [negb] in Hin.
    + split; [apply list_elem_of_In; exact Hin|].
      intros Hne. apply bool_decide_eq_true in En. contradiction.
    + apply List.filter_In in Hin as [Hin Hf]. split; [apply list_elem_of_In; exact Hin|].
      intros _. apply bool_decide_eq_true in Hf. exact Hf.
  - split; [intros a Ha; inversion Ha|]. split; [cbn; lia|reflexivity].
Qed.

End Logger.

(** * Percentages and sheet names of the workbook *)

Section PercentagesExact.
Local Open Scope Q_scope.
Variable float_of_str : string -> option Q.


End PercentagesExact.

(** *** Sheets and headers *)

Lemma canon_sheets_spec (available : list string) :
  forall (canon : gmap string string) (k : string),
    match fold_left (fun canon s => <[remove_spaces (lower s) := s]> canon) available canon !! k
    with
    | Some s => (s ∈ available /\ sheet_key s = k) \/ canon !! k = Some s
    | None => canon !! k = None /\ forall s, s ∈ available -> sheet_key s <> k
    end.
Proof.
  induction available as [|s0 rest IH]; intros canon k.
  - cbn [fold_left]. destruct (canon !! k); [right; reflexivity|].
    split; [reflexivity|]. intros s Hs. inversion Hs.
  - cbn [fold_left]. specialize (IH (<[remove_spaces (lower s0) := s0]> canon) k).
    destruct (fold_left _ rest _ !! k) as [s|].
    + destruct IH as [[Hin Hk]|Hl].
      * left. split; [right; exact Hin|exact Hk].
      * destruct (decide (remove_spaces (lower s0) = k)) as [E|E].
        -- rewrite E, lookup_insert_eq in Hl. injection Hl as ->.
           left. split; [left|exact E].
        -- rewrite lookup_insert_ne in Hl by exact E. right. exact Hl.
    + destruct IH as [Hl Hn].
      destruct (decide (remove_spaces (lower s0) = k)) as [E|E].
      * rewrite E, lookup_insert_eq in Hl. discriminate.
      * rewrite lookup_insert_ne in Hl by exact E. split; [exact Hl|].
        intros s Hs. apply elem_of_cons in Hs as [->|Hs]; [exact E|apply Hn; exact Hs].
Qed.

(** X17.  [pick] returns a sheet of the workbook whose name is one of the
    candidate names, case and spaces apart; when it returns none, no sheet
    of the workbook has such a name. *)
Theorem pick_finds_a_named_sheet (available candidates : list string) :
  match pick available candidates with
  | Some s => s ∈ available /\ exists c, c ∈ candidates /\ sheet_key s = sheet_key c
  | None => forall s c, s ∈ available -> c ∈ candidates -> sheet_key s <> sheet_key c
  end.
Proof.
  induction candidates as [|c0 rest IH]; cbn [pick].
  - intros s c _ Hc. inversion Hc.
  - pose proof (canon_sheets_spec available ∅ (remove_spaces (lower c0))) as Hc.
    unfold canon_sheets. destruct (fold_left _ available ∅ !! _) as [s|].
    + destruct Hc as [[Hin Hk]|Hl]; [|rewrite lookup_empty in Hl; discriminate].
      split; [exact Hin|]. exists c0. split; [left|exact Hk].
    + destruct Hc as [_ Hn].
      fold (canon_sheets available) in IH.
      destruct (pick available rest) as [s|].
      * destruct IH as (Hin & c & Hc & Hk). split; [exact Hin|].
        exists c. split; [right; exact Hc|exact Hk].
      * intros s c Hs Hc. apply elem_of_cons in Hc as [->|Hc].
        -- apply Hn. exact Hs.
        -- apply IH; assumption.
Qed.

(** * The headers of the workbook *)

(** [strip] is idempotent. *)
Lemma rstrip_idem (s : string) : rstrip (rstrip s) = rstrip s.
Proof.
  induction s as [|c r IH]; [reflexivity|].
  cbn [rstrip]. destruct (rstrip r) as [|c' r'] eqn:E.
  - destruct (is_space c) eqn:Ec; [reflexivity|]. cbn [rstrip]. rewrite Ec. reflexivity.
  - cbn [rstrip]. cbn [rstrip] in IH. rewrite IH. reflexivity.
Qed.

Lemma lstrip_rstrip (s : string) : lstrip (rstrip (lstrip s)) = rstrip (lstrip s).
Proof.
  induction s as [|c r IH]; [reflexivity|].
  cbn [lstrip]. destruct (is_space c) eqn:Ec; [exact IH|].
  cbn [rstrip]. destruct (rstrip r); [rewrite Ec|]; cbn [lstrip]; rewrite Ec; reflexivity.
Qed.

Lemma strip_idem (s : string) : strip (strip s) = strip s.
Proof. unfold strip. rewrite lstrip_rstrip. apply rstrip_idem. Qed.

Lemma canonize_idem (mapping : list (string * string)) (columns : list string) :
  canonical mapping ->
  _canonize mapping (_canonize mapping columns) = _canonize mapping columns.
Proof.
  intros Hc. unfold _canonize. rewrite List.map_map. apply List.map_ext. intros c.
  destruct ((list_to_map mapping : gmap string string) !! lower (strip c)) as [canon|] eqn:E.
  - apply elem_of_list_to_map_2 in E.
    unfold canonical in Hc. rewrite Forall_forall in Hc.
    destruct (Hc _ E) as [Hne Hfix]. cbn [snd] in Hne, Hfix.
    assert (En : str_eqb canon "" = false) by (apply bool_decide_eq_false; exact Hne).
    rewrite En, Hfix, En. reflexivity.
  - rewrite strip_idem, E. reflexivity.
Qed.

(** X18.  Renaming the headers of a sheet twice with [_canonize] and the
    mapping of the sheet (fees, investors, companies) gives what renaming
    them once gives, and the headers it returns have no white space at
    either end. *)
Theorem canonize_is_idempotent (columns : list string) :
  _canonize fee_map (_canonize fee_map columns) = _canonize fee_map columns /\
  _canonize inv_map (_canonize inv_map columns) = _canonize inv_map columns /\
  _canonize co_map (_canonize co_map columns) = _canonize co_map columns /\
  Forall (fun c => strip c = c) (_canonize fee_map columns).
Proof.
  assert (C : forall mapping,
             (forallb (fun entry : string * string =>
                negb (str_eqb entry.2 "") &&
                bool_decide ((list_to_map mapping : gmap string string)
                               !! lower (strip (strip entry.2)) = Some entry.2))
              mapping = true) -> canonical mapping).
  { intros mapping Hb. unfold canonical. rewrite Forall_forall. intros entry Hin.
    rewrite forallb_forall in Hb. apply list_elem_of_In in Hin.
    specialize (Hb _ Hin). apply andb_prop in Hb as [H1 H2].
    apply bool_decide_eq_true in H2. split; [|exact H2].
    intros E. rewrite E in H1. discriminate. }
  split; [apply canonize_idem, C; vm_compute; reflexivity|].
  split; [apply canonize_idem, C; vm_compute; reflexivity|].
  split; [apply canonize_idem, C; vm_compute; reflexivity|].
  rewrite Forall_forall. intros c Hc. unfold _canonize in Hc.
  apply list_elem_of_In, in_map_iff in Hc as (c0 & <- & _).
  destruct (_ !! _) as [canon|]; [destruct (str_eqb canon "")|]; apply strip_idem.
Qed.

(** *** The column that [_pick_col] detects *)

Lemma find_some_in {A} (f : A -> bool) (l : list A) (x : A) :
  List.find f l = Some x -> x ∈ l /\ f x = true.
Proof. intros E. apply List.find_some in E as [Hin Hf]. split; [apply list_elem_of_In|]; assumption. Qed.

Lemma find_none_all {A} (f : A -> bool) (l : list A) :
  List.find f l = None -> forall x, x ∈ l -> f x = false.
Proof. intros E x Hx. apply (List.find_none f l E). apply list_elem_of_In. exact Hx. Qed.

Lemma pick_preferred_in (cols preferred : list string) (c : string) :
  pick_preferred cols preferred = Some c ->
  c ∈ cols /\ exists p, p ∈ preferred /\ _norm_hdr c = _norm_hdr p.
Proof.
  induction preferred as [|p rest IH]; [discriminate|]. cbn [pick_preferred].
  destruct (List.find _ cols) as [c0|] eqn:E.
  - intros Ec. injection Ec as <-. apply find_some_in in E as [Hin Hf].
    apply bool_decide_eq_true in Hf. split; [exact Hin|]. exists p. split; [left|exact Hf].
  - intros Ec. destruct (IH Ec) as (Hin & p0 & Hp & Hn).
    split; [exact Hin|]. exists p0. split; [right; exact Hp|exact Hn].
Qed.

Lemma pick_preferred_none (cols preferred : list string) :
  pick_preferred cols preferred = None ->
  forall c p, c ∈ cols -> p ∈ preferred -> _norm_hdr c <> _norm_hdr p.
Proof.
  induction preferred as [|p0 rest IH]; intros E c p Hc Hp; [inversion Hp|].
  cbn [pick_preferred] in E. destruct (List.find _ cols) as [c0|] eqn:Ef; [discriminate|].
  apply elem_of_cons in Hp as [->|Hp].
  - pose proof (find_none_all _ _ Ef c Hc) as Hf. apply bool_decide_eq_false in Hf. exact Hf.
  - apply IH; assumption.
Qed.

(** X19.  What [_pick_col] returns is a header of the sheet that equals a
    preferred name or contains the first token, punctuation and case
    apart; or else the first preferred name, when no header equals a
    preferred name or contains the first token; or else, without
    preferred names, the first header.  It returns None only without
    preferred names and without headers. *)
Theorem pick_col_result (cols preferred must_contain_all : list string) :
  match _pick_col cols preferred must_contain_all with
  | Some c =>
      (c ∈ cols /\
       ((exists p, p ∈ preferred /\ _norm_hdr c = _norm_hdr p) \/
        exists t, head must_contain_all = Some t /\ contains (_norm_hdr t) (_norm_hdr c) = true))
      \/
      (head preferred = Some c /\
       (forall c' p, c' ∈ cols -> p ∈ preferred -> _norm_hdr c' <> _norm_hdr p) /\
       (forall c' t, c' ∈ cols -> head must_contain_all = Some t ->
                     contains (_norm_hdr t) (_norm_hdr c') = false))
      \/
      (preferred = [] /\ head cols = Some c)
  | None => preferred = [] /\ cols = []
  end.
Proof.
  unfold _pick_col.
  destruct (pick_preferred cols preferred) as [c|] eqn:E1.
  { left. destruct (pick_preferred_in _ _ _ E1) as (Hin & Hp). split; [exact Hin|]. left. exact Hp. }
  pose proof (pick_preferred_none _ _ E1) as N1.
  destruct must_contain_all as [|t tokens].
  - destruct preferred as [|p rest].
    + destruct cols as [|c cols']; [split; reflexivity|]. right. right. split; reflexivity.
    + right. left. split; [reflexivity|]. split; [exact N1|]. intros c' t' _ Ht. discriminate.
  - destruct (List.find _ cols) as [c|] eqn:E2.
    { apply find_some_in in E2 as [Hin Hf]. left. split; [exact Hin|]. right.
      exists t. split; [reflexivity|]. cbn [List.map forallb] in Hf.
      apply andb_prop in Hf as [Hf _]. exact Hf. }
    destruct (List.find (fun c => contains (_norm_hdr t) (_norm_hdr c)) cols) as [c|] eqn:E3.
    { apply find_some_in in E3 as [Hin Hf]. left. split; [exact Hin|]. right.
      exists t. split; [reflexivity|exact Hf]. }
    pose proof (find_none_all _ _ E3) as N3.
    destruct preferred as [|p rest].
    + destruct cols as [|c cols']; [split; reflexivity|]. right. right. split; reflexivity.
    + right. left. split; [reflexivity|]. split; [exact N1|].
      intros c' t' Hc' Ht. injection Ht as <-. apply N3. exact Hc'.
Qed.

Lemma find_all_false {A} (f : A -> bool) (l : list A) :
  (forall x, x ∈ l -> f x = false) -> List.find f l = None.
Proof.
  induction l as [|x l IH]; intros Hf; [reflexivity|].
  cbn [List.find]. rewrite (Hf x) by left. apply IH. intros y Hy. apply Hf. right. exact Hy.
Qed.

(** When no header contains the first token, [_pick_col] falls back on the
    preferred names. *)
Lemma pick_col_without_first_token (cols preferred : list string) (t : string)
    (tokens : list string) :
  (forall c, c ∈ cols -> contains (_norm_hdr t) (_norm_hdr c) = false) ->
  _pick_col cols preferred (t :: tokens) =
  match pick_preferred cols preferred with
  | Some c => Some c
  | None => match preferred with p :: _ => Some p | [] => head cols end
  end.
Proof.
  intros Hnone. unfold _pick_col.
  destruct (pick_preferred cols preferred); [reflexivity|].
  rewrite find_all_false.
  - rewrite (find_all_false _ _ Hnone). reflexivity.
  - intros c Hc. cbn [List.map forallb]. rewrite (Hnone c Hc). reflexivity.
Qed.

(** X20.  When no header of the company sheet contains 'company', the name
    column that [__init__] detects is 'Company Name', which is no column of
    the sheet, and [find_company_row] finds nothing for any query, without
    raising and without changing the sheet. *)
Theorem undetected_name_column_finds_nothing rf ex regex_search
    (self : ExcelLocalThreeSheet) (company_query : string) :
  _co_company_name_col self
    = _pick_col (columns (cos self)) ["Company Name"] ["company"; "name"] ->
  (forall c, c ∈ columns (cos self) -> contains "company" (_norm_hdr c) = false) ->
  _co_company_name_col self = Some "Company Name" /\
  find_company_row rf ex regex_search self company_query = (self, Ok None).
Proof.
  intros Hcol Hnone.
  assert (Hnot : "Company Name" ∉ columns (cos self)).
  { intros Hin. specialize (Hnone _ Hin). vm_compute in Hnone. discriminate. }
  assert (Hc : _co_company_name_col self = Some "Company Name").
  { rewrite Hcol, (pick_col_without_first_token _ _ "company" ["name"] Hnone).
    destruct (pick_preferred _ _) as [c|] eqn:E; [|reflexivity].
    destruct (pick_preferred_in _ _ _ E) as (Hin & p & Hp & Hn).
    apply elem_of_cons in Hp as [->|Hp]; [|inversion Hp].
    specialize (Hnone _ Hin). rewrite Hn in Hnone. vm_compute in Hnone. discriminate. }
  split; [exact Hc|].
  unfold find_company_row. rewrite Hc.
  change (str_eqb "Company Name" "") with false. cbn [orb].
  assert (Hh : has_column (cos self) "Company Name" = false).
  { apply bool_decide_eq_false. exact Hnot. }
  rewrite Hh. reflexivity.
Qed.

(** * Rows that the lookups return *)

Lemma first_row_select (f : row -> bool) (df : DataFrame) (r : row) :
  first_row (select f df) = Some r -> r ∈ rows df /\ f r = true.
Proof.
  unfold first_row, select. cbn [rows]. intros E.
  assert (Hin : In r (List.filter f (rows df))).
  { destruct (List.filter f (rows df)); [discriminate|]. injection E as ->. left. reflexivity. }
  apply List.filter_In in Hin as [Hin Hf]. split; [apply list_elem_of_In; exact Hin|exact Hf].
Qed.

Lemma first_row_in (df : DataFrame) (r : row) : first_row df = Some r -> r ∈ rows df.
Proof.
  unfold first_row. destruct (rows df); [discriminate|]. intros E. injection E as ->. left.
Qed.

Lemma select_all (f : row -> bool) (df : DataFrame) :
  (forall r, f r = true) -> rows (select f df) = rows df.
Proof.
  intros Hf. unfold select. cbn [rows]. induction (rows df) as [|r l IH]; [reflexivity|].
  cbn [List.filter]. rewrite Hf, IH. reflexivity.
Qed.

Lemma select_none (f : row -> bool) (df : DataFrame) :
  (forall r, r ∈ rows df -> f r = false) -> is_empty (select f df) = true.
Proof.
  intros Hf. unfold is_empty, select. cbn [rows].
  induction (rows df) as [|r l IH]; [reflexivity|].
  cbn [List.filter]. rewrite (Hf r) by left. apply IH. intros r' Hr. apply Hf. right. exact Hr.
Qed.

Ltac head_case E :=
  match goal with
  | |- (match ?x with _ => _ end) = _ -> _ => destruct x eqn:E
  end.

Section Lookups.
Variable rapidfuzz_installed : bool.
Variable extractOne : string -> list string -> option (string * Q * nat).
Variable extract : string -> list string -> list (string * Q * nat).
Variable regex_search : string -> option (string -> bool).
Variable to_datetime : cell -> cell.
Variable sort_by_date_and_deposit : list row -> list row.
Variable sort_by_deposit : list row -> list row.

Abbreviation find_investor := (find_investor_row rapidfuzz_installed extract).
Abbreviation find_fee :=
  (find_fee_row rapidfuzz_installed extractOne regex_search to_datetime
                sort_by_date_and_deposit sort_by_deposit).
Abbreviation find_company := (find_company_row rapidfuzz_installed extractOne).
Abbreviation resolve :=
  (resolve_payload rapidfuzz_installed extractOne extract regex_search to_datetime
                   sort_by_date_and_deposit sort_by_deposit).

(** X21.  A blank company query finds a company: when the name column is a
    column of a company sheet with rows and the empty pattern matches
    every string, [find_company_row] returns for a query of white space
    only a row of the sheet, the first one unless a row has a blank
    name. *)
Theorem blank_company_query_is_found (self : ExcelLocalThreeSheet)
    (name_col company_query : string) (matches_empty : string -> bool) :
  regex_search "" = Some matches_empty ->
  (forall s, matches_empty s = true) ->
  _co_company_name_col self = Some name_col ->
  name_col <> "" ->
  has_column (cos self) name_col = true ->
  rows (cos self) <> [] ->
  strip company_query = "" ->
  exists r,
    find_company regex_search self company_query = (self, Ok (Some r)) /\
    r ∈ rows (cos self) /\
    (head (rows (cos self)) = Some r \/ strip (col_str name_col r) = "").
Proof.
  intros Hs Hall Hc Hn Hh Hr Hq. unfold find_company_row. rewrite Hc.
  assert (En : str_eqb name_col "" = false) by (apply bool_decide_eq_false; exact Hn).
  rewrite En, Hh, Hq. cbn [orb negb lower str_map].
  destruct (first_row (select _ (cos self))) as [r|] eqn:E1.
  - exists r. split; [reflexivity|].
    apply first_row_select in E1 as [Hin Hf]. split; [exact Hin|]. right.
    apply bool_decide_eq_true in Hf.
    destruct (strip (col_str name_col r)); [reflexivity|discriminate].
  - rewrite Hs.
    assert (Ea : rows (select (fun r => matches_empty (lower (col_str name_col r))) (cos self))
                 = rows (cos self)).
    { apply select_all. intros r. apply Hall. }
    unfold first_row at 1. rewrite Ea.
    destruct (rows (cos self)) as [|r0 rest] eqn:Erows; [contradiction Hr; reflexivity|].
    exists r0. cbn [head]. split; [reflexivity|]. split; [left|left; reflexivity].
Qed.

Lemma fuzzy_round_in (self : ExcelLocalThreeSheet) (investor_query col : string) (r : row) :
  fuzzy_investor_round rapidfuzz_installed extract self investor_query col = Ok (Some r) ->
  r ∈ rows (inv self).
Proof.
  unfold fuzzy_investor_round.
  destruct (negb (has_column _ col)); [discriminate|].
  destruct (List.map _ _) as [|c0 cs] eqn:Ec; [discriminate|].
  destruct (negb rapidfuzz_installed); [discriminate|].
  destruct (1 <? _)%nat; [discriminate|].
  destruct (List.filter _ _) as [|hit hits]; [discriminate|].
  intros E. apply bind_ok_inv in E as (idx & _ & E). injection E as E.
  eapply list_elem_of_lookup_2. exact E.
Qed.

(** X22.  A row that [find_investor_row] returns is a row of the investor
    sheet; a row that [find_company_row] returns is a row of the company
    sheet as the lookup leaves it, which is the sheet given or that sheet
    with the column of normalised names added. *)
Theorem lookups_return_sheet_rows :
  (forall (self : ExcelLocalThreeSheet) (investor_query : string) (r : row),
     find_investor self investor_query = Ok (Some r) -> r ∈ rows (inv self)) /\
  (forall (self self' : ExcelLocalThreeSheet) (company_query : string) (r : row),
     find_company regex_search self company_query = (self', Ok (Some r)) ->
     r ∈ rows (cos self') /\
     (self' = self \/
      exists name_col,
        _co_company_name_col self = Some name_col /\
        self' = set_cos self (with_norm_column name_col (cos self)))).
Proof.
  split.
  - intros self investor_query r. unfold find_investor_row.
    destruct (if _ && _ then _ else None) as [r1|] eqn:E1.
    { intros E. injection E as <-.
      destruct (_ && _); [|discriminate]. apply first_row_select in E1 as [Hin _]. exact Hin. }
    destruct (if has_column _ "Custodian Client Ref" then _ else None) as [r2|] eqn:E2.
    { intros E. injection E as <-.
      destruct (has_column (inv self) "Custodian Client Ref"); [|discriminate].
      apply first_row_select in E2 as [Hin _].
      exact Hin. }
    intros E. apply bind_ok_inv in E as (found & Hf & E).
    destruct found as [r3|].
    { injection E as <-. destruct (has_column _ "__full__"); [|discriminate].
      destruct (first_row (investor_exact_matches _ _)) as [r4|] eqn:E4.
      - injection Hf as <-. apply first_row_select in E4 as [Hin _]. exact Hin.
      - destruct (1 <? _)%nat; [discriminate|]. injection Hf as Hf.
        apply first_row_select in Hf as [Hin _]. exact Hin. }
    apply bind_ok_inv in E as (found & Hf1 & E).
    destruct found as [r5|].
    { injection E as <-. eapply fuzzy_round_in. exact Hf1. }
    eapply fuzzy_round_in. exact E.
  - intros self self' company_query r. unfold find_company_row.
    destruct (_co_company_name_col self) as [name_col|]; [|discriminate].
    head_case E0; [discriminate|].
    head_case E1.
    { intros E. injection E as <- <-. apply first_row_select in E1 as [Hin _].
      split; [exact Hin|left; reflexivity]. }
    head_case Ere; [|discriminate].
    head_case E2.
    { intros E. injection E as <- <-. apply first_row_select in E2 as [Hin _].
      split; [exact Hin|left; reflexivity]. }
    set (self1 := set_cos self _).
    head_case E3.
    { intros E. injection E as <- <-. apply first_row_select in E3 as [Hin _].
      split; [exact Hin|right; exists name_col; split; reflexivity]. }
    head_case E4.
    { intros E. injection E as <- <-. apply first_row_select in E4 as [Hin _].
      split; [exact Hin|right; exists name_col; split; reflexivity]. }
    head_case E5.
    { intros E. injection E as <- <-. apply first_row_select in E5 as [Hin _].
      split; [exact Hin|right; exists name_col; split; reflexivity]. }
    head_case E6; [|discriminate].
    head_case E7; [|discriminate].
    intros E. injection E as <- E.
    apply bind_ok_inv in E as (idx & _ & E). injection E as E.
    split; [eapply list_elem_of_lookup_2; exact E|right; exists name_col; split; reflexivity].
Qed.

(** Every frame that links fee rows by name is a selection of the fee
    sheet. *)
Lemma fee_rows_by_name_rows (self : ExcelLocalThreeSheet) (name : string) (df : DataFrame) :
  (fee_rows_by_name rapidfuzz_installed extractOne regex_search self name).2 = Ok df ->
  forall r, r ∈ rows df -> r ∈ rows (fees self).
Proof.
  assert (S : forall f r, r ∈ rows (select f (fees self)) -> r ∈ rows (fees self)).
  { intros f r Hr. unfold select in Hr. cbn [rows] in Hr.
    apply list_elem_of_In, List.filter_In in Hr as [Hr _]. apply list_elem_of_In. exact Hr. }
  unfold fee_rows_by_name.
  set (df1 := if is_empty (select _ (fees self)) then select _ (fees self) else select _ (fees self)).
  assert (H1 : forall r, r ∈ rows df1 -> r ∈ rows (fees self)).
  { unfold df1. destruct (is_empty _); apply S. }
  clearbody df1.
  set (df2 := if is_empty df1 then _ else df1).
  assert (H2 : forall r, r ∈ rows df2 -> r ∈ rows (fees self)).
  { unfold df2. destruct (is_empty df1); [|exact H1].
    destruct (2 <=? _)%nat; [|exact H1]. destruct (is_empty _); apply S. }
  clearbody df2.
  destruct (is_empty df2 && _).
  - destruct (regex_search _) as [f1|]; [|discriminate].
    destruct (regex_search _) as [f2|]; [|discriminate].
    destruct (is_empty _ && _); cbn [snd]; intros E; injection E as <-; apply S.
  - destruct (is_empty _ && _); cbn [snd]; intros E; injection E as <-; exact H2.
Qed.

(** X23.  A subscription code that no fee row has, case and surrounding white
    space apart, is ignored: [find_fee_row] returns what it returns
    without a code. *)
Theorem unmatched_subscription_code_is_ignored (self : ExcelLocalThreeSheet)
    (cust_ref : option cell) (code : string) (investor_full_name : option string) :
  (forall r, r ∈ rows (fees self) ->
     lower (strip (col_str "Subscription code" r)) <> lower (strip code)) ->
  find_fee self cust_ref (Some code) investor_full_name =
  find_fee self cust_ref None investor_full_name.
Proof.
  intros Hno. unfold find_fee_row.
  destruct (negb (has_column _ _)); [reflexivity|].
  set (df0 := select _ (fees self)).
  assert (H0 : forall r, r ∈ rows df0 -> r ∈ rows (fees self)).
  { intros r Hr. unfold df0, select in Hr. cbn [rows] in Hr.
    apply list_elem_of_In, List.filter_In in Hr as [Hr _]. apply list_elem_of_In. exact Hr. }
  set (pl := if _ && _ && _ then _ else (None, Ok df0)).
  assert (Hl : forall df, pl.2 = Ok df -> forall r, r ∈ rows df -> r ∈ rows (fees self)).
  { unfold pl. destruct (_ && _ && _).
    - apply fee_rows_by_name_rows.
    - cbn [snd]. intros df E. injection E as <-. exact H0. }
  clearbody pl. destruct pl as [printed linked]. cbn [snd] in Hl. f_equal.
  destruct linked as [df|e]; [|reflexivity]. cbn [mbind result_bind].
  destruct (is_empty df); [reflexivity|].
  destruct (has_column (fees self) "Subscription code"); [|reflexivity].
  assert (Es : is_empty (select (fun r => str_eqb (lower (strip (col_str "Subscription code" r)))
                                            (lower (strip code))) df) = true).
  { apply select_none. intros r Hr. apply bool_decide_eq_false. apply Hno.
    eapply Hl; [reflexivity|exact Hr]. }
  rewrite Es. reflexivity.
Qed.

End Lookups.

(** * The payload *)

Section Payload.
Variable rapidfuzz_installed : bool.
Variable extractOne : string -> list string -> option (string * Q * nat).
Variable extract : string -> list string -> list (string * Q * nat).
Variable regex_search : string -> option (string -> bool).
Variable to_datetime : cell -> cell.
Variable sort_by_date_and_deposit : list row -> list row.
Variable sort_by_deposit : list row -> list row.

Abbreviation resolve :=
  (resolve_payload rapidfuzz_installed extractOne extract regex_search to_datetime
                   sort_by_date_and_deposit sort_by_deposit).

Lemma resolve_payload_inv (self self' : ExcelLocalThreeSheet)
    (investor_query company_query : string) (subscription_code : option string) (p : payload) :
  resolve self investor_query company_query subscription_code = (self', Ok p) ->
  classification p = _class_from_fund (fee p !! "Fund") /\
  investment_type p = _norm_gross_net (fee p !! "Gross/Net") /\
  (using_default_rates p = true ->
   exists cust_ref full_name, fee p = default_fee_row cust_ref full_name).
Proof.
  unfold resolve_payload.
  head_case E1; [|discriminate].
  head_case E2; [discriminate|].
  head_case E3; [|discriminate].
  destruct (find_company_row _ _ _ _ _) as [self1 co_found].
  destruct co_found as [co|e]; [|discriminate].
  head_case E4; [discriminate|].
  intros E. injection E as <- <-. cbn [classification investment_type fee using_default_rates].
  split; [reflexivity|]. split; [reflexivity|].
  intros ->. eexists _, _. reflexivity.
Qed.

Lemma default_fee_row_fund (cust_ref : option cell) (full_name : string) :
  default_fee_row cust_ref full_name !! "Fund" = Some (Str "Retail") /\
  default_fee_row cust_ref full_name !! "Gross/Net" = Some (Str "Net").
Proof.
  unfold default_fee_row. destruct cust_ref as [v|].
  - rewrite !lookup_insert_ne by discriminate. split; vm_compute; reflexivity.
  - split; vm_compute; reflexivity.
Qed.

Lemma class_from_fund_values (fund : option cell) :
  _class_from_fund fund = "professional" \/ _class_from_fund fund = "retail".
Proof.
  unfold _class_from_fund. destruct (contains "pro" _); [left; reflexivity|].
  destruct (contains "retail" _); right; reflexivity.
Qed.

(** X24.  A payload that [resolve_payload] returns has the classification
    'professional' or 'retail' and the investment type 'net' or 'gross',
    and [calc_breakdown] calculates with that classification when it is
    passed as investor_type.  A fee row without Fund is retail, one
    without Gross/Net is gross, one whose Gross/Net cell is empty (NaN) is
    net; with the default rates the payload is retail and net. *)
Theorem payload_classification {F} `{PyFloat F} (float_repr : F -> string)
    (self self' : ExcelLocalThreeSheet)
    (investor_query company_query : string) (subscription_code : option string) (p : payload) :
  resolve self investor_query company_query subscription_code = (self', Ok p) ->
  (classification p = "professional" \/ classification p = "retail") /\
  (investment_type p = "net" \/ investment_type p = "gross") /\
  resolve_investor_type float_repr
    (Some {[ "investor_type" := PStr (classification p) ]}) = classification p /\
  (fee p !! "Fund" = None -> classification p = "retail") /\
  (fee p !! "Gross/Net" = None -> investment_type p = "gross") /\
  (fee p !! "Gross/Net" = Some NaN -> investment_type p = "net") /\
  (using_default_rates p = true ->
   classification p = "retail" /\ investment_type p = "net").
Proof.
  intros E. destruct (resolve_payload_inv _ _ _ _ _ _ E) as (Hc & Hi & Hd).
  split; [rewrite Hc; apply class_from_fund_values|].
  split; [rewrite Hi; unfold _norm_gross_net; destruct (starts_with _ _);
          [left|right]; reflexivity|].
  split.
  - destruct (class_from_fund_values (fee p !! "Fund")) as [Hp|Hr];
      rewrite Hc; [rewrite Hp|rewrite Hr]; vm_compute; reflexivity.
  - split; [intros En; rewrite Hc, En; reflexivity|].
    split; [intros En; rewrite Hi, En; reflexivity|].
    split; [intros En; rewrite Hi, En; reflexivity|].
    intros Hu. destruct (Hd Hu) as (cust_ref & full_name & Hf).
    destruct (default_fee_row_fund cust_ref full_name) as [H1 H2].
    rewrite Hc, Hi, Hf, H1, H2. split; reflexivity.
Qed.

End Payload.

(** * Scenarios of these properties *)

Section ExactScenarios.
Local Open Scope Q_scope.

Abbreviation defaults := (@DEFAULT_FEE_STRUCTURE Q _).





End ExactScenarios.

Section Scenarios.

Abbreviation dictQ := (gmap string (pyval Q)).

Lemma legacy_discounts_raise_witness :
  calculate_fees (F:=Q) (fun _ => None) 1000%Q false None (Some {[ "tier" := PStr "vip" ]})
  = Raised (Builtin (KeyError "management_fee_rate")).
Proof.
  pose proof (legacy_discounts_raise (F:=Q) (fun _ => None) 1000%Q false None
                {[ "tier" := PStr "vip" ]} DEFAULT_FEE_STRUCTURE eq_refl) as W.
  apply W.
  - intros v E. vm_compute in E. injection E as <-. reflexivity.
  - intros E. vm_compute in E. discriminate.
Defined.

Abbreviation validate_at :=
  (validate_fee_letter_request (F:=Q) (fun _ => None) (fun _ => "") (fun _ => "")).

Lemma auto_approve_requirements_witness :
  exists r,
    validate_at complete_investor complete_company complete_investment = Returned r /\
    auto_approve r = true /\
    warnings r = [] /\
    risk_level r = "LOW" /\
    has_status complete_investor "KYC_Status" "complete" /\
    has_status complete_investor "AML_Status" "clear".
Proof.
  destruct (validate_at complete_investor complete_company complete_investment)
    as [r|e] eqn:E; [|vm_compute in E; discriminate].
  assert (Ha : auto_approve r = true).
  { vm_compute in E. injection E as <-. reflexivity. }
  exists r. split; [reflexivity|]. split; [exact Ha|].
  destruct (auto_approve_requirements (F:=Q) _ _ _ _ _ _ r E Ha)
    as (_ & _ & Hw & Hl & _ & Hk & Hm).
  repeat split; assumption.
Defined.

Lemma validation_verdict_witness :
  exists r,
    validate_at ∅ complete_company complete_investment = Returned r /\
    is_valid r = false /\
    missing_fields r = ["investor.First Name"; "investor.Last Name"; "investor.Contact email"] /\
    (3 <= length (remediation_suggestions r))%nat.
Proof.
  destruct (validate_at ∅ complete_company complete_investment)
    as [r|e] eqn:E; [|vm_compute in E; discriminate].
  exists r. split; [reflexivity|].
  destruct (validation_verdict (F:=Q) _ _ _ _ _ _ r E) as (Hm & Hv & Hl & _).
  assert (Em : missing_fields r
               = ["investor.First Name"; "investor.Last Name"; "investor.Contact email"]).
  { rewrite Hm. vm_compute. reflexivity. }
  split; [|split; [exact Em|]].
  - destruct (is_valid r); [|reflexivity].
    destruct (proj1 Hv eq_refl) as [Hn _]. rewrite Em in Hn. discriminate.
  - rewrite Em in Hl. cbn [length] in Hl. lia.
Defined.

Lemma fee_limits_need_retail_classification_witness :
  validate_at (delete "classification" complete_investor)
              (<["Upfront Fee %" := PFloat (5 # 1)]> complete_company) complete_investment =
  validate_at (delete "classification" complete_investor) complete_company complete_investment.
Proof.
  apply (fee_limits_need_retail_classification (F:=Q)).
  - left. reflexivity.
  - vm_compute. discriminate.
Defined.

Lemma find_best_match_result_witness :
  let m := <["_match_score" := PFloat 1%Q]> jacob in
  find_best_match (F:=Q) (fun _ => "") (fun _ _ => 0%Q) "jacob pedersen" [jacob] "name"
    (7 # 10)%Q = ([m], Some m) /\
  m ∈ [m] /\
  marked (fun _ => "") (fun _ _ => 0%Q) "jacob pedersen" "name" (7 # 10)%Q [jacob] m.
Proof.
  cbn zeta.
  assert (E : find_best_match (F:=Q) (fun _ => "") (fun _ _ => 0%Q) "jacob pedersen" [jacob]
                "name" (7 # 10)%Q
              = ([<["_match_score" := PFloat 1%Q]> jacob],
                 Some (<["_match_score" := PFloat 1%Q]> jacob))) by by_evaluation.
  split; [exact E|].
  exact (proj2 (proj2 (find_best_match_result (F:=Q) _ _ _ _ _ _ _ _ E)) _ eq_refl).
Defined.

Lemma undetected_name_column_finds_nothing_witness :
  _co_company_name_col nameless_sheet = Some "Company Name" /\
  find_company_row false (fun _ _ => None) literal_search nameless_sheet "Blue-Sky"
  = (nameless_sheet, Ok None).
Proof.
  apply (undetected_name_column_finds_nothing false (fun _ _ => None) literal_search
           nameless_sheet "Blue-Sky").
  - vm_compute. reflexivity.
  - intros c Hc. apply elem_of_cons in Hc as [->|Hc]; [vm_compute; reflexivity|].
    apply elem_of_cons in Hc as [->|Hc]; [vm_compute; reflexivity|]. inversion Hc.
Defined.

Lemma blank_company_query_is_found_witness :
  exists r,
    find_company_row false (fun _ _ => None) literal_search workbook "  "
      = (workbook, Ok (Some r)) /\
    r ∈ rows (cos workbook) /\
    (head (rows (cos workbook)) = Some r \/ strip (col_str "Company Name" r) = "").
Proof.
  apply (blank_company_query_is_found false (fun _ _ => None) literal_search workbook
           "Company Name" "  " (contains "")).
  - reflexivity.
  - intros s. destruct s; reflexivity.
  - reflexivity.
  - discriminate.
  - vm_compute. reflexivity.
  - discriminate.
  - vm_compute. reflexivity.
Defined.

Lemma unmatched_subscription_code_is_ignored_witness :
  find_fee_row false (fun _ _ => None) literal_search (fun c => c) (fun l => l) (fun l => l)
    workbook (Some (Str "CC001")) (Some "ZZ-EIS-9") None =
  find_fee_row false (fun _ _ => None) literal_search (fun c => c) (fun l => l) (fun l => l)
    workbook (Some (Str "CC001")) None None.
Proof.
  apply (unmatched_subscription_code_is_ignored false (fun _ _ => None) literal_search
           (fun c => c) (fun l => l) (fun l => l) workbook (Some (Str "CC001")) "ZZ-EIS-9" None).
  intros r Hr. apply elem_of_cons in Hr as [->|Hr]; [vm_compute; discriminate|].
  apply elem_of_cons in Hr as [->|Hr]; [vm_compute; discriminate|]. inversion Hr.
Defined.

Abbreviation resolve_with :=
  (resolve_payload false (fun _ _ => None) (fun _ _ => []) literal_search
                   (fun c => c) (fun l => l) (fun l => l)).

Lemma payload_classification_witness :
  resolve_with workbook "Alan Fox" "Blue-Sky Ventures Ltd" None
    = (workbook, Ok alan_fox_payload) /\
  resolve_investor_type (F:=Q) (fun _ => "")
    (Some {[ "investor_type" := PStr (classification alan_fox_payload) ]}) = "retail".
Proof.
  assert (E : resolve_with workbook "Alan Fox" "Blue-Sky Ventures Ltd" None
              = (workbook, Ok alan_fox_payload)) by by_evaluation.
  split; [exact E|].
  exact (proj1 (proj2 (proj2
           (payload_classification false (fun _ _ => None) (fun _ _ => []) literal_search
              (fun c => c) (fun l => l) (fun l => l) (F:=Q) (fun _ => "")
              workbook workbook "Alan Fox" "Blue-Sky Ventures Ltd" None alan_fox_payload E)))).
Defined.

End Scenarios.
